(** * Keywork TUI: state derivation and command synthesis

  A shallow embedding of [keywork/tui/state.py], [keywork/tui/sandbox.py]
  and [keywork/tui/terminal.py], the theorems that settle the statements
  of the specification about them, and further properties of the code.

  Conventions of the embedding.
  - A Python [str] is a [string]; every character is read as the code
    point of its byte, so the embedding covers texts over code points
    0..255.  The character classes of [re] and of [str.strip] are the
    ones CPython uses for those code points.
  - A Python [int] is a [Z]; [len] and list indices are [nat].
  - A file is [option string]: [None] when [Path.exists()] is false,
    and otherwise the text that [Path.read_text()] returns; a directory
    is the list of its entries.  A call in which reading a file or
    listing a directory raises (a directory under the name of a file,
    bytes that are no text) has no description in the embedding: what is
    stated of a function that reads files is stated of the calls in
    which every file that exists can be read.
  - A call that may raise returns a [result]; the exceptions of the
    process calls of [terminal.py] are outcomes of the host. *)

From Stdlib Require Import ZArith Ascii String List Lia DecimalString DecimalZ.
From stdpp Require Import gmap strings list sorting.

(** ** Exceptions *)

Inductive exn : Type :=
| ValueError
| TypeError
| AttributeError
| OverflowError
| IndexError
| OSError.

Inductive result (A : Type) : Type :=
| Ok (a : A)
| Raise (e : exn).
Arguments Ok {A} a.
Arguments Raise {A} e.

#[global] Instance result_ret : MRet result := fun A a => Ok a.

#[global] Instance result_bind : MBind result := fun A B k r =>
match r with
| Ok a => k a
| Raise e => Raise e
end.

Definition returns {A : Type} (r : result A) : Prop := ∃ a, r = Ok a.

(** ** Python built-ins used by the sources *)

Module Py.

Definition LF : ascii := "010"%char.
Definition CR : ascii := "013"%char.

Definition code (c : ascii) : N := N_of_ascii c.

Definition in_range (lo hi : N) (c : ascii) : bool :=
  (lo <=? code c)%N && (code c <=? hi)%N.

(** [str.isspace] and the class [\s] of [re] on a [str] pattern. *)
Definition is_space (c : ascii) : bool :=
  in_range 9 13 c || in_range 28 32 c
  || (code c =? 133)%N || (code c =? 160)%N.

(** The class [\d]: the decimal digits. *)
Definition is_digit (c : ascii) : bool := in_range 48 57 c.

(** The class [\w]: alphanumeric characters and the underscore. *)
Definition is_word (c : ascii) : bool :=
  is_digit c || in_range 65 90 c || in_range 97 122 c || (code c =? 95)%N
  || (code c =? 170)%N || in_range 178 179 c || (code c =? 181)%N
  || in_range 185 186 c || in_range 188 190 c
  || in_range 192 214 c || in_range 216 246 c || in_range 248 255 c.

(** The line boundaries of [str.splitlines]. *)
Definition is_linebreak (c : ascii) : bool :=
  in_range 10 13 c || in_range 28 30 c || (code c =? 133)%N.

Definition chr_eqb (a b : ascii) : bool := Ascii.eqb a b.

(** [s.startswith(p)] *)
Definition startswith (s p : string) : bool := String.prefix p s.

(** [s[n:]] *)
Fixpoint drop (n : nat) (s : string) : string :=
  match n, s with
  | O, _ => s
  | S n', String _ s' => drop n' s'
  | S _, EmptyString => EmptyString
  end.

(** [s[:n]] *)
Fixpoint take (n : nat) (s : string) : string :=
  match n, s with
  | S n', String c s' => String c (take n' s')
  | _, _ => EmptyString
  end.

(** [c in s] for a single character [c] *)
Fixpoint contains (c : ascii) (s : string) : bool :=
  match s with
  | EmptyString => false
  | String d s' => chr_eqb c d || contains c s'
  end.

(** Removal of the leading, and of the trailing, characters of a class. *)
Fixpoint lstrip_of (p : ascii → bool) (s : string) : string :=
  match s with
  | String c s' => if p c then lstrip_of p s' else s
  | EmptyString => EmptyString
  end.

Fixpoint rstrip_of (p : ascii → bool) (s : string) : string :=
  match s with
  | EmptyString => EmptyString
  | String c s' =>
      match rstrip_of p s' with
      | EmptyString => if p c then EmptyString else String c EmptyString
      | r => String c r
      end
  end.

(** [s.lstrip()] *)
Definition lstrip (s : string) : string := lstrip_of is_space s.

(** [s.strip()] *)
Definition strip (s : string) : string := rstrip_of is_space (lstrip_of is_space s).

(** Truth value of a [str]: non-empty. *)
Definition truthy (s : string) : bool :=
  match s with EmptyString => false | _ => true end.

(** [s.partition(c)]: the text before and after the first [c]; the
    whole of [s] and the empty string when [c] does not occur. *)
Fixpoint partition (c : ascii) (s : string) : string * string :=
  match s with
  | EmptyString => (EmptyString, EmptyString)
  | String d s' =>
      if chr_eqb c d then (EmptyString, s')
      else let '(k, v) := partition c s' in (String d k, v)
  end.

(** [s.splitlines()].  [after_cr] records that the previous character
    was a carriage return, whose following line feed belongs to the same
    boundary. *)
Fixpoint splitlines_from (after_cr : bool) (s : string) : list string :=
  match s with
  | EmptyString => []
  | String c s' =>
      if after_cr && chr_eqb c LF then splitlines_from false s'
      else if is_linebreak c then EmptyString :: splitlines_from (chr_eqb c CR) s'
      else match splitlines_from false s' with
           | [] => [String c EmptyString]
           | l :: ls => String c l :: ls
           end
  end.

Definition splitlines (s : string) : list string := splitlines_from false s.

(** [str(n)] for an [int]. *)
Definition str_of_int (n : Z) : string :=
  NilEmpty.string_of_int (Z.to_int n).

(** [sep.join(parts)] *)
Fixpoint join (sep : string) (parts : list string) : string :=
  match parts with
  | [] => EmptyString
  | [part] => part
  | part :: rest => part +:+ sep +:+ join sep rest
  end.

(** [l[start:]] for a start index of either sign: a negative one counts
    from the end, and both are clamped to the list. *)
Definition slice_from {A : Type} (start : Z) (l : list A) : list A :=
  let n := Z.of_nat (length l) in
  let start := if (start <? 0)%Z then Z.max (start + n) 0 else Z.min start n in
  skipn (Z.to_nat start) l.

End Py.

(** ** Regular expressions

  Each pattern of the sources is transcribed token by token with the
  combinators below.  A matcher gets the text at the current position
  and a continuation; a quantifier hands the text it consumed and the
  rest to its continuation, and tries its alternatives in the order of
  a backtracking matcher (longest first when greedy, shortest first
  when lazy). *)

Module Re.

Definition matcher (A : Type) : Type := string → option A.

(** A literal. *)
Definition lit {A : Type} (l : string) (k : matcher A) : matcher A :=
  fun s => if Py.startswith s l then k (Py.drop (String.length l) s) else None.

(** [c*], greedy. *)
Fixpoint star {A : Type} (c : ascii → bool) (k : string → matcher A)
    (s : string) : option A :=
  match s with
  | String a s' =>
      if c a then
        match star c (fun m => k (String a m)) s' with
        | Some r => Some r
        | None => k EmptyString s
        end
      else k EmptyString s
  | EmptyString => k EmptyString EmptyString
  end.

(** [c+], greedy. *)
Definition plus {A : Type} (c : ascii → bool) (k : string → matcher A)
    : matcher A :=
  fun s =>
    match s with
    | String a s' => if c a then star c (fun m => k (String a m)) s' else None
    | EmptyString => None
    end.

(** [c*?], lazy. *)
Fixpoint lazy_star {A : Type} (c : ascii → bool) (k : string → matcher A)
    (s : string) : option A :=
  match k EmptyString s with
  | Some r => Some r
  | None =>
      match s with
      | String a s' => if c a then lazy_star c (fun m => k (String a m)) s' else None
      | EmptyString => None
      end
  end.

(** [c+?], lazy. *)
Definition lazy_plus {A : Type} (c : ascii → bool) (k : string → matcher A)
    : matcher A :=
  fun s =>
    match s with
    | String a s' => if c a then lazy_star c (fun m => k (String a m)) s' else None
    | EmptyString => None
    end.

(** [.]: any character except a line feed. *)
Definition dot (c : ascii) : bool := negb (Py.chr_eqb c Py.LF).

(** [\S] *)
Definition non_space (c : ascii) : bool := negb (Py.is_space c).

(** One character of a class. *)
Definition one {A : Type} (c : ascii → bool) (k : matcher A) : matcher A :=
  fun s =>
    match s with
    | String a s' => if c a then k s' else None
    | EmptyString => None
    end.

(** [$] without [re.MULTILINE]: the end of the text, or the position
    before a line feed that ends the text. *)
Definition eol {A : Type} (k : matcher A) : matcher A :=
  fun s =>
    match s with
    | EmptyString => k s
    | String a EmptyString => if Py.chr_eqb a Py.LF then k s else None
    | _ => None
    end.

(** [$] under [re.MULTILINE]: the end of the text or the position
    before any line feed. *)
Definition eol_multiline {A : Type} (k : matcher A) : matcher A :=
  fun s =>
    match s with
    | EmptyString => k s
    | String a _ => if Py.chr_eqb a Py.LF then k s else None
    end.

(** [\b] between a known previous character and the text that follows. *)
Definition word_boundary (prev : option ascii) (s : string) : bool :=
  xorb (from_option Py.is_word false prev)
       (match s with String a _ => Py.is_word a | EmptyString => false end).

(** [re.search] of a pattern that starts with [^] under [re.MULTILINE]:
    the pattern is tried at the start of the text and after every line
    feed, leftmost first.  The result comes with the text before the
    match. *)
Fixpoint search_multiline {A : Type} (m : matcher A) (at_start : bool)
    (s : string) : option (string * A) :=
  match (if at_start then m s else None) with
  | Some r => Some (EmptyString, r)
  | None =>
      match s with
      | EmptyString => None
      | String a s' =>
          prod_map (String a) id <$> search_multiline m (Py.chr_eqb a Py.LF) s'
      end
  end.

(** [len(re.findall(p, s, re.MULTILINE))] of a pattern that starts with
    [^] and matches at least one character: [m] gives the length of the
    match at a position, and the scan resumes where a match ended
    ([skip] characters away). *)
Fixpoint findall_multiline_count (m : string → option nat) (at_start : bool)
    (skip : nat) (s : string) : nat :=
  match s with
  | EmptyString => 0
  | String a s' =>
      match skip with
      | S n => findall_multiline_count m (Py.chr_eqb a Py.LF) n s'
      | O =>
          match (if at_start then m s else None) with
          | Some len => S (findall_multiline_count m (Py.chr_eqb a Py.LF) (pred len) s')
          | None => findall_multiline_count m (Py.chr_eqb a Py.LF) 0 s'
          end
      end
  end.

(** The longest prefix of characters of a class, and what follows it. *)
Fixpoint span (c : ascii → bool) (s : string) : string * string :=
  match s with
  | String a s' =>
      if c a then prod_map (String a) id (span c s') else (EmptyString, s)
  | EmptyString => (EmptyString, EmptyString)
  end.

(** [re.finditer(p, s, re.MULTILINE)] of a pattern that starts with [^]
    and matches at least one character: [m] gives the value of a match
    and the text after it, and the scan resumes where a match ended. *)
Fixpoint finditer_multiline {A : Type} (m : matcher (A * string))
    (at_start : bool) (skip : nat) (s : string) : list A :=
  match s with
  | EmptyString => []
  | String a s' =>
      match skip with
      | S n => finditer_multiline m (Py.chr_eqb a Py.LF) n s'
      | O =>
          match (if at_start then m s else None) with
          | Some (r, rest) =>
              r :: finditer_multiline m (Py.chr_eqb a Py.LF)
                     (pred (String.length s - String.length rest)) s'
          | None => finditer_multiline m (Py.chr_eqb a Py.LF) 0 s'
          end
      end
  end.

(** The match length of a literal. *)
Definition lit_len (l : string) (s : string) : option nat :=
  if Py.startswith s l then Some (String.length l) else None.

End Re.

(** ** Floating-point and integer literals

  [float(s)] and [int(s)] of a [str].  A float is kept as the rational
  its literal denotes (the rounding to binary64 is not modelled), which
  is enough to tell when the conversion raises. *)

Inductive pyfloat : Type :=
| FFin (num : Z) (den : positive)
| FInf (neg : bool)
| FNan.

Module Num.

Definition digit_value (c : ascii) : N := (Py.code c - 48)%N.

(** The whitespace that [int] and [float] skip around a literal: the
    separators 28 to 31, which [str.strip] removes, are not part of it. *)
Definition is_blank (c : ascii) : bool :=
  Py.in_range 9 13 c || (Py.code c =? 32)%N
  || (Py.code c =? 133)%N || (Py.code c =? 160)%N.

Definition trim (s : string) : string :=
  Py.rstrip_of is_blank (Py.lstrip_of is_blank s).

(** A digit part, [digit (['_'] digit)...], longest match: the value read so far, the
    number of digits, and the text left. *)
Fixpoint digitpart (acc : N) (n : nat) (s : string) : N * nat * string :=
  match s with
  | String c s' =>
      if Py.is_digit c then digitpart (10 * acc + digit_value c)%N (S n) s'
      else if Py.chr_eqb c "_" && bool_decide (n ≠ 0) then
        match s' with
        | String d _ => if Py.is_digit d then digitpart acc n s' else (acc, n, s)
        | EmptyString => (acc, n, s)
        end
      else (acc, n, s)
  | EmptyString => (acc, n, s)
  end.

(** An optional sign: whether it is a minus, and the text after it. *)
Definition sign (s : string) : bool * string :=
  match s with
  | String "-" s' => (true, s')
  | String "+" s' => (false, s')
  | _ => (false, s)
  end.

Definition signed (neg : bool) (n : N) : Z :=
  if neg then (- Z.of_N n)%Z else Z.of_N n.

(** [int(s)]: surrounding whitespace, a sign, digits (single
    underscores allowed between digits).  [ValueError] otherwise. *)
Definition int_of_str (s : string) : result Z :=
  let '(neg, body) := sign (trim s) in
  match digitpart 0 0 body with
  | (v, S _, EmptyString) => Ok (signed neg v)
  | _ => Raise ValueError
  end.

Definition lower (c : ascii) : ascii :=
  if Py.in_range 65 90 c then ascii_of_N (Py.code c + 32) else c.

Fixpoint lowercase (s : string) : string :=
  match s with
  | String c s' => String (lower c) (lowercase s')
  | EmptyString => EmptyString
  end.

(** The decimal [m * 10^e] as a rational. *)
Definition decimal (neg : bool) (m : N) (e : Z) : pyfloat :=
  if (0 <=? e)%Z then FFin (signed neg m * 10 ^ e)%Z 1
  else FFin (signed neg m) (Z.to_pos (10 ^ (- e))%Z).

(** The exponent part, when there is one: the letter e in either case,
    an optional sign and a digit part. *)
Definition exponent (s : string) : option Z :=
  match s with
  | EmptyString => Some 0%Z
  | String c s' =>
      if Py.chr_eqb (lower c) "e" then
        let '(neg, body) := sign s' in
        match digitpart 0 0 body with
        | (v, S _, EmptyString) => Some (signed neg v)
        | _ => None
        end
      else None
  end.

(** [float(s)]: surrounding whitespace, a sign, then [inf], [infinity]
    or [nan] in any case, or a number with an optional exponent; a
    number is an optional digit part, a point and a digit part, or a
    digit part and an optional point.  [ValueError] otherwise. *)
Definition float_of_str (s : string) : result pyfloat :=
  let '(neg, body) := sign (trim s) in
  let word := lowercase body in
  if bool_decide (word = "inf") || bool_decide (word = "infinity") then Ok (FInf neg)
  else if bool_decide (word = "nan") then Ok FNan
  else
    let '(ip, ni, after_int) := digitpart 0 0 body in
    let '(mant, nf, after_frac, ok) :=
      match after_int with
      | String "." t =>
          let '(m, n, r) := digitpart ip 0 t in
          (m, n, r, bool_decide (ni ≠ 0) || bool_decide (n ≠ 0))
      | _ => (ip, 0, after_int, bool_decide (ni ≠ 0))
      end in
    if ok then
      match exponent after_frac with
      | Some e => Ok (decimal neg mant (e - Z.of_nat nf))
      | None => Raise ValueError
      end
    else Raise ValueError.

End Num.

(** ** [keywork/tui/state.py] *)

Module State.

Record GoalState : Type := {
  name : string;
  status : string;
  priority : string;
  last_activity : string;
  completed_tasks : Z;
  total_tasks : Z;
  blocked_tasks : Z;
  review_tasks : Z;
  total_cost_usd : pyfloat;
  has_replan : bool;
  has_feedback : bool;
  prd_summary : string;
  repo_name : string;
  path : string;
}.

(** The property [GoalState.progress]. *)
Definition progress (g : GoalState) : string :=
  if (total_tasks g =? 0)%Z then "no tasks"
  else Py.str_of_int (completed_tasks g) +:+ "/" +:+ Py.str_of_int (total_tasks g).

Record AttentionItem : Type := {
  goal_name : string;
  item_type : string;
  title : string;
  task_id : option string;
  question_id : option string;
}.

(** One iteration of the loop of [parse_state_md]. *)
Definition parse_state_line (result : gmap string string) (line : string)
    : gmap string string :=
  let line := Py.strip line in
  if Py.contains ":" line && negb (Py.startswith line "#") then
    let '(key, value) := Py.partition ":" line in
    <[Py.strip key := Py.strip value]> result
  else result.

Definition parse_state_md (file : option string) : gmap string string :=
  match file with
  | None => ∅
  | Some text => foldl parse_state_line ∅ (Py.splitlines text)
  end.

(** [len(re.findall(p, content, re.MULTILINE))] where [p] is [^] and
    the literal [l]. *)
Definition count_lines_with (l : string) (content : string) : nat :=
  Re.findall_multiline_count (Re.lit_len l) true 0 content.

Definition count_tasks (file : option string) : nat * nat * nat * nat :=
  match file with
  | None => (0, 0, 0, 0)
  | Some content =>
      let total := count_lines_with "- [" content in
      let completed := count_lines_with "- [x]" content in
      let blocked := count_lines_with "- [BLOCKED" content in
      let review := count_lines_with "- [REVIEW" content in
      (total, completed, blocked, review)
  end.

(** The loop of [get_prd_summary]. *)
Fixpoint first_summary_line (lines : list string) : string :=
  match lines with
  | [] => ""
  | line :: rest =>
      let line := Py.strip line in
      if Py.truthy line && negb (Py.startswith line "#")
         && negb (Py.startswith line "<!--")
      then Py.take 120 line
      else first_summary_line rest
  end.

Definition get_prd_summary (file : option string) : string :=
  match file with
  | None => ""
  | Some text => first_summary_line (Py.splitlines text)
  end.

(** A goal directory: its name and the text of its files. *)
Record GoalDir : Type := {
  dir_path : string;
  dir_name : string;
  dir_file : string → option string;
}.

Definition exists_in (d : GoalDir) (f : string) : bool :=
  bool_decide (is_Some (dir_file d f)).

(** [d.get(k, default)] *)
Definition get (d : gmap string string) (k fallback : string) : string :=
  default fallback (d !! k).

Definition load_goal (goal_dir : GoalDir) : result GoalState :=
  let state_data := parse_state_md (dir_file goal_dir "state.md") in
  let '(total, completed, blocked, review) :=
    count_tasks (dir_file goal_dir "IMPLEMENTATION.md") in
  cost ← Num.float_of_str (get state_data "total_cost_usd" "0");
  mret {|
    name := dir_name goal_dir;
    status := get state_data "status" "created";
    priority := get state_data "priority" "normal";
    last_activity := get state_data "last_activity" "";
    completed_tasks := Z.of_nat completed;
    total_tasks := Z.of_nat total;
    blocked_tasks := Z.of_nat blocked;
    review_tasks := Z.of_nat review;
    total_cost_usd := cost;
    has_replan := exists_in goal_dir ".replan";
    has_feedback := exists_in goal_dir "feedback.md";
    prd_summary := get_prd_summary (dir_file goal_dir "prd.md");
    repo_name := get state_data "repo" "";
    path := dir_path goal_dir;
  |}.

(** [T(\d+)] at the current position: the text of group 1. *)
Definition task_number : Re.matcher string :=
  Re.lit "T" (Re.plus Py.is_digit (fun digits _ => Some digits)).

(** [re.search] of [\bT(\d+)] in a line: group 1 of the leftmost match;
    [prev] is the character before the current position. *)
Fixpoint search_task_number (prev : option ascii) (s : string) : option string :=
  match (if Re.word_boundary prev s then task_number s else None) with
  | Some digits => Some digits
  | None =>
      match s with
      | EmptyString => None
      | String a s' => search_task_number (Some a) s'
      end
  end.

Definition _parse_task_id (line : string) : option string :=
  (fun digits => "T" +:+ digits) <$> search_task_number None line.

(** [re.findall] of [T\d+] in [s]: after a match the scan resumes at its
    end, [skip] characters away. *)
Fixpoint findall_task_ids (skip : nat) (s : string) : list string :=
  match s with
  | EmptyString => []
  | String _ s' =>
      match skip with
      | S n => findall_task_ids n s'
      | O =>
          match task_number s with
          | Some digits => ("T" +:+ digits) :: findall_task_ids (String.length digits) s'
          | None => findall_task_ids 0 s'
          end
      end
  end.

(** The last character of a text. *)
Fixpoint last_char (s : string) : option ascii :=
  match s with
  | EmptyString => None
  | String a EmptyString => Some a
  | String _ s' => last_char s'
  end.

(** The pattern [- \[x\] {dep_id}\b] at the current position. *)
Definition done_task (dep_id : string) : Re.matcher unit :=
  Re.lit ("- [x] " +:+ dep_id)
    (fun s => if Re.word_boundary (last_char ("- [x] " +:+ dep_id)) s
              then Some () else None).

(** [re.search] of [^- \[x\] {dep_id}\b] in [content] under
    [re.MULTILINE], as a truth value. *)
Definition done_in (content : string) (dep_id : string) : bool :=
  bool_decide (is_Some (Re.search_multiline (done_task dep_id) true content)).

Definition _are_depends_satisfied (depends_line content : string) : bool :=
  let dep_ids := findall_task_ids 0 depends_line in
  match dep_ids with
  | [] => true
  | _ => forallb (done_in content) dep_ids
  end.

(** [re.match] of [^- \[REVIEW:\s*(.+?)\]] on a line: group 1. *)
Definition review_task : Re.matcher string :=
  Re.lit "- [REVIEW:"
    (Re.star Py.is_space (fun _ =>
       Re.lazy_plus Re.dot (fun note => Re.lit "]" (fun _ => Some note)))).

(** [re.match] on a line of the pattern [\s+-\s+Depends:\s*] followed
    by group 1, any run of characters other than a line feed. *)
Definition depends_line : Re.matcher string :=
  Re.plus Py.is_space (fun _ =>
    Re.lit "-" (Re.plus Py.is_space (fun _ =>
      Re.lit "Depends:" (Re.star Py.is_space (fun _ =>
        Re.star Re.dot (fun deps _ => Some deps)))))).

(** [range(a, b)] *)
Definition range (a b : nat) : list nat := seq a (b - a).

(** The inner loop of [load_review_tasks] over the indices [js]: the
    value of [depends_satisfied] when it ends. *)
Fixpoint depends_lookahead (content : string) (lines : list string)
    (js : list nat) : result bool :=
  match js with
  | [] => Ok true
  | j :: js' =>
      match lines !! j with
      | None => Raise IndexError
      | Some sub =>
          if Py.startswith sub "- [" then Ok true
          else
            match depends_line sub with
            | Some deps => Ok (_are_depends_satisfied deps content)
            | None => depends_lookahead content lines js'
            end
      end
  end.

Definition review_item (goal : string) (note line : string) : AttentionItem :=
  {| goal_name := goal; item_type := "review"; title := Py.strip note;
     task_id := _parse_task_id line; question_id := None |}.

(** The outer loop of [load_review_tasks], at index [i] with the lines
    [rest] still to visit. *)
Fixpoint review_loop (goal content : string) (lines : list string)
    (i : nat) (rest : list string) : result (list AttentionItem) :=
  match rest with
  | [] => Ok []
  | line :: rest' =>
      match review_task line with
      | None => review_loop goal content lines (S i) rest'
      | Some note =>
          depends_satisfied ←
            depends_lookahead content lines
              (range (i + 1) (Nat.min (i + 10) (length lines)));
          items ← review_loop goal content lines (S i) rest';
          mret (if depends_satisfied : bool
                then review_item goal note line :: items else items)
      end
  end.

Definition load_review_tasks (goal : string) (file : option string)
    : result (list AttentionItem) :=
  match file with
  | None => Ok []
  | Some content =>
      let lines := Py.splitlines content in
      review_loop goal content lines 0 lines
  end.

(** The property [GoalState.status_display]. *)
Definition status_display (g : GoalState) : string :=
  let indicators :=
    (if has_replan g then ["replan"] else [])
    ++ (if has_feedback g then ["feedback"] else []) in
  let suffix :=
    match indicators with
    | [] => ""
    | _ => " (" +:+ Py.join ", " indicators +:+ ")"
    end in
  status g +:+ suffix.

(** *** The configuration of a repo *)

(** A value of [parse_config_yaml]: a text, or the list of the items
    under a key. *)
Inductive yaml_value : Type :=
  | YStr (s : string)
  | YList (items : list string).

(** The variables of the loop of [parse_config_yaml]. *)
Record yaml_state : Type := {
  yaml_result : gmap string yaml_value;
  current_key : option string;
  current_indent : nat;
}.

(** [len(line) - len(line.lstrip())] *)
Definition indent_of (line : string) : nat :=
  String.length line - String.length (Py.lstrip line).

(** One iteration of the loop of [parse_config_yaml]. *)
Definition parse_config_line (st : yaml_state) (line : string) : yaml_state :=
  let stripped := Py.strip line in
  if negb (Py.truthy stripped) || Py.startswith stripped "#" then st
  else
    let indent := indent_of line in
    let result := yaml_result st in
    if Py.startswith stripped "- " then
      match current_key st with
      | Some key =>
          if bool_decide (current_indent st < indent) then
            let item_value := Py.strip (Py.drop 2 stripped) in
            let result :=
              match result !! key with
              | None => <[key := YList []]> result
              | Some _ => result
              end in
            let result :=
              match result !! key with
              | Some (YList items) => <[key := YList (items ++ [item_value])]> result
              | _ => result
              end in
            {| yaml_result := result; current_key := current_key st;
               current_indent := current_indent st |}
          else st
      | None => st
      end
    else if Py.contains ":" stripped then
      let '(key, value) := Py.partition ":" stripped in
      let key := Py.strip key in
      let value := Py.strip value in
      if Py.truthy value then
        if bool_decide (indent = 0) then
          {| yaml_result := <[key := YStr value]> result;
             current_key := current_key st; current_indent := current_indent st |}
        else
          match current_key st with
          | Some parent =>
              {| yaml_result := <[parent +:+ "." +:+ key := YStr value]> result;
                 current_key := current_key st;
                 current_indent := current_indent st |}
          | None => st
          end
      else
        {| yaml_result := result; current_key := Some key; current_indent := indent |}
    else st.

Definition yaml_start : yaml_state :=
  {| yaml_result := ∅; current_key := None; current_indent := 0 |}.

Definition parse_config_yaml (file : option string) : gmap string yaml_value :=
  match file with
  | None => ∅
  | Some text => yaml_result (foldl parse_config_line yaml_start (Py.splitlines text))
  end.

(** *** Directories *)

(** An entry of the goals directory: a file (such as the orchestrator
    log) or the directory of a goal. *)
Inductive dir_entry : Type :=
  | EntryFile (name : string)
  | EntryDir (d : GoalDir).

Definition entry_name (e : dir_entry) : string :=
  match e with
  | EntryFile name => name
  | EntryDir d => dir_name d
  end.

(** The order of [sorted] on the paths of one directory: the order of
    their names. *)
Definition entry_le (a b : dir_entry) : Prop :=
  String.le (entry_name a) (entry_name b).

#[global] Instance entry_le_dec : RelDecision entry_le.
Proof. intros a b. unfold entry_le. apply _. Defined.

(** [sorted(GOALS_DIR.iterdir())] *)
Definition sorted_entries (entries : list dir_entry) : list dir_entry :=
  merge_sort entry_le entries.

(** [d.name.startswith("_") or d.name.startswith(".")] *)
Definition reserved (name : string) : bool :=
  Py.startswith name "_" || Py.startswith name ".".

(** The loop of [load_all_goals]. *)
Fixpoint load_goals (entries : list dir_entry) : result (list GoalState) :=
  match entries with
  | [] => Ok []
  | EntryFile _ :: rest => load_goals rest
  | EntryDir d :: rest =>
      if reserved (dir_name d) then load_goals rest
      else
        goal ← load_goal d;
        goals ← load_goals rest;
        mret (goal :: goals)
  end.

(** [load_all_goals]; the goals directory is [None] when it does not
    exist. *)
Definition load_all_goals (goals_dir : option (list dir_entry))
    : result (list GoalState) :=
  match goals_dir with
  | None => Ok []
  | Some entries => load_goals (sorted_entries entries)
  end.

Record RepoState : Type := {
  repo_state_name : string;
  language : yaml_value;
  framework : yaml_value;
  remote : yaml_value;
  branch : yaml_value;
  repo_priority : yaml_value;
  initialized : bool;
  active_goals : nat;
  repo_path : string;
}.

(** The directory of a registered repo. *)
Record RepoDir : Type := {
  repo_dir_path : string;
  repo_dir_name : string;
  repo_dir_file : string → option string;
}.

(** The loop of [load_repo_config] that counts the goals of a repo. *)
Fixpoint count_active_goals (name : string) (entries : list dir_entry) : nat :=
  match entries with
  | [] => 0
  | EntryFile _ :: rest => count_active_goals name rest
  | EntryDir d :: rest =>
      if reserved (dir_name d) then count_active_goals name rest
      else
        let state_data := parse_state_md (dir_file d "state.md") in
        if bool_decide (get state_data "repo" "" = name)
        then S (count_active_goals name rest)
        else count_active_goals name rest
  end.

(** [config.get(k, default)] *)
Definition yaml_get (config : gmap string yaml_value) (k : string)
    (fallback : string) : yaml_value :=
  default (YStr fallback) (config !! k).

(** [load_repo_config]; [workspace_is_dir] tells whether the workspace
    of a name exists and is a directory. *)
Definition load_repo_config (goals_dir : option (list dir_entry))
    (workspace_is_dir : string → bool) (repo_dir : RepoDir) : RepoState :=
  let config := parse_config_yaml (repo_dir_file repo_dir "config.yaml") in
  let name := repo_dir_name repo_dir in
  let initialized := workspace_is_dir name in
  let active_goals :=
    match goals_dir with
    | None => 0
    | Some entries => count_active_goals name entries
    end in
  {| repo_state_name := name;
     language := yaml_get config "language" "";
     framework := yaml_get config "framework" "";
     remote := yaml_get config "remote" "";
     branch := yaml_get config "branch" "main";
     repo_priority := yaml_get config "priority" "normal";
     initialized := initialized;
     active_goals := active_goals;
     repo_path := repo_dir_path repo_dir |}.

(** An entry of the repos directory: a file or the directory of a
    repo. *)
Inductive repo_entry : Type :=
  | RepoFile (name : string)
  | RepoEntry (d : RepoDir).

Definition repo_entry_name (e : repo_entry) : string :=
  match e with
  | RepoFile name => name
  | RepoEntry d => repo_dir_name d
  end.

Definition repo_entry_le (a b : repo_entry) : Prop :=
  String.le (repo_entry_name a) (repo_entry_name b).

#[global] Instance repo_entry_le_dec : RelDecision repo_entry_le.
Proof. intros a b. unfold repo_entry_le. apply _. Defined.

(** The loop of [load_registered_repos]. *)
Fixpoint load_repos (goals_dir : option (list dir_entry))
    (workspace_is_dir : string → bool) (entries : list repo_entry)
    : list RepoState :=
  match entries with
  | [] => []
  | RepoFile _ :: rest => load_repos goals_dir workspace_is_dir rest
  | RepoEntry d :: rest =>
      if reserved (repo_dir_name d) then load_repos goals_dir workspace_is_dir rest
      else load_repo_config goals_dir workspace_is_dir d
           :: load_repos goals_dir workspace_is_dir rest
  end.

(** [load_registered_repos]; the repos directory is [None] when it does
    not exist.  The function handles no exception itself: its value is
    the list of a call in which the listing and the files are read. *)
Definition load_registered_repos (goals_dir : option (list dir_entry))
    (workspace_is_dir : string → bool) (repos_dir : option (list repo_entry))
    : list RepoState :=
  match repos_dir with
  | None => []
  | Some entries =>
      load_repos goals_dir workspace_is_dir (merge_sort repo_entry_le entries)
  end.

(** [load_activity_log]: the last [max_lines] lines of the orchestrator
    log. *)
Definition load_activity_log (log : option string) (max_lines : Z) : list string :=
  match log with
  | None => []
  | Some text => Py.slice_from (- max_lines) (Py.splitlines text)
  end.

(** [load_task_list] *)
Definition load_task_list (file : option string) : list string :=
  match file with
  | None => []
  | Some text => List.filter (fun line => Py.startswith line "- [") (Py.splitlines text)
  end.

(** *** Open questions *)

(** The pattern [^## Open\s*$]: the text after the match. *)
Definition open_heading : Re.matcher string :=
  Re.lit "## Open" (Re.star Py.is_space (fun _ => Re.eol_multiline Some)).

(** The pattern of the next section, [^## ]. *)
Definition section_heading : Re.matcher unit :=
  Re.lit "## " (fun _ => Some ()).

(** The pattern [^### (Q\d+):\s*(.+)]: groups 1 and 2, and the text
    after the match. *)
Definition question_entry : Re.matcher (string * string * string) :=
  Re.lit "### "
    (Re.lit "Q" (Re.plus Py.is_digit (fun digits =>
       Re.lit ":" (Re.star Py.is_space (fun _ =>
         Re.plus Re.dot (fun title rest => Some ("Q" +:+ digits, title, rest))))))).

Definition question_item (goal : string) (found : string * string) : AttentionItem :=
  {| goal_name := goal; item_type := "question"; title := Py.strip found.2;
     task_id := None; question_id := Some found.1 |}.

Definition load_open_questions (goal : string) (file : option string)
    : list AttentionItem :=
  match file with
  | None => []
  | Some content =>
      match Re.search_multiline open_heading true content with
      | None => []
      | Some (_, rest) =>
          let open_section :=
            match Re.search_multiline section_heading true rest with
            | Some (before, _) => before
            | None => rest
            end in
          question_item goal
            <$> Re.finditer_multiline question_entry true 0 open_section
      end
  end.

(** *** Attention items *)

Definition paused_item (goal : string) : AttentionItem :=
  {| goal_name := goal; item_type := "paused"; title := "Paused: " +:+ goal;
     task_id := None; question_id := None |}.

(** The items of one goal directory. *)
Definition goal_attention (d : GoalDir) : result (list AttentionItem) :=
  let goal := dir_name d in
  reviews ← load_review_tasks goal (dir_file d "IMPLEMENTATION.md");
  mret (reviews
        ++ load_open_questions goal (dir_file d "questions.md")
        ++ (if exists_in d ".pause" then [paused_item goal] else [])).

(** The loop of [load_attention_items]. *)
Fixpoint attention_loop (entries : list dir_entry) : result (list AttentionItem) :=
  match entries with
  | [] => Ok []
  | EntryFile _ :: rest => attention_loop rest
  | EntryDir d :: rest =>
      if reserved (dir_name d) then attention_loop rest
      else
        items ← goal_attention d;
        more ← attention_loop rest;
        mret (items ++ more)
  end.

Definition load_attention_items (goals_dir : option (list dir_entry))
    : result (list AttentionItem) :=
  match goals_dir with
  | None => Ok []
  | Some entries => attention_loop (sorted_entries entries)
  end.

End State.

(** ** Decoded JSON

  What [json.loads] returns: the text of a credentials file is only
  ever looked at through it. *)

#[warnings="-register-all"]
Inductive json : Type :=
| JNull
| JBool (b : bool)
| JInt (n : Z)
| JFloat (f : pyfloat)
| JStr (s : string)
| JList (l : list json)
| JDict (d : list (string * json)).

(** The outcome of [json.loads(path.read_text())]: the decoded value, or
  the text of the [JSONDecodeError] or [OSError] that was raised. *)
Inductive decoded : Type :=
| Unreadable (error : string)
| Decoded (data : json).

(** The outcome of [subprocess.run] with a timeout. *)
Inductive run_outcome (A : Type) : Type :=
| RunNotFound
| RunTimeout
| RunOSError
| RunDone (returncode : Z) (stdout : A).
Arguments RunNotFound {A}.
Arguments RunTimeout {A}.
Arguments RunOSError {A}.
Arguments RunDone {A} returncode stdout.

(** ** [keywork/tui/sandbox.py] *)

Module Sandbox.

Definition IMAGE_NAME : string := "keywork-sandbox".

(** The host as the module observes it. *)
Record Host : Type := {
  (** [os.environ.get] *)
  environ : string → option string;
  (** [platform.system()] *)
  platform_system : string;
  (** [str(Path.cwd() / p1 / ... / pn)] *)
  cwd_path : list string → string;
  (** [str(Path.home() / p1 / ... / pn)] *)
  home_path : list string → string;
  (** whether [agents/sandbox/.env] exists *)
  env_file_exists : bool;
  (** the text of [agents/repos/<repo>/config.yaml], [None] when the
      file is missing or cannot be read *)
  repo_config_file : string → option string;
  (** [uuid.uuid4().hex] *)
  uuid4_hex : string;
  (** [docker info] *)
  docker_info : run_outcome string;
  (** [security find-generic-password ... -w]; the standard output is
      [None] when it is blank, and otherwise what the text written to
      the credentials file decodes to *)
  keychain_secret : run_outcome (option decoded);
  (** [~/.claude/.credentials.json], [None] when it does not exist *)
  credentials_file : option decoded;
  (** [int(time.time() * 1000)] *)
  now_ms : Z;
}.

Definition nl : string := String Py.LF EmptyString.

(** [d.get(k)] on a [dict]. *)
Fixpoint dict_get {V : Type} (d : list (string * V)) (k : string) : option V :=
  match d with
  | [] => None
  | (k', v) :: d' => if bool_decide (k' = k) then Some v else dict_get d' k
  end.

(** [d[k] = v] on a [dict]: a key that is present keeps its position. *)
Fixpoint dict_set {V : Type} (d : list (string * V)) (k : string) (v : V)
    : list (string * V) :=
  match d with
  | [] => [(k, v)]
  | (k', v') :: d' =>
      if bool_decide (k' = k) then (k, v) :: d' else (k', v') :: dict_set d' k v
  end.

(** [int(x)] of a decoded value. *)
Definition py_int (x : json) : result Z :=
  match x with
  | JNull => Raise TypeError
  | JBool b => Ok (if b then 1 else 0)%Z
  | JInt n => Ok n
  | JFloat (FFin n d) => Ok (Z.quot n (Z.pos d))
  | JFloat (FInf _) => Raise OverflowError
  | JFloat FNan => Raise ValueError
  | JStr s => Num.int_of_str s
  | JList _ => Raise TypeError
  | JDict _ => Raise TypeError
  end.

Definition expired_message : string :=
  "Claude OAuth token has expired." +:+ nl +:+
  "Run 'claude' in your terminal to re-authenticate, then retry.".

Definition expiry_warning (remaining_min : Z) : string :=
  "WARNING: Claude OAuth token expires in ~" +:+ Py.str_of_int remaining_min
  +:+ " minutes.".

Definition margin_ms : Z := 30 * 60 * 1000.

Definition _check_token_expiry (file : decoded) (now : Z) : result (bool * string) :=
  match file with
  | Unreadable e => Ok (false, "Failed to read credentials file: " +:+ e)
  | Decoded data =>
      oauth_data ←
        match data with
        | JDict d => Ok (default (JDict []) (dict_get d "claudeAiOauth"))
        | _ => Raise AttributeError
        end;
      let expires_at :=
        match oauth_data with
        | JDict o => default JNull (dict_get o "expiresAt")
        | _ => JNull
        end in
      match expires_at with
      | JNull => Ok (true, "")
      | _ =>
          match py_int expires_at with
          | Raise ValueError => Ok (true, "")
          | Raise TypeError => Ok (true, "")
          | Raise e => Raise e
          | Ok expires_at =>
              if (expires_at <=? now)%Z then Ok (false, expired_message)
              else if (expires_at - now <=? margin_ms)%Z then
                Ok (true, expiry_warning ((expires_at - now) `div` 60000))
              else Ok (true, "")
          end
      end
  end.

Definition keychain_missing_message : string :=
  "Claude credentials not found in macOS Keychain or on disk." +:+ nl +:+
  "Run 'claude' on the host first to authenticate.".

(** [_export_macos_keychain_credentials]: its result and the
    credentials file it leaves behind. *)
Definition _export_macos_keychain_credentials (h : Host)
    : result (bool * string * option decoded) :=
  match credentials_file h with
  | Some file => Ok (true, "", Some file)
  | None =>
      match keychain_secret h with
      | RunDone returncode stdout =>
          match stdout with
          | Some secret =>
              if bool_decide (returncode ≠ 0%Z)
              then Ok (false, keychain_missing_message, None)
              else Ok (true, "", Some secret)
          | None => Ok (false, keychain_missing_message, None)
          end
      | RunNotFound => Ok (false, "macOS 'security' command not found.", None)
      | RunTimeout =>
          Ok (false, "Timed out reading Claude credentials from Keychain.", None)
      | RunOSError => Raise OSError
      end
  end.

Definition docker_missing_message : string :=
  "Docker is required to run the agent sandbox." +:+ nl +:+
  "Install Docker Desktop: https://www.docker.com/products/docker-desktop/".

Definition docker_unresponsive_message : string :=
  "Docker daemon is not responding. Is Docker Desktop running?".

Definition credentials_missing_message : string :=
  "Claude credentials not found." +:+ nl +:+
  "Run 'claude' on the host first to authenticate.".

Definition ssh_warning : string :=
  "WARNING: SSH_AUTH_SOCK not set. Git operations requiring SSH keys will fail.".

Definition validate_credentials (h : Host) : result (bool * string) :=
  match docker_info h with
  | RunNotFound => Ok (false, docker_missing_message)
  | RunTimeout => Ok (false, docker_unresponsive_message)
  | RunOSError => Raise OSError
  | RunDone _ _ =>
      '(ok, err, file) ←
        (if bool_decide (platform_system h = "Darwin")
         then _export_macos_keychain_credentials h
         else Ok (true, "", credentials_file h));
      if negb ok then Ok (false, err)
      else
        match file with
        | None => Ok (false, credentials_missing_message)
        | Some file =>
            '(valid, msg) ← _check_token_expiry file (now_ms h);
            if negb valid then Ok (false, msg)
            else
              let ssh_sock := default "" (environ h "SSH_AUTH_SOCK") in
              let msg :=
                if negb (Py.truthy ssh_sock) then
                  if Py.truthy msg then Py.strip (msg +:+ nl +:+ ssh_warning)
                  else ssh_warning
                else msg in
              Ok (true, msg)
        end
  end.

(** *** The repo configuration *)

Record RepoConfig : Type := {
  env_vars : list (string * string);
  volumes : list string;
  ports : list Z;
}.

(** The empty [dict] that is returned for a missing file reads, through
    [.get(key, default)], like a configuration with empty sections. *)
Definition no_config : RepoConfig :=
  {| env_vars := []; volumes := []; ports := [] |}.

(** The tail of the pattern of a section header, [\s*$]: the text that
    follows the match. *)
Definition header_end : Re.matcher string :=
  Re.star Py.is_space (fun _ => Re.eol_multiline Some).

(** [^sandbox:\s*$] *)
Definition sandbox_header : Re.matcher string :=
  Re.lit "sandbox:" header_end.

(** [^\s+{key}:\s*$] *)
Definition section_header (key : string) : Re.matcher string :=
  Re.plus Py.is_space (fun _ => Re.lit (key +:+ ":") header_end).

(** [^\S] *)
Definition top_level_key : Re.matcher unit :=
  Re.one Re.non_space (fun _ => Some ()).

(** [^\s+(\w+):\s*(.+)$] on a line: groups 1 and 2. *)
Definition env_entry : Re.matcher (string * string) :=
  Re.plus Py.is_space (fun _ =>
    Re.plus Py.is_word (fun key =>
      Re.lit ":" (Re.star Py.is_space (fun _ =>
        Re.plus Re.dot (fun value => Re.eol (fun _ => Some (key, value))))))).

(** [^\s+-\s+(.+)$] on a line: group 1. *)
Definition volume_entry : Re.matcher string :=
  Re.plus Py.is_space (fun _ =>
    Re.lit "-" (Re.plus Py.is_space (fun _ =>
      Re.plus Re.dot (fun item => Re.eol (fun _ => Some item))))).

(** [^\s+-\s+(\d+)] on a line: group 1. *)
Definition port_entry : Re.matcher string :=
  Re.plus Py.is_space (fun _ =>
    Re.lit "-" (Re.plus Py.is_space (fun _ =>
      Re.plus Py.is_digit (fun digits _ => Some digits)))).

Definition indent6 : string := "      ".

(** The loop over the lines that follow [env_vars:]. *)
Fixpoint env_vars_loop (result : list (string * string)) (lines : list string)
    : list (string * string) :=
  match lines with
  | [] => result
  | line :: rest =>
      if negb (Py.truthy (Py.strip line)) || negb (Py.startswith line indent6) then
        if Py.truthy (Py.strip line) && negb (Py.startswith line indent6)
        then result
        else env_vars_loop result rest
      else
        match env_entry line with
        | Some (key, value) => env_vars_loop (dict_set result key (Py.strip value)) rest
        | None => env_vars_loop result rest
        end
  end.

(** The loops over the lines that follow [volumes:] and [ports:]:
    [entry] reads an item off a line. *)
Fixpoint items_loop {A : Type} (entry : string → option A) (result : list A)
    (lines : list string) : list A :=
  match lines with
  | [] => result
  | line :: rest =>
      if negb (Py.truthy (Py.strip line)) then items_loop entry result rest
      else if negb (Py.startswith line indent6) then result
      else
        match entry line with
        | Some item => items_loop entry (result ++ [item]) rest
        | None => items_loop entry result rest
        end
  end.

(** [int(digits)] for a run of decimal digits. *)
Definition int_of_digits (digits : string) : Z :=
  Z.of_N (Num.digitpart 0 0 digits).1.1.

(** The text after the header of section [key], when there is one. *)
Definition section_text (key sandbox_text : string) : option string :=
  snd <$> Re.search_multiline (section_header key) true sandbox_text.

Definition parse_repo_config (content : string) : RepoConfig :=
  match Re.search_multiline sandbox_header true content with
  | None => no_config
  | Some (_, sandbox_text) =>
      let sandbox_text :=
        match Re.search_multiline top_level_key true sandbox_text with
        | Some (before, _) => before
        | None => sandbox_text
        end in
      {| env_vars :=
           match section_text "env_vars" sandbox_text with
           | Some env_text => env_vars_loop [] (Py.splitlines env_text)
           | None => []
           end;
         volumes :=
           match section_text "volumes" sandbox_text with
           | Some vol_text =>
               items_loop (fun line => Py.strip <$> volume_entry line) []
                 (Py.splitlines vol_text)
           | None => []
           end;
         ports :=
           match section_text "ports" sandbox_text with
           | Some port_text =>
               items_loop (fun line => int_of_digits <$> port_entry line) []
                 (Py.splitlines port_text)
           | None => []
           end |}
  end.

Definition _read_repo_config (h : Host) (repo_name : string) : RepoConfig :=
  match repo_config_file h repo_name with
  | None => no_config
  | Some content => parse_repo_config content
  end.

(** *** The command line *)

(** [cmd.extend(["-e", f"{key}={val}"])] for every item of a [dict]. *)
Definition env_args (vars : list (string * string)) : list string :=
  flat_map (fun '(key, val) => ["-e"; key +:+ "=" +:+ val]) vars.

(** [cmd.extend(["-p", f"{port}:{port}"])] for every port. *)
Definition port_args (ports : list Z) : list string :=
  flat_map (fun port => ["-p"; Py.str_of_int port +:+ ":" +:+ Py.str_of_int port]) ports.

(** [cmd.extend(["-v", volume])] for every volume. *)
Definition volume_args (volumes : list string) : list string :=
  flat_map (fun volume => ["-v"; volume]) volumes.

(** The environment variable [var] when it is set to a non-empty text. *)
Definition env_truthy (h : Host) (var : string) : option string :=
  match environ h var with
  | Some val => if Py.truthy val then Some val else None
  | None => None
  end.

(** SSH agent forwarding. *)
Definition ssh_args (h : Host) : list string :=
  match env_truthy h "SSH_AUTH_SOCK" with
  | Some ssh_sock =>
      (if bool_decide (platform_system h = "Darwin")
       then ["-v"; "/run/host-services/ssh-auth.sock:/ssh-agent:ro"]
       else ["-v"; ssh_sock +:+ ":/ssh-agent:ro"])
      ++ ["-e"; "SSH_AUTH_SOCK=/ssh-agent"]
  | None => []
  end.

(** Core environment variables. *)
Definition core_env_args (repo_name goal_name : string) : list string :=
  ["-e"; "KEYWORK_SANDBOX=1"]
  ++ (if Py.truthy repo_name then ["-e"; "REPO_NAME=" +:+ repo_name] else [])
  ++ (if Py.truthy goal_name then ["-e"; "GOAL_NAME=" +:+ goal_name] else []).

(** Git identity passed through from the host. *)
Definition identity_args (h : Host) : list string :=
  flat_map (fun var =>
              match env_truthy h var with
              | Some val => ["-e"; var +:+ "=" +:+ val]
              | None => []
              end)
           ["GIT_AUTHOR_NAME"; "GIT_AUTHOR_EMAIL"].

(** Env file with static defaults. *)
Definition env_file_args (h : Host) : list string :=
  if env_file_exists h then ["--env-file"; "agents/sandbox/.env"] else [].

(** The environment variables of the repo configuration. *)
Definition repo_env_args (h : Host) (repo_name : string) : list string :=
  if Py.truthy repo_name then env_args (env_vars (_read_repo_config h repo_name))
  else [].

(** The volumes and ports of the repo configuration. *)
Definition repo_mount_args (h : Host) (repo_name : string) : list string :=
  if Py.truthy repo_name then
    let repo_config := _read_repo_config h repo_name in
    volume_args (volumes repo_config) ++ port_args (ports repo_config)
  else [].

Definition build_sandbox_command (h : Host) (script : string)
    (args : list string) (repo_name goal_name : string) (interactive : bool)
    (extra_ports : list Z) (env_overrides : list (string * string))
    : list string * string :=
  let container_name := "keywork-agent-" +:+ Py.take 8 (uuid4_hex h) in
  let cmd := ["docker"; "run"; "--rm"; "--name"; container_name] in
  let cmd := if interactive then cmd ++ ["-it"] else cmd in
  let workspace_path :=
    if Py.truthy repo_name then cwd_path h ["workspace"; repo_name]
    else cwd_path h ["workspace"] in
  let cmd := cmd ++ ["-v"; workspace_path +:+ ":/workspace"] in
  let cmd :=
    if Py.truthy goal_name
    then cmd ++ ["-v"; cwd_path h ["agents"; "goals"; goal_name] +:+ ":/state"]
    else cmd in
  let cmd := cmd ++ ["-v"; cwd_path h ["agents"] +:+ ":/agents:ro"] in
  let cmd := cmd ++ ["-v"; home_path h [".claude"] +:+ ":/home/agent/.claude-host:ro"] in
  let cmd := cmd ++ ["-v"; "keywork-cache:/home/agent/.cache/uv"] in
  let cmd := cmd ++ ssh_args h in
  let cmd := cmd ++ core_env_args repo_name goal_name in
  let cmd := cmd ++ identity_args h in
  let cmd := cmd ++ env_file_args h in
  let cmd := cmd ++ port_args extra_ports in
  let cmd := cmd ++ env_args env_overrides in
  let cmd := cmd ++ repo_env_args h repo_name in
  let cmd := cmd ++ repo_mount_args h repo_name in
  let cmd := cmd ++ [IMAGE_NAME] in
  let cmd := cmd ++ ["bash"; script] in
  let cmd := cmd ++ args in
  (cmd, container_name).

End Sandbox.

(** ** [keywork/tui/terminal.py] *)

(** The outcome of [subprocess.Popen]: the process id, an [OSError]
  ([FileNotFoundError] is one), or an exception of another class, such as
  the [ValueError] for an argument that holds a NUL character. *)
Inductive popen_outcome : Type :=
| PopenOSError
| PopenRaised (e : exn)
| PopenStarted (pid : Z).

Definition is_oserror (e : exn) : bool :=
  match e with OSError => true | _ => false end.

Module Terminal.

Record TerminalResult : Type := {
  success : bool;
  method : string;
  pid : option Z;
  fallback_command : option string;
}.

(** The outcome of [subprocess.run] in a launcher, which passes texts of
    the caller as arguments and decodes the output as text: one of the
    outcomes of [run_outcome], or an exception of another class, such as
    the [ValueError] for an argument that holds a NUL character or for
    output that does not decode. *)
Inductive launch_outcome : Type :=
  | Ran (outcome : run_outcome string)
  | RunRaised (e : exn).

(** The host as the module observes it. *)
Record Host : Type := {
  (** [sys.platform == "darwin"] *)
  is_darwin : bool;
  (** [subprocess.run] of an argument list: exit status and standard
      output *)
  run : list string → launch_outcome;
  (** [subprocess.Popen] of an argument list *)
  popen : list string → popen_outcome;
  (** [shutil.which] *)
  which : string → option string;
  (** [os.environ.get] *)
  environ : string → option string;
  (** [str(Path.cwd())] *)
  cwd : string;
}.

Definition _is_macos (h : Host) : bool := is_darwin h.

(** Whether [needle] occurs in [s]. *)
Fixpoint occurs (needle s : string) : bool :=
  Py.startswith s needle
  || match s with
     | EmptyString => false
     | String _ s' => occurs needle s'
     end.

Definition dq : string := String "034"%char EmptyString.
Definition bs : string := String "092"%char EmptyString.
Definition nl : string := String Py.LF EmptyString.

(** [s.replace(c, new)] for a single character [c]. *)
Fixpoint replace (c : ascii) (new : string) (s : string) : string :=
  match s with
  | EmptyString => EmptyString
  | String a s' =>
      if Py.chr_eqb a c then new +:+ replace c new s'
      else String a (replace c new s')
  end.

(** Backslashes and double quotes escaped for an AppleScript string. *)
Definition applescript_safe (s : string) : string :=
  replace "034"%char (bs +:+ dq) (replace "092"%char (bs +:+ bs) s).

Definition _is_iterm2_available (h : Host) : result bool :=
  if negb (_is_macos h) then Ok false
  else
    match run h ["osascript"; "-e";
                 "tell application " +:+ dq +:+ "System Events" +:+ dq
                 +:+ " to get name of processes"] with
    | Ran (RunDone returncode stdout) =>
        Ok (bool_decide (returncode = 0%Z) && occurs "iTerm" stdout)
    | Ran RunNotFound => Ok false
    | Ran RunTimeout => Ok false
    | Ran RunOSError => Raise OSError
    | RunRaised e => Raise e
    end.

Definition result_of (success : bool) (method : string) (pid : option Z)
    : TerminalResult :=
  {| success := success; method := method; pid := pid; fallback_command := None |}.

(** The common end of the launchers that go through [subprocess.run]:
    success when the exit status is zero; a missing binary and a timeout
    are caught, every other exception goes to the caller. *)
Definition run_launcher (h : Host) (method : string) (argv : list string)
    : result TerminalResult :=
  match run h argv with
  | Ran (RunDone returncode _) =>
      Ok (result_of (bool_decide (returncode = 0%Z)) method None)
  | Ran RunNotFound => Ok (result_of false method None)
  | Ran RunTimeout => Ok (result_of false method None)
  | Ran RunOSError => Raise OSError
  | RunRaised e => Raise e
  end.

(** The common end of the launchers that go through
    [subprocess.Popen]: every [OSError] is caught, an exception of
    another class goes to the caller. *)
Definition popen_launcher (h : Host) (method : string) (argv : list string)
    : result TerminalResult :=
  match popen h argv with
  | PopenStarted pid => Ok (result_of true method (Some pid))
  | PopenOSError => Ok (result_of false method None)
  | PopenRaised e =>
      if is_oserror e then Ok (result_of false method None) else Raise e
  end.

Definition _launch_iterm2 (h : Host) (command title working_dir : string)
    : result TerminalResult :=
  let safe_title := applescript_safe title in
  let safe_cmd := applescript_safe command in
  let safe_dir := applescript_safe working_dir in
  let script :=
    "tell application " +:+ dq +:+ "iTerm2" +:+ dq +:+ nl +:+
    "    create window with default profile" +:+ nl +:+
    "    tell current session of current window" +:+ nl +:+
    "        set name to " +:+ dq +:+ safe_title +:+ dq +:+ nl +:+
    "        write text " +:+ dq +:+ "cd " +:+ safe_dir +:+ " && " +:+ safe_cmd
      +:+ dq +:+ nl +:+
    "    end tell" +:+ nl +:+
    "end tell" in
  run_launcher h "iterm2" ["osascript"; "-e"; script].

Definition _launch_macos_terminal (h : Host) (command title working_dir : string)
    : result TerminalResult :=
  let safe_title := applescript_safe title in
  let safe_cmd := applescript_safe command in
  let safe_dir := applescript_safe working_dir in
  let script :=
    "tell application " +:+ dq +:+ "Terminal" +:+ dq +:+ nl +:+
    "    do script " +:+ dq +:+ "cd " +:+ safe_dir +:+ " && " +:+ safe_cmd
      +:+ dq +:+ nl +:+
    "    set custom title of front window to " +:+ dq +:+ safe_title +:+ dq +:+ nl +:+
    "end tell" in
  run_launcher h "macos_terminal" ["osascript"; "-e"; script].

Definition _launch_gnome_terminal (h : Host) (command title working_dir : string)
    : result TerminalResult :=
  let full_cmd := command +:+ "; echo 'Press Enter to close'; read" in
  popen_launcher h "gnome_terminal"
    ["gnome-terminal"; "--title=" +:+ title;
     "--working-directory=" +:+ working_dir; "--"; "bash"; "-c"; full_cmd].

Definition _launch_x_terminal_emulator (h : Host) (command title working_dir : string)
    : result TerminalResult :=
  let full_cmd :=
    "cd " +:+ working_dir +:+ " && " +:+ command
    +:+ "; echo 'Press Enter to close'; read" in
  popen_launcher h "x_terminal_emulator"
    ["x-terminal-emulator"; "-T"; title; "-e"; "bash -c '" +:+ full_cmd +:+ "'"].

Definition _launch_tmux (h : Host) (command title working_dir : string)
    : result TerminalResult :=
  let full_cmd := "cd " +:+ working_dir +:+ " && " +:+ command in
  run_launcher h "tmux" ["tmux"; "new-window"; "-n"; title; full_cmd].

Definition _fallback (command working_dir : string) : TerminalResult :=
  let full_cmd := "cd " +:+ working_dir +:+ " && " +:+ command in
  {| success := false; method := "fallback"; pid := None;
     fallback_command := Some full_cmd |}.

(** One step of the cascade: when the method is [available], attempt
    it and return its result if it succeeded; otherwise go on with
    [next]. *)
Definition attempt (available : result bool) (launch : result TerminalResult)
    (next : result TerminalResult) : result TerminalResult :=
  ok ← available;
  if ok : bool then
    r ← launch;
    if success r then Ok r else next
  else next.

Definition open_terminal_session (h : Host) (command title : string)
    (working_dir : option string) : result TerminalResult :=
  let working_dir := default (cwd h) working_dir in
  attempt (if _is_macos h then _is_iterm2_available h else Ok false)
    (_launch_iterm2 h command title working_dir)
  (attempt (Ok (_is_macos h))
    (_launch_macos_terminal h command title working_dir)
  (attempt (Ok (bool_decide (is_Some (which h "gnome-terminal"))))
    (_launch_gnome_terminal h command title working_dir)
  (attempt (Ok (bool_decide (is_Some (which h "x-terminal-emulator"))))
    (_launch_x_terminal_emulator h command title working_dir)
  (attempt (Ok (Py.truthy (default "" (environ h "TMUX"))))
    (_launch_tmux h command title working_dir)
  (Ok (_fallback command working_dir)))))).

(** *** Sessions *)

Record TerminalSession : Type := {
  session_id : string;
  session_goal_name : string;
  session_action : string;
  session_command : string;
  session_method : string;
  started_at : Z;
  session_pid : option Z;
}.

Definition sq : string := String "039"%char EmptyString.

(** The characters that [_shell_quote] leaves alone: letters, digits and
    the characters of [_-=/.:]. *)
Definition safe_char (c : ascii) : bool :=
  Py.in_range 97 122 c || Py.in_range 65 90 c || Py.in_range 48 57 c
  || Py.contains c "_-=/.:".

(** [all(c in safe_chars for c in s)] *)
Fixpoint all_safe (s : string) : bool :=
  match s with
  | EmptyString => true
  | String c s' => safe_char c && all_safe s'
  end.

Definition _shell_quote (s : string) : string :=
  if negb (Py.truthy s) then sq +:+ sq
  else if all_safe s then s
  else sq +:+ replace "039"%char (sq +:+ dq +:+ sq +:+ dq +:+ sq) s +:+ sq.

(** The dash of the window title, U+2014.  It lies outside the range of
    the embedding and is held as its three UTF-8 bytes, which the
    functions that receive the title pass through unchanged. *)
Definition em_dash : string :=
  String "226"%char (String "128"%char (String "148"%char EmptyString)).

(** [launch_agent_in_terminal]: its result and the list [_sessions]
    afterwards.  [sandbox] is the same machine as the sandbox module
    observes it, [new_id] is [str(uuid4())] and [now] is
    [datetime.now()]. *)
Definition launch_agent_in_terminal (h : Host) (sandbox : Sandbox.Host)
    (new_id : string) (now : Z) (sessions : list TerminalSession)
    (script : string) (args : list string) (goal_name action repo_name : string)
    (extra_ports : list Z) : result (TerminalResult * list TerminalSession) :=
  let '(cmd_list, _container_name) :=
    Sandbox.build_sandbox_command sandbox script args repo_name goal_name true
      extra_ports [] in
  let command := Py.join " " (_shell_quote <$> cmd_list) in
  let title := "Keywork: " +:+ action +:+ " " +:+ em_dash +:+ " " +:+ goal_name in
  let title :=
    if Py.truthy repo_name
    then "Keywork: " +:+ action +:+ " " +:+ em_dash +:+ " " +:+ goal_name
         +:+ " (" +:+ repo_name +:+ ")"
    else title in
  r ← open_terminal_session h command title (Some (cwd h));
  if success r then
    mret (r, sessions ++ [{| session_id := new_id; session_goal_name := goal_name;
                             session_action := action; session_command := command;
                             session_method := method r; started_at := now;
                             session_pid := pid r |}])
  else mret (r, sessions).

(** [get_active_sessions]; [alive] tells whether [os.kill(pid, 0)]
    returns without [OSError]. *)
Definition get_active_sessions (alive : Z → bool) (sessions : list TerminalSession)
    : list TerminalSession :=
  List.filter
    (fun session =>
       match session_pid session with
       | Some p => alive p
       | None => true
       end)
    sessions.

Definition get_session_history (sessions : list TerminalSession)
    : list TerminalSession := sessions.

End Terminal.

(** ** [keywork/tui/sandbox.py]: the containers

    The functions of the sandbox module that start and stop processes.
    The thread that streams the output of a process to a callback is left
    out: it does not affect what these functions return or track. *)

Module Containers.

(** [launch_sandboxed]: the process that was started, or the exception
    of [subprocess.Popen], and the list [_tracked_containers]
    afterwards. *)
Definition launch_sandboxed (h : Sandbox.Host) (popen : list string → popen_outcome)
    (tracked : list string) (script : string) (args : list string)
    (repo_name goal_name : string) (interactive : bool) (extra_ports : list Z)
    (env_overrides : list (string * string)) : result Z * list string :=
  let '(cmd, container_name) :=
    Sandbox.build_sandbox_command h script args repo_name goal_name interactive
      extra_ports env_overrides in
  let tracked := tracked ++ [container_name] in
  match popen cmd with
  | PopenStarted pid => (Ok pid, tracked)
  | PopenOSError => (Raise OSError, tracked)
  | PopenRaised e => (Raise e, tracked)
  end.

(** The loop of [cleanup_containers]: the commands that were run.  A
    timeout and every [OSError] are caught. *)
Fixpoint stop_containers (run : list string → run_outcome string)
    (names : list string) : list (list string) :=
  match names with
  | [] => []
  | name :: rest =>
      match run ["docker"; "stop"; name] with
      | RunDone _ _ => ["docker"; "stop"; name] :: stop_containers run rest
      | RunTimeout => ["docker"; "stop"; name] :: stop_containers run rest
      | RunNotFound => ["docker"; "stop"; name] :: stop_containers run rest
      | RunOSError => ["docker"; "stop"; name] :: stop_containers run rest
      end
  end.

(** [cleanup_containers]: the commands that were run and the list
    [_tracked_containers] afterwards. *)
Definition cleanup_containers (run : list string → run_outcome string)
    (tracked : list string) : list (list string) * list string :=
  (stop_containers run tracked, []).

End Containers.

(** ** Word splitting of the shell

    How a POSIX shell splits a command line into words, on the fragment
    that quoting produces: words separated by spaces, made of plain
    characters, of single-quoted text and of double-quoted text without
    expansion.  Anything else is not read. *)

Module Shell.

Inductive mode : Type := Bare | InSingle | InDouble.

(** Characters that stand for themselves outside quotes. *)
Definition plain (c : ascii) : bool :=
  Py.in_range 97 122 c || Py.in_range 65 90 c || Py.in_range 48 57 c
  || Py.contains c "_-=/.:,+@%".

(** Characters that are special inside double quotes. *)
Definition expands (c : ascii) : bool :=
  Py.contains c "$`" || Py.chr_eqb c "092"%char.

Definition extend (word : option string) (c : ascii) : option string :=
  Some (default EmptyString word +:+ String c EmptyString).

(** The words of a command line; [word] is the word being read, if
    any. *)
Fixpoint split_from (m : mode) (word : option string) (s : string)
    : option (list string) :=
  match s with
  | EmptyString =>
      match m with
      | Bare => Some (option_list word)
      | _ => None
      end
  | String c s' =>
      match m with
      | Bare =>
          if Py.chr_eqb c " " then (option_list word ++.) <$> split_from Bare None s'
          else if Py.chr_eqb c "039"%char
          then split_from InSingle (Some (default EmptyString word)) s'
          else if Py.chr_eqb c "034"%char
          then split_from InDouble (Some (default EmptyString word)) s'
          else if plain c then split_from Bare (extend word c) s'
          else None
      | InSingle =>
          if Py.chr_eqb c "039"%char then split_from Bare word s'
          else split_from InSingle (extend word c) s'
      | InDouble =>
          if Py.chr_eqb c "034"%char then split_from Bare word s'
          else if expands c then None
          else split_from InDouble (extend word c) s'
      end
  end.

Definition split (s : string) : option (list string) := split_from Bare None s.

End Shell.

(** ** String literals of AppleScript

    How AppleScript reads the body of a string literal, on the fragment
    that escaping produces: a backslash before a backslash or a double
    quote stands for that character, a double quote on its own would
    end the literal, and another escape is not read. *)

Module AppleScript.

Fixpoint unescape (s : string) : option string :=
  match s with
  | EmptyString => Some EmptyString
  | String c s' =>
      if Py.chr_eqb c "092"%char then
        match s' with
        | String d s'' =>
            if Py.chr_eqb d "092"%char || Py.chr_eqb d "034"%char
            then String d <$> unescape s''
            else None
        | EmptyString => None
        end
      else if Py.chr_eqb c "034"%char then None
      else String c <$> unescape s'
  end.

End AppleScript.

(** ** The statements of the specification

  Definitions that follow the wording of the specification, to be
  compared with the functions above. *)

Module Spec.

(** The lines of a document: the texts between line feeds. *)
Fixpoint lines (s : string) : list string :=
  match s with
  | EmptyString => [EmptyString]
  | String c s' =>
      if Py.chr_eqb c Py.LF then EmptyString :: lines s'
      else
        match lines s' with
        | l :: ls => String c l :: ls
        | [] => [String c EmptyString]
        end
  end.

(** The lines of a checklist document; a missing document has none. *)
Definition checklist (file : option string) : list string :=
  match file with
  | None => []
  | Some content => lines content
  end.

(** The statuses of a task line, read off the bracket. *)
Definition is_task (line : string) : bool := Py.startswith line "- [".
Definition is_done (line : string) : bool := Py.startswith line "- [x]".
Definition is_blocked (line : string) : bool := Py.startswith line "- [BLOCKED".
Definition is_review (line : string) : bool := Py.startswith line "- [REVIEW".
Definition is_pending (line : string) : bool :=
  is_task line && negb (is_done line || is_blocked line || is_review line).

Definition count (p : string → bool) (ls : list string) : nat :=
  length (List.filter p ls).

(** A truth value as a number. *)
Definition indicator (b : bool) : nat := if b then 1 else 0.

(** A line that marks the task [dep_id] done: the done marker, the
    identifier, and then the end of the line or a character that is no
    word character. *)
Definition done_line (dep_id line : string) : bool :=
  Py.startswith line ("- [x] " +:+ dep_id)
  && match Py.drop (String.length ("- [x] " +:+ dep_id)) line with
     | EmptyString => true
     | String c _ => negb (Py.is_word c)
     end.

(** A task identifier: the letter T and a non-empty run of digits. *)
Definition well_formed_id (dep_id : string) : Prop :=
  ∃ digits, dep_id = "T" +:+ digits ∧ digits ≠ ""
    ∧ ∀ a, Py.contains a digits = true → Py.is_digit a = true.

(** The document has a line that marks [dep_id] done. *)
Definition marked_done (content dep_id : string) : Prop :=
  ∃ line, line ∈ lines content ∧ done_line dep_id line = true.

(** The lines of a window up to the next task line. *)
Fixpoint up_to_task (window : list string) : list string :=
  match window with
  | [] => []
  | sub :: window' => if is_task sub then [] else sub :: up_to_task window'
  end.

(** The lines looked at after the task line [i]: at most nine, and none
    past the next task line. *)
Definition lookahead (lines : list string) (i : nat) : list string :=
  up_to_task (take 9 (drop (S i) lines)).

(** The first Depends sub-line among them as the loop of the code finds
    it, by its pattern. *)
Definition first_depends (lines : list string) (i : nat) : option string :=
  head (omap State.depends_line (lookahead lines i)).

(** What the lookahead of the code decides for the task of line [i]. *)
Definition actionable (content : string) (lines : list string) (i : nat) : bool :=
  match first_depends lines i with
  | None => true
  | Some deps => State._are_depends_satisfied deps content
  end.

(** What one iteration of the loop of the code adds for line [i]. *)
Definition review_at (goal content : string) (lines : list string)
    (i : nat) (line : string) : option State.AttentionItem :=
  match State.review_task line with
  | Some note =>
      if actionable content lines i
      then Some (State.review_item goal note line) else None
  | None => None
  end.

(** The decision of the lookahead on the window of lines it visits. *)
Fixpoint scan (content : string) (window : list string) : bool :=
  match window with
  | [] => true
  | sub :: window' =>
      if Py.startswith sub "- [" then true
      else
        match State.depends_line sub with
        | Some deps => State._are_depends_satisfied deps content
        | None => scan content window'
        end
  end.

Definition actionable_reviews (goal content : string) (lines : list string)
    : list State.AttentionItem :=
  omap id (imap (review_at goal content lines) lines).

(** *** Review tasks, in the words of the specification *)

(** A review task with a note: the line starts with the review marker,
    and the bracket closes after at least one more character. *)
Definition review_line (line : string) : bool :=
  Py.startswith line "- [REVIEW:"
  && match Py.drop 10 line with
     | String _ rest => Py.contains "]" rest
     | EmptyString => false
     end.

(** The leading run of characters of a class. *)
Fixpoint leading (c : ascii → bool) (s : string) : string :=
  match s with
  | String a s' => if c a then String a (leading c s') else EmptyString
  | EmptyString => EmptyString
  end.

(** A Depends sub-line: white space, a dash, white space and the label
    [Depends:]; its text is what follows the label, without the white
    space in front of it. *)
Definition depends_text (sub : string) : option string :=
  let dash := Py.lstrip sub in
  if Py.truthy (leading Py.is_space sub) && Py.startswith dash "-" then
    let label := Py.lstrip (Py.drop 1 dash) in
    if Py.truthy (leading Py.is_space (Py.drop 1 dash))
       && Py.startswith label "Depends:"
    then Some (Py.lstrip (Py.drop 8 label))
    else None
  else None.

(** The text of the first Depends sub-line that the lookahead after the
    task line [i] finds. *)
Definition dependencies (lines : list string) (i : nat) : option string :=
  head (omap depends_text (lookahead lines i)).

(** The text mentions the task identifier: the identifier stands in the
    text, and no further digit follows its digits. *)
Definition mentions (text dep_id : string) : Prop :=
  well_formed_id dep_id
  ∧ ∃ before after, text = before +:+ dep_id +:+ after
      ∧ match after with
        | String c _ => Py.is_digit c = false
        | EmptyString => True
        end.

(** Every task identifier that the text mentions is marked done in the
    document. *)
Definition satisfied (content text : string) : Prop :=
  ∀ dep_id, mentions text dep_id → marked_done content dep_id.

(** The task of line [i] is actionable: the lookahead finds no Depends
    sub-line, or the dependencies of the first one are satisfied. *)
Definition actionable_at (content : string) (lines : list string) (i : nat) : Prop :=
  match dependencies lines i with
  | None => True
  | Some text => satisfied content text
  end.

(** The attention item of a review task: it carries the goal, the task
    identifier that [_parse_task_id] reads off the line, and as title
    the stripped note of the bracket: the text between the review
    marker, white space after it set aside, and a closing bracket. *)
Definition review_of (goal line : string) (item : State.AttentionItem) : Prop :=
  State.goal_name item = goal ∧ State.item_type item = "review"
  ∧ State.question_id item = None
  ∧ State.task_id item = State._parse_task_id line
  ∧ ∃ blank note rest,
      line = "- [REVIEW:" +:+ blank +:+ note +:+ "]" +:+ rest
      ∧ (∀ a, Py.contains a blank = true → Py.is_space a = true)
      ∧ note ≠ "" ∧ State.title item = Py.strip note.

(** [items] are the items of the actionable review tasks among the
    lines [rest], which start at line [i] of the document, one for each
    and in the order of the lines. *)
Fixpoint selected (goal content : string) (lines : list string) (i : nat)
    (rest : list string) (items : list State.AttentionItem) : Prop :=
  match rest with
  | [] => items = []
  | line :: rest' =>
      if review_line line then
        (actionable_at content lines i
         ∧ ∃ item items', items = item :: items' ∧ review_of goal line item
                          ∧ selected goal content lines (S i) rest' items')
        ∨ (¬ actionable_at content lines i
           ∧ selected goal content lines (S i) rest' items)
      else selected goal content lines (S i) rest' items
  end.

(** *** The environment of the sandbox command *)

(** The options of [docker run] in the command that take a value, and
    those among them that set the environment of the container. *)
Definition takes_value (flag : string) : bool :=
  String.eqb flag "--name" || String.eqb flag "-v" || String.eqb flag "-p"
  || String.eqb flag "-e" || String.eqb flag "--env-file".

Definition sets_environment (flag : string) : bool :=
  String.eqb flag "-e" || String.eqb flag "--env-file".

(** The arguments of a list of options that set the environment, each
    with its value and in their order; [flag] is the option read last
    while its value is still to come. *)
Fixpoint environment_of (flag : option string) (options : list string)
    : list (string * string) :=
  match options with
  | [] => []
  | a :: rest =>
      match flag with
      | Some f =>
          (if sets_environment f then [(f, a)] else [])
          ++ environment_of None rest
      | None =>
          if takes_value a then environment_of (Some a) rest
          else environment_of None rest
      end
  end.

(** A list of options and values, read two by two. *)
Fixpoint pairs (l : list string) : list (string * string) :=
  match l with
  | a :: b :: rest => (a, b) :: pairs rest
  | _ => []
  end.

(** The arguments that come before the environment: the container
    name, the terminal flag, the mounts and the SSH agent. *)
Definition command_head (h : Sandbox.Host) (repo_name goal_name : string)
    (interactive : bool) : list string :=
  ["docker"; "run"; "--rm"; "--name";
   "keywork-agent-" +:+ Py.take 8 (Sandbox.uuid4_hex h)]
  ++ (if interactive then ["-it"] else [])
  ++ ["-v"; (if Py.truthy repo_name
             then Sandbox.cwd_path h ["workspace"; repo_name]
             else Sandbox.cwd_path h ["workspace"]) +:+ ":/workspace"]
  ++ (if Py.truthy goal_name
      then ["-v"; Sandbox.cwd_path h ["agents"; "goals"; goal_name] +:+ ":/state"]
      else [])
  ++ ["-v"; Sandbox.cwd_path h ["agents"] +:+ ":/agents:ro"]
  ++ ["-v"; Sandbox.home_path h [".claude"] +:+ ":/home/agent/.claude-host:ro"]
  ++ ["-v"; "keywork-cache:/home/agent/.cache/uv"]
  ++ Sandbox.ssh_args h.

(** The arguments that come after the environment: the volumes and
    ports of the repo, the image and the script with its arguments. *)
Definition command_tail (h : Sandbox.Host) (script : string)
    (args : list string) (repo_name : string) : list string :=
  Sandbox.repo_mount_args h repo_name
  ++ [Sandbox.IMAGE_NAME] ++ ["bash"; script] ++ args.

(** The segments occur in the argument list in the given order, one
    after the other, possibly with other arguments around them. *)
Fixpoint in_order (segments : list (list string)) (cmd : list string) : Prop :=
  match segments with
  | [] => True
  | segment :: rest =>
      ∃ before after, cmd = before ++ segment ++ after ∧ in_order rest after
  end.

(** A search for such an occurrence. *)
Fixpoint in_orderb (segments : list (list string)) (cmd : list string) : bool :=
  match segments with
  | [] => true
  | segment :: rest =>
      existsb
        (fun i => bool_decide (segment `prefix_of` drop i cmd)
                  && in_orderb rest (drop (i + length segment) cmd))
        (seq 0 (S (length cmd)))
  end.

(** The nested expiry field of decoded credentials, when it is there. *)
Definition nested_expiry (data : json) : option json :=
  match data with
  | JDict d =>
      match Sandbox.dict_get d "claudeAiOauth" with
      | Some (JDict o) => Sandbox.dict_get o "expiresAt"
      | _ => None
      end
  | _ => None
  end.

(** The pair of arguments [a], [b] stands at position [i]. *)
Definition pair_at (cmd : list string) (i : nat) (a b : string) : Prop :=
  cmd !! i = Some a ∧ cmd !! S i = Some b.

End Spec.

(** ** Concrete inputs *)

Module Sample.

Definition nl : string := String Py.LF EmptyString.

(** A goal directory whose status document has a cost that is no
    number. *)
Definition malformed_cost_goal : State.GoalDir :=
  {| State.dir_path := "agents/goals/my-feature";
     State.dir_name := "my-feature";
     State.dir_file := fun f =>
       if bool_decide (f = "state.md")
       then Some ("status: building" +:+ nl +:+ "total_cost_usd: abc" +:+ nl)
       else None |}.

(** A goal directory without any file. *)
Definition empty_goal : State.GoalDir :=
  {| State.dir_path := "agents/goals/empty";
     State.dir_name := "empty";
     State.dir_file := fun _ => None |}.

(** The checklist of the tests, with dependencies added. *)
Definition checklist : string :=
  "# Implementation Plan" +:+ nl +:+ nl +:+
  "- [ ] T001: First task" +:+ nl +:+
  "- [x] T002: Completed task" +:+ nl +:+
  "- [BLOCKED: needs info] T003: Blocked task" +:+ nl +:+
  "- [REVIEW: check output] T004: Review task" +:+ nl +:+
  "  - Depends: T002, T001" +:+ nl +:+
  "- [REVIEW: check format] T006: Second review" +:+ nl +:+
  "  - Depends: T002" +:+ nl +:+
  "- [ ] T005: Another pending" +:+ nl.

(** Joining plain relative names under a root directory. *)
Definition join (root : string) (parts : list string) : string :=
  foldl (fun path part => path +:+ "/" +:+ part) root parts.

(** The configuration of repo [x]: the variable A is set to 2. *)
Definition repo_config : string :=
  "sandbox:" +:+ nl +:+
  "  env_vars:" +:+ nl +:+
  "      A: 2" +:+ nl.

(** The same configuration in the layout of the docstring of
    [_read_repo_config], where an entry is indented by four columns. *)
Definition documented_layout : string :=
  "sandbox:" +:+ nl +:+
  "  env_vars:" +:+ nl +:+
  "    A: 2" +:+ nl +:+
  "  volumes:" +:+ nl +:+
  "    - /host/path:/container/path" +:+ nl +:+
  "  ports:" +:+ nl +:+
  "    - 8080" +:+ nl.

(** The documents of the tests of [load_goal]. *)
Definition tested_goal : State.GoalDir :=
  {| State.dir_path := "agents/goals/my-feature";
     State.dir_name := "my-feature";
     State.dir_file := fun f =>
       if bool_decide (f = "state.md") then
         Some ("status: building" +:+ nl +:+ "priority: high" +:+ nl +:+
               "repo: my-project" +:+ nl +:+ "total_cost_usd: 1.50" +:+ nl)
       else if bool_decide (f = "IMPLEMENTATION.md") then
         Some ("- [x] T001: Done" +:+ nl +:+ "- [ ] T002: Todo" +:+ nl +:+
               "- [BLOCKED: x] T003: Stuck" +:+ nl)
       else if bool_decide (f = "prd.md") then
         Some ("# Feature" +:+ nl +:+ nl +:+ "Do the thing." +:+ nl)
       else None |}.

(** The checklist of the test of the review tasks. *)
Definition tested_review : string :=
  "- [x] T001: Done" +:+ nl +:+
  "- [REVIEW: Check the output format] T002: Verify output" +:+ nl +:+
  "  - Depends: T001" +:+ nl.


(** The paused goal of the tests. *)
Definition paused_goal : State.GoalDir :=
  {| State.dir_path := "agents/goals/paused-goal";
     State.dir_name := "paused-goal";
     State.dir_file := fun f =>
       if bool_decide (f = "state.md") then Some ("status: paused" +:+ nl)
       else if bool_decide (f = ".pause") then Some ""
       else None |}.

(** The questions document of the tests. *)
Definition tested_questions : string :=
  "# Agent Information Requests" +:+ nl +:+ nl +:+ "## Open" +:+ nl +:+ nl +:+
  "### Q001: What database to use?" +:+ nl +:+ "- **Blocked task**: T003" +:+ nl +:+ nl +:+
  "## Answered" +:+ nl.

(** The goal with an open question of the tests. *)
Definition question_goal : State.GoalDir :=
  {| State.dir_path := "agents/goals/question-goal";
     State.dir_name := "question-goal";
     State.dir_file := fun f =>
       if bool_decide (f = "state.md") then Some ("status: building" +:+ nl)
       else if bool_decide (f = "questions.md") then Some tested_questions
       else None |}.

(** The registered repo of the tests, and the template beside it. *)
Definition tested_repo : State.RepoDir :=
  {| State.repo_dir_path := "agents/repos/my-project";
     State.repo_dir_name := "my-project";
     State.repo_dir_file := fun f =>
       if bool_decide (f = "config.yaml") then
         Some ("name: my-project" +:+ nl +:+ "language: python" +:+ nl +:+
               "framework: fastapi" +:+ nl +:+
               "remote: git@github.com:org/my-project.git" +:+ nl +:+
               "branch: main" +:+ nl +:+ "priority: high" +:+ nl +:+
               "initialized: true" +:+ nl)
       else None |}.

Definition template_repo : State.RepoDir :=
  {| State.repo_dir_path := "agents/repos/_template";
     State.repo_dir_name := "_template";
     State.repo_dir_file := fun f =>
       if bool_decide (f = "config.yaml") then Some ("name: template" +:+ nl)
       else None |}.

(** A Linux host with an SSH agent, a static env file, credentials
    without expiry, and a Docker daemon that is not running:
    [docker info] exits with status 1. *)
Definition host : Sandbox.Host :=
  {| Sandbox.environ := fun var =>
       if bool_decide (var = "SSH_AUTH_SOCK") then Some "/run/ssh-agent.sock"
       else None;
     Sandbox.platform_system := "Linux";
     Sandbox.cwd_path := join "/srv/keywork";
     Sandbox.home_path := join "/home/dev";
     Sandbox.env_file_exists := true;
     Sandbox.repo_config_file := fun repo =>
       if bool_decide (repo = "x") then Some repo_config else None;
     Sandbox.uuid4_hex := "3f2a9c1e5b7d4e0f8a6b2c4d6e8f0a1b";
     Sandbox.docker_info := RunDone 1 "";
     Sandbox.keychain_secret := RunNotFound;
     Sandbox.credentials_file :=
       Some (Decoded (JDict [("claudeAiOauth", JDict [("accessToken", JStr "token")])]));
     Sandbox.now_ms := 1700000000000 |}.

(** The host above, with the repo configuration of [x] written in the
    layout of the docstring. *)
Definition documented_host : Sandbox.Host :=
  {| Sandbox.environ := Sandbox.environ host;
     Sandbox.platform_system := Sandbox.platform_system host;
     Sandbox.cwd_path := Sandbox.cwd_path host;
     Sandbox.home_path := Sandbox.home_path host;
     Sandbox.env_file_exists := Sandbox.env_file_exists host;
     Sandbox.repo_config_file := fun repo =>
       if bool_decide (repo = "x") then Some documented_layout else None;
     Sandbox.uuid4_hex := Sandbox.uuid4_hex host;
     Sandbox.docker_info := Sandbox.docker_info host;
     Sandbox.keychain_secret := Sandbox.keychain_secret host;
     Sandbox.credentials_file := Sandbox.credentials_file host;
     Sandbox.now_ms := Sandbox.now_ms host |}.

(** A Linux machine without terminal emulator and outside tmux. *)
Definition headless : Terminal.Host :=
  {| Terminal.is_darwin := false;
     Terminal.run := fun _ => Terminal.Ran RunOSError;
     Terminal.popen := fun _ => PopenOSError;
     Terminal.which := fun _ => None;
     Terminal.environ := fun _ => None;
     Terminal.cwd := "/srv/keywork" |}.

End Sample.

(** ** Properties of the data

    Predicates that the further properties of the code are stated
    with. *)

Module Facts.

(** A key of the status document, and a value: both stripped, the key
    without colon and without the comment sign in front. *)
Definition good_entry (k v : string) : Prop :=
  Py.strip k = k ∧ Py.strip v = v
  ∧ Py.contains ":" k = false ∧ Py.startswith k "#" = false.

(** The goal directory of an entry that the listings visit: a
    directory whose name is not reserved. *)
Definition goal_dir_of (e : State.dir_entry) : option State.GoalDir :=
  match e with
  | State.EntryFile _ => None
  | State.EntryDir d => if State.reserved (State.dir_name d) then None else Some d
  end.

(** The goal directories among the entries, in their order. *)
Definition goal_dirs (entries : list State.dir_entry) : list State.GoalDir :=
  omap goal_dir_of entries.

(** The repo that the status document of a goal directory names. *)
Definition repo_of (d : State.GoalDir) : string :=
  State.get (State.parse_state_md (State.dir_file d "state.md")) "repo" "".

(** Every character of the text is of the class. *)
Definition all_of (c : ascii → bool) (s : string) : Prop :=
  ∀ a, Py.contains a s = true → c a = true.

(** The text occurs in the document. *)
Definition occurs_in (part text : string) : Prop :=
  ∃ before after, text = before +:+ part +:+ after.

(** A text that is not empty and carries no surrounding whitespace. *)
Definition good_text (s : string) : Prop := s ≠ "" ∧ Py.strip s = s.

(** A value of a parsed configuration: a good text, or a list of good
    texts. *)
Definition good_value (v : State.yaml_value) : Prop :=
  match v with
  | State.YStr s => good_text s
  | State.YList items => Forall good_text items
  end.

(** What the loop of [parse_config_yaml] keeps true of its variables. *)
Definition yaml_inv (st : State.yaml_state) : Prop :=
  map_Forall (fun k v => good_value v ∧ Py.contains ":" k = false)
    (State.yaml_result st)
  ∧ ∀ parent, State.current_key st = Some parent → Py.contains ":" parent = false.

(** An environment variable of a repo configuration: the name is a
    non-empty run of word characters, the value is stripped and holds
    no line feed. *)
Definition good_variable (kv : string * string) : Prop :=
  kv.1 ≠ "" ∧ all_of Py.is_word kv.1
  ∧ Py.strip kv.2 = kv.2 ∧ Py.contains Py.LF kv.2 = false.

(** A volume of a repo configuration: stripped, without line feed. *)
Definition good_volume (v : string) : Prop :=
  Py.strip v = v ∧ Py.contains Py.LF v = false.

(** What [_check_token_expiry] says of a token that is valid: nothing,
    or the warning with the minutes that remain, thirty at most. *)
Definition expiry_note (msg : string) : Prop :=
  msg = "" ∨ ∃ m, (0 ≤ m ≤ 30)%Z ∧ msg = Sandbox.expiry_warning m.

(** The repo directory of an entry that [load_registered_repos]
    visits: a directory whose name is not reserved. *)
Definition repo_dir_of (e : State.repo_entry) : option State.RepoDir :=
  match e with
  | State.RepoFile _ => None
  | State.RepoEntry d =>
      if State.reserved (State.repo_dir_name d) then None else Some d
  end.

(** The repo directories among the entries, in their order. *)
Definition repo_dirs (entries : list State.repo_entry) : list State.RepoDir :=
  omap repo_dir_of entries.

(** The three kinds of attention items. *)
Definition kinds : list string := ["review"; "question"; "paused"].

(** The text has no line boundary other than the line feed. *)
Definition lf_only (text : string) : Prop :=
  ∀ c, Py.contains c text = true → Py.is_linebreak c = true → c = Py.LF.

(** The text is empty or ends with a line feed. *)
Fixpoint open_ended (s : string) : bool :=
  match s with
  | EmptyString => true
  | String c EmptyString => Py.chr_eqb c Py.LF
  | String _ s' => open_ended s'
  end.

End Facts.

(** * Theorems *)

#[local] Set Warnings "-clear-no-such-hyp".

(** ** The tests of the repository

  The embedding gives the results that [tests/test_tui/test_state.py]
  expects. *)

Section Tests.

Example test_loads_goal_state :
  ∃ goal, State.load_goal Sample.tested_goal = Ok goal
    ∧ State.name goal = "my-feature"
    ∧ State.status goal = "building"
    ∧ State.priority goal = "high"
    ∧ State.repo_name goal = "my-project"
    ∧ State.completed_tasks goal = 1%Z
    ∧ State.total_tasks goal = 3%Z
    ∧ State.blocked_tasks goal = 1%Z
    ∧ State.total_cost_usd goal = FFin 150 100
    ∧ State.prd_summary goal = "Do the thing."
    ∧ State.progress goal = "1/3".
Proof. eexists. split; [vm_compute; reflexivity|]. repeat split. Qed.

Example test_finds_review_tasks :
  ∃ item, State.load_review_tasks "test-goal" (Some Sample.tested_review) = Ok [item]
    ∧ State.title item = "Check the output format".
Proof. eexists. split; [vm_compute; reflexivity|]. reflexivity. Qed.

Example test_missing_file :
  State.parse_state_md None = ∅
  ∧ State.count_tasks None = (0, 0, 0, 0)
  ∧ State.get_prd_summary None = "".
Proof. done. Qed.

End Tests.

(** ** The progress text of a goal *)

Section Progress.

Lemma str_app_nil_l (s : string) : "" +:+ s = s.
Proof. reflexivity. Qed.

Lemma str_app_cons (c : ascii) (a b : string) :
  String c a +:+ b = String c (a +:+ b).
Proof. reflexivity. Qed.

Lemma str_of_int_inj (a b : Z) : Py.str_of_int a = Py.str_of_int b → a = b.
Proof.
  unfold Py.str_of_int. intros E.
  assert (Some (Z.to_int a) = Some (Z.to_int b)) as [= E'].
  { rewrite <- !NilEmpty.isi. by rewrite E. }
  rewrite <- (DecimalZ.of_to a), <- (DecimalZ.of_to b). by rewrite E'.
Qed.

Lemma contains_app (c : ascii) (a b : string) :
  Py.contains c (a +:+ String c b) = true.
Proof.
  induction a as [|d a IH].
  - rewrite str_app_nil_l. cbn. unfold Py.chr_eqb. by rewrite Ascii.eqb_refl.
  - rewrite str_app_cons. cbn [Py.contains]. rewrite IH. apply orb_true_r.
Qed.

Lemma ratio_is_zero_zero (a b : string) : a +:+ "/" +:+ b = "0/0" → b = "0".
Proof.
  destruct a as [|c1 [|c2 [|c3 a]]]; rewrite ?str_app_cons, ?str_app_nil_l;
    intros E; simplify_eq; try done.
  destruct a; discriminate.
Qed.

End Progress.

(** C10.  The progress text is [no tasks] exactly when the goal has no
  task, it is the completed count, a slash and the total count
  otherwise, and it is never [0/0]. *)
Theorem progress_no_tasks_iff (g : State.GoalState) :
(State.progress g = "no tasks" ↔ State.total_tasks g = 0%Z)
∧ (State.total_tasks g ≠ 0%Z →
     State.progress g =
       Py.str_of_int (State.completed_tasks g) +:+ "/"
       +:+ Py.str_of_int (State.total_tasks g))
∧ State.progress g ≠ "0/0".
Proof.
unfold State.progress.
destruct (Z.eqb_spec (State.total_tasks g) 0) as [E|E].
- split_and!; [done | done | discriminate].
- split_and!; [split | done |].
  + intros H. apply (f_equal (Py.contains "/")) in H.
    by rewrite (contains_app "/" _ (Py.str_of_int (State.total_tasks g))) in H.
  + done.
  + intros H%ratio_is_zero_zero. by apply (str_of_int_inj _ 0) in H.
Qed.

Lemma progress_no_tasks_iff_witness :
∃ g, State.total_tasks g ≠ 0%Z ∧ State.progress g = "1/3".
Proof.
exists {| State.name := "g"; State.status := "building"; State.priority := "high";
          State.last_activity := ""; State.completed_tasks := 1;
          State.total_tasks := 3; State.blocked_tasks := 1;
          State.review_tasks := 0; State.total_cost_usd := FFin 150 100;
          State.has_replan := false; State.has_feedback := false;
          State.prd_summary := ""; State.repo_name := "";
          State.path := "agents/goals/g" |}.
split; [done|].
match goal with |- State.progress ?g = _ =>
  rewrite (proj1 (proj2 (progress_no_tasks_iff g))) end; [reflexivity | done].
Defined.

(** ** Counting task lines *)

Section Lines.

Lemma chr_eqb_eq (a b : ascii) : Py.chr_eqb a b = true ↔ a = b.
Proof. apply Ascii.eqb_eq. Qed.

Lemma chr_eqb_refl (a : ascii) : Py.chr_eqb a a = true.
Proof. by apply chr_eqb_eq. Qed.

Lemma str_prefix_cons (a b : ascii) (l s : string) :
  String.prefix (String a l) (String b s) = bool_decide (a = b) && String.prefix l s.
Proof. cbn. destruct (ascii_dec a b); case_bool_decide; done. Qed.

Lemma str_prefix_nil (s : string) : String.prefix "" s = true.
Proof. by destruct s. Qed.

(** A literal without line feed is matched within the first line. *)
Lemma prefix_first_line (l s : string) :
  Py.contains Py.LF l = false →
  String.prefix l s = String.prefix l (hd "" (Spec.lines s)).
Proof.
  revert s. induction l as [|a l IH]; intros s Hl.
  - by rewrite !str_prefix_nil.
  - cbn [Py.contains] in Hl. apply orb_false_elim in Hl as [Ha Hl].
    destruct s as [|b s]; [done|].
    cbn [Spec.lines]. destruct (Py.chr_eqb b Py.LF) eqn:Hb.
    + apply chr_eqb_eq in Hb as ->. cbn [hd]. rewrite str_prefix_cons.
      case_bool_decide as E; [|done]. subst a.
      by rewrite chr_eqb_refl in Ha.
    + rewrite str_prefix_cons, (IH s Hl).
      destruct (Spec.lines s); cbn [hd]; by rewrite str_prefix_cons.
Qed.

Lemma str_take_prefix (l s : string) :
  String.prefix l s = true → Py.take (String.length l) s = l.
Proof.
  revert s. induction l as [|a l IH]; intros [|b s]; try done.
  rewrite str_prefix_cons. intros [Hab Hp]%andb_prop.
  apply bool_decide_eq_true in Hab as ->. cbn. by rewrite IH.
Qed.

Context (m : string → option nat).

(** Inside a match that holds no line feed nothing is counted. *)
Lemma findall_skip (n : nat) (b : bool) (s : string) :
  Py.contains Py.LF (Py.take n s) = false → n ≠ 0 →
  Re.findall_multiline_count m b n s = Re.findall_multiline_count m false 0 s.
Proof.
  revert n b. induction s as [|a s IH]; intros n b Hn Hpos; [done|].
  destruct n as [|n]; [done|]. cbn [Py.take Py.contains] in Hn.
  apply orb_false_elim in Hn as [Ha Hn].
  cbn [Re.findall_multiline_count]. unfold Py.chr_eqb in *.
  rewrite Ascii.eqb_sym in Ha. rewrite Ha.
  destruct n as [|n]; [done|]. by apply IH.
Qed.

End Lines.

Section CountLines.

Context (l : string) (Hne : l ≠ "") (Hlf : Py.contains Py.LF l = false).

Lemma lit_not_at_lf (s : string) : String.prefix l (String Py.LF s) = false.
Proof.
  destruct l as [|a l']; [done|]. rewrite str_prefix_cons.
  case_bool_decide as E; [|done]. subst a. cbn [Py.contains] in Hlf.
  by rewrite chr_eqb_refl in Hlf.
Qed.

Lemma findall_lit_step (b : bool) (c : ascii) (s : string) :
  Re.findall_multiline_count (Re.lit_len l) b 0 (String c s) =
    (if b && String.prefix l (String c s) then 1 else 0)
    + Re.findall_multiline_count (Re.lit_len l) (Py.chr_eqb c Py.LF) 0 s.
Proof.
  cbn [Re.findall_multiline_count]. unfold Re.lit_len, Py.startswith.
  destruct b; [|done]. cbn [andb].
  destruct (String.prefix l (String c s)) eqn:Hp; [|done].
  destruct (Py.chr_eqb c Py.LF) eqn:Hc.
  { apply chr_eqb_eq in Hc as ->. by rewrite lit_not_at_lf in Hp. }
  destruct l as [|a l'] eqn:El; [done|]. cbn [String.length pred Nat.add].
  f_equal. rewrite str_prefix_cons in Hp. apply andb_prop in Hp as [_ Hp].
  destruct l' as [|a' l'']; [done|].
  apply findall_skip; [|done].
  rewrite (str_take_prefix _ _ Hp). cbn [Py.contains] in Hlf.
  by apply orb_false_elim in Hlf as [_ ?].
Qed.

(** The number of matches of [^l] is the number of lines that start
    with [l]. *)
Lemma findall_lit_lines (b : bool) (s : string) :
  Re.findall_multiline_count (Re.lit_len l) b 0 s =
    Spec.count (fun line => Py.startswith line l)
      (if b then Spec.lines s else tl (Spec.lines s)).
Proof.
  unfold Spec.count, Py.startswith. revert b.
  induction s as [|c s IH]; intros b.
  - destruct b; cbn; [|done]. by destruct l.
  - rewrite findall_lit_step, IH. cbn [Spec.lines].
    destruct (Py.chr_eqb c Py.LF) eqn:Hc.
    + apply chr_eqb_eq in Hc as ->. rewrite lit_not_at_lf, andb_false_r.
      destruct b; cbn [tl List.filter]; [|done].
      by destruct l.
    + rewrite (prefix_first_line l (String c s) Hlf). cbn [Spec.lines].
      rewrite Hc.
      destruct (Spec.lines s) as [|h t]; destruct b; cbn [andb hd tl List.filter];
        try done; by destruct (String.prefix l _).
Qed.

Lemma count_lines_with_spec (content : string) :
  State.count_lines_with l content =
    Spec.count (fun line => Py.startswith line l) (Spec.lines content).
Proof. apply (findall_lit_lines true). Qed.

End CountLines.

Section Statuses.

Lemma str_prefix_app (a b s : string) :
  String.prefix (a +:+ b) s =
    String.prefix a s && String.prefix b (Py.drop (String.length a) s).
Proof.
  revert s. induction a as [|c a IH]; intros s.
  - by rewrite str_app_nil_l, str_prefix_nil.
  - rewrite str_app_cons. destruct s as [|d s]; [done|].
    rewrite !str_prefix_cons, IH. cbn [String.length Py.drop].
    by rewrite andb_assoc.
Qed.

Lemma status_partition (line : string) :
  Spec.indicator (Spec.is_task line) =
    Spec.indicator (Spec.is_done line) + Spec.indicator (Spec.is_blocked line)
    + Spec.indicator (Spec.is_review line) + Spec.indicator (Spec.is_pending line).
Proof.
  unfold Spec.is_pending, Spec.is_done, Spec.is_blocked, Spec.is_review,
    Spec.is_task, Py.startswith.
  change "- [x]" with ("- [" +:+ "x]").
  change "- [BLOCKED" with ("- [" +:+ "BLOCKED").
  change "- [REVIEW" with ("- [" +:+ "REVIEW").
  rewrite !str_prefix_app. destruct (String.prefix "- [" line); [|done].
  cbn [andb]. destruct (Py.drop _ line) as [|c rest]; [done|].
  rewrite !str_prefix_cons.
  repeat case_bool_decide; subst; try discriminate; cbn [andb];
    repeat match goal with |- context [String.prefix ?a ?b] =>
      destruct (String.prefix a b) end; done.
Qed.

Lemma statuses_exclusive (line : string) :
  (Spec.is_done line = true → Spec.is_task line = true
     ∧ Spec.is_blocked line = false ∧ Spec.is_review line = false)
  ∧ (Spec.is_blocked line = true → Spec.is_task line = true
       ∧ Spec.is_done line = false ∧ Spec.is_review line = false)
  ∧ (Spec.is_review line = true → Spec.is_task line = true
       ∧ Spec.is_done line = false ∧ Spec.is_blocked line = false).
Proof.
  pose proof (status_partition line) as H. unfold Spec.indicator in H.
  destruct (Spec.is_task line), (Spec.is_done line), (Spec.is_blocked line),
    (Spec.is_review line), (Spec.is_pending line); cbn in H;
    split_and!; intros; split_and!; try done; lia.
Qed.

Lemma count_cons (p : string → bool) (line : string) (ls : list string) :
  Spec.count p (line :: ls) = Spec.indicator (p line) + Spec.count p ls.
Proof. unfold Spec.count. cbn. by destruct (p line). Qed.

Lemma count_partition (ls : list string) :
  Spec.count Spec.is_task ls =
    Spec.count Spec.is_done ls + Spec.count Spec.is_blocked ls
    + Spec.count Spec.is_review ls + Spec.count Spec.is_pending ls.
Proof.
  induction ls as [|line ls IH]; [done|].
  rewrite !count_cons, IH, status_partition. lia.
Qed.

Lemma count_tasks_lines (content : string) :
  State.count_tasks (Some content) =
    (Spec.count Spec.is_task (Spec.lines content),
     Spec.count Spec.is_done (Spec.lines content),
     Spec.count Spec.is_blocked (Spec.lines content),
     Spec.count Spec.is_review (Spec.lines content)).
Proof.
  cbn [State.count_tasks]. by rewrite !count_lines_with_spec.
Qed.

End Statuses.

(** C6.  The counts of [count_tasks] partition the task lines of the
  checklist: every count is the number of lines with that status, the
  total is the sum of the done, blocked, review and pending lines, the
  statuses exclude one another, and two evaluations on the same text
  give the same counts. *)
Theorem count_tasks_partition (file : option string) :
let '(total, completed, blocked, review) := State.count_tasks file in
let ls := Spec.checklist file in
(total = Spec.count Spec.is_task ls
 ∧ completed = Spec.count Spec.is_done ls
 ∧ blocked = Spec.count Spec.is_blocked ls
 ∧ review = Spec.count Spec.is_review ls)
∧ total = completed + blocked + review + Spec.count Spec.is_pending ls
∧ completed + blocked + review ≤ total
∧ (∀ line,
     (Spec.is_done line = true → Spec.is_task line = true
        ∧ Spec.is_blocked line = false ∧ Spec.is_review line = false)
     ∧ (Spec.is_blocked line = true → Spec.is_task line = true
          ∧ Spec.is_done line = false ∧ Spec.is_review line = false)
     ∧ (Spec.is_review line = true → Spec.is_task line = true
          ∧ Spec.is_done line = false ∧ Spec.is_blocked line = false))
∧ (∀ again, again = State.count_tasks file →
     again = (total, completed, blocked, review)).
Proof.
destruct file as [content|].
- rewrite count_tasks_lines. cbn [Spec.checklist].
  pose proof (count_partition (Spec.lines content)) as H.
  split_and!; try done; [lia | apply statuses_exclusive].
- cbn. split_and!; try done. apply statuses_exclusive.
Qed.

(** ** Dependencies of a review task *)

Section Combinators.

(** A greedy star whose continuation cannot fail takes the longest run. *)
Lemma star_total {A : Type} (c : ascii → bool) (f : string → string → A)
    (s : string) :
  Re.star c (fun m r => Some (f m r)) s = Some (f (Re.span c s).1 (Re.span c s).2).
Proof.
  revert f. induction s as [|a s IH]; intros f; [done|].
  cbn [Re.star Re.span]. destruct (c a); [|done].
  rewrite (IH (fun m r => f (String a m) r)).
  by destruct (Re.span c s).
Qed.

Lemma span_all (c : ascii → bool) (s : string) :
  ∀ a, Py.contains a (Re.span c s).1 = true → c a = true.
Proof.
  induction s as [|b s IH]; intros a; [done|].
  cbn [Re.span]. destruct (c b) eqn:Hb; [|done].
  destruct (Re.span c s) as [m r]. cbn [prod_map fst Py.contains] in *.
  intros [E%chr_eqb_eq|H]%orb_prop; [by subst|by apply IH].
Qed.

End Combinators.

Section TaskIds.

Lemma task_number_spec (s digits : string) :
  State.task_number s = Some digits →
  Spec.well_formed_id ("T" +:+ digits)
  ∧ ∃ rest, s = "T" +:+ digits +:+ rest.
Proof.
  unfold State.task_number, Re.lit, Py.startswith.
  destruct s as [|t s]; [done|]. rewrite str_prefix_cons, str_prefix_nil, andb_true_r.
  case_bool_decide as Et; [subst t|done]. cbn [String.length Py.drop].
  unfold Re.plus. destruct s as [|a s]; [done|].
  destruct (Py.is_digit a) eqn:Ha; [|done].
  rewrite (star_total _ (fun m _ => String a m)). intros [= <-].
  pose proof (span_all Py.is_digit s) as Hall.
  assert (Hsplit : ∀ c x, x = (Re.span c x).1 +:+ (Re.span c x).2).
  { intros c x. induction x as [|b x IH]; [done|]. cbn [Re.span].
    destruct (c b); [|done]. destruct (Re.span c x); cbn in *.
    by rewrite str_app_cons, <- IH. }
  split.
  - exists (String a (Re.span Py.is_digit s).1). split_and!; [done..|].
    intros b. cbn [Py.contains]. intros [E%chr_eqb_eq|H]%orb_prop; [by subst|].
    by apply Hall.
  - exists (Re.span Py.is_digit s).2. rewrite !str_app_cons, str_app_nil_l.
    by rewrite <- Hsplit.
Qed.

Lemma findall_task_ids_well_formed (s : string) (n : nat) (dep_id : string) :
  dep_id ∈ State.findall_task_ids n s → Spec.well_formed_id dep_id.
Proof.
  revert n. induction s as [|a s IH]; intros n; cbn [State.findall_task_ids].
  - by intros ?%elem_of_nil.
  - destruct n as [|n]; [|by apply IH].
    destruct (State.task_number (String a s)) as [digits|] eqn:E; [|by apply IH].
    intros [->|H]%elem_of_cons; [|by eapply IH].
    by apply task_number_spec in E as [? _].
Qed.

End TaskIds.

Section DoneLines.

Lemma contains_app_or (c : ascii) (a b : string) :
  Py.contains c (a +:+ b) = Py.contains c a || Py.contains c b.
Proof.
  induction a as [|d a IH]; [done|].
  rewrite str_app_cons. cbn [Py.contains]. by rewrite IH, orb_assoc.
Qed.

Lemma last_char_app (a s : string) :
  s ≠ "" → State.last_char (a +:+ s) = State.last_char s.
Proof.
  intros Hs. induction a as [|d a IH]; [done|].
  rewrite str_app_cons. cbn [State.last_char]. rewrite IH.
  destruct (a +:+ s) eqn:E; [|done].
  destruct a, s; done.
Qed.

Lemma last_char_contains (s : string) :
  s ≠ "" → ∃ c, State.last_char s = Some c ∧ Py.contains c s = true.
Proof.
  induction s as [|d s IH]; [done|]. intros _.
  destruct s as [|e s].
  - exists d. cbn. by rewrite chr_eqb_refl.
  - destruct IH as (c & Hc & Hin); [done|]. exists c. split; [done|].
    cbn [Py.contains] in *. rewrite Hin. apply orb_true_r.
Qed.

Context (dep_id : string) (Hid : Spec.well_formed_id dep_id).

Lemma done_literal_no_lf : Py.contains Py.LF ("- [x] " +:+ dep_id) = false.
Proof.
  destruct Hid as (digits & -> & _ & Hd).
  rewrite !contains_app_or.
  destruct (Py.contains Py.LF digits) eqn:E; [|done].
  by apply Hd in E.
Qed.

Lemma done_literal_last :
  ∃ c, State.last_char ("- [x] " +:+ dep_id) = Some c ∧ Py.is_word c = true.
Proof.
  destruct Hid as (digits & -> & Hne & Hd).
  destruct (last_char_contains digits Hne) as (c & Hc & Hin).
  exists c. split.
  - by rewrite !last_char_app.
  - apply Hd in Hin. unfold Py.is_word. by rewrite Hin.
Qed.

Lemma first_line_app (l r : string) :
  Py.contains Py.LF l = false →
  hd "" (Spec.lines (l +:+ r)) = l +:+ hd "" (Spec.lines r).
Proof.
  intros Hl. induction l as [|a l IH]; [done|].
  cbn [Py.contains] in Hl. apply orb_false_elim in Hl as [Ha Hl].
  rewrite !str_app_cons. cbn [Spec.lines].
  unfold Py.chr_eqb in *. rewrite Ascii.eqb_sym in Ha. rewrite Ha.
  specialize (IH Hl).
  destruct (Spec.lines (l +:+ r)); cbn [hd] in *; rewrite ?str_app_cons; by f_equal.
Qed.

Lemma str_prefix_split (l s : string) :
  String.prefix l s = true → s = l +:+ Py.drop (String.length l) s.
Proof.
  revert s. induction l as [|a l IH]; intros s; [done|].
  destruct s as [|b s]; [done|]. rewrite str_prefix_cons.
  intros [->%bool_decide_eq_true Hp]%andb_prop.
  rewrite str_app_cons. cbn [String.length Py.drop]. by rewrite <- IH.
Qed.

Lemma str_drop_app_length (l r : string) : Py.drop (String.length l) (l +:+ r) = r.
Proof. induction l as [|a l IH]; [done|]. by rewrite str_app_cons. Qed.

(** The pattern of a done task matches at a position exactly when the
    line that starts there marks the task done. *)
Lemma done_task_first_line (s : string) :
  is_Some (State.done_task dep_id s)
  ↔ Spec.done_line dep_id (hd "" (Spec.lines s)) = true.
Proof.
  unfold State.done_task, Spec.done_line, Re.lit, Py.startswith.
  set (l := "- [x] " +:+ dep_id).
  rewrite <- (prefix_first_line l s done_literal_no_lf).
  destruct (String.prefix l s) eqn:Hp;
    [|rewrite andb_false_l; split; [by intros [? [=]]|done]].
  rewrite (str_prefix_split _ _ Hp), (first_line_app _ _ done_literal_no_lf).
  rewrite !str_drop_app_length. cbn [andb].
  destruct done_literal_last as (c & Hlast & Hc). fold l in Hlast.
  rewrite Hlast. unfold Re.word_boundary.
  cbn [from_option]. rewrite Hc.
  destruct (Py.drop (String.length l) s) as [|a r]; [done|].
  cbn [Spec.lines]. destruct (Py.chr_eqb a Py.LF) eqn:Ha.
  - apply chr_eqb_eq in Ha as ->. done.
  - destruct (Spec.lines r); cbn [hd]; destruct (Py.is_word a); cbn;
      (split; [by intros [? [=]]|done]) || done.
Qed.

End DoneLines.

Section Search.

(** A search anchored at line starts finds a match exactly when some
    line has the property that the pattern decides. *)
Lemma search_multiline_lines {A : Type} (m : Re.matcher A) (p : string → bool)
    (b : bool) (s : string) :
  (∀ s, is_Some (m s) ↔ p (hd "" (Spec.lines s)) = true) →
  is_Some (Re.search_multiline m b s)
  ↔ ∃ line, line ∈ (if b then Spec.lines s else tl (Spec.lines s))
            ∧ p line = true.
Proof.
  intros Hm. revert b. induction s as [|a s IH]; intros b.
  - cbn [Re.search_multiline Spec.lines]. destruct b; cbn [tl].
    + specialize (Hm ""). cbn [Spec.lines hd] in Hm.
      destruct (m "") eqn:E.
      * split; [|done]. intros _. exists "". split; [apply list_elem_of_here|].
        by apply Hm.
      * split; [by intros [? [=]]|]. intros (line & ->%list_elem_of_singleton & Hp).
        by apply Hm in Hp.
    + split; [by intros [? [=]]|]. by intros (? & ?%elem_of_nil & _).
  - cbn [Re.search_multiline].
    assert (Hhere : is_Some (if b then m (String a s) else None)
                    ↔ b = true ∧ p (hd "" (Spec.lines (String a s))) = true).
    { destruct b; [rewrite Hm; naive_solver|]. split; [by intros [? [=]]|naive_solver]. }
    assert (Hrest : is_Some (prod_map (String a) id
                               <$> Re.search_multiline m (Py.chr_eqb a Py.LF) s)
                    ↔ ∃ line, line ∈ (if Py.chr_eqb a Py.LF then Spec.lines s
                                       else tl (Spec.lines s)) ∧ p line = true).
    { rewrite fmap_is_Some. apply IH. }
    transitivity ((b = true ∧ p (hd "" (Spec.lines (String a s))) = true)
                  ∨ ∃ line, line ∈ (if Py.chr_eqb a Py.LF then Spec.lines s
                                     else tl (Spec.lines s)) ∧ p line = true).
    { rewrite <- Hhere, <- Hrest.
      destruct (if b then m (String a s) else None); [|naive_solver].
      split; [left|]; done. }
    cbn [Spec.lines]. destruct (Py.chr_eqb a Py.LF).
    + cbn [hd tl]. destruct b.
      * setoid_rewrite elem_of_cons. naive_solver.
      * naive_solver.
    + destruct (Spec.lines s) as [|h t]; cbn [hd tl]; destruct b;
        try setoid_rewrite elem_of_cons; try setoid_rewrite elem_of_nil;
        naive_solver.
Qed.

End Search.

Section Depends.

Lemma done_in_spec (content dep_id : string) :
  Spec.well_formed_id dep_id →
  State.done_in content dep_id = true ↔ Spec.marked_done content dep_id.
Proof.
  intros Hid. unfold State.done_in, Spec.marked_done.
  rewrite bool_decide_eq_true.
  apply (search_multiline_lines _ (Spec.done_line dep_id) true).
  intros s. by apply done_task_first_line.
Qed.

Lemma _are_depends_satisfied_forallb (depends_line content : string) :
  State._are_depends_satisfied depends_line content =
    forallb (State.done_in content) (State.findall_task_ids 0 depends_line).
Proof.
  unfold State._are_depends_satisfied.
  by destruct (State.findall_task_ids 0 depends_line).
Qed.

End Depends.

Section Reviews.

Lemma depends_satisfied_marked_done (depends_line content : string) :
  State._are_depends_satisfied depends_line content = true
  ↔ ∀ dep_id, dep_id ∈ State.findall_task_ids 0 depends_line →
              Spec.marked_done content dep_id.
Proof.
  rewrite _are_depends_satisfied_forallb, forallb_forall. split.
  - intros H dep_id Hin. apply done_in_spec.
    + by eapply findall_task_ids_well_formed.
    + by apply H, list_elem_of_In.
  - intros H dep_id Hin%list_elem_of_In. apply done_in_spec.
    + by eapply findall_task_ids_well_formed.
    + by apply H.
Qed.

Context (content : string) (lines : list string).

Lemma depends_lookahead_scan (a k : nat) :
  k = 0 ∨ a + k ≤ length lines →
  State.depends_lookahead content lines (seq a k)
  = Ok (Spec.scan content (take k (drop a lines))).
Proof.
  revert a. induction k as [|k IH]; intros a Hk; [done|].
  destruct Hk as [|Hk]; [done|].
  destruct (lookup_lt_is_Some_2 lines a) as [sub Hsub]; [lia|].
  cbn [seq State.depends_lookahead]. rewrite Hsub.
  rewrite (drop_S _ _ _ Hsub). cbn [take Spec.scan].
  destruct (Py.startswith sub "- ["); [done|].
  destruct (State.depends_line sub); [done|].
  apply IH. right. lia.
Qed.

Lemma scan_actionable (i : nat) :
  Spec.scan content (take 9 (drop (S i) lines)) = Spec.actionable content lines i.
Proof.
  unfold Spec.actionable, Spec.first_depends, Spec.lookahead.
  induction (take 9 (drop (S i) lines)) as [|sub w IH]; [done|].
  cbn [Spec.scan Spec.up_to_task]. unfold Spec.is_task.
  destruct (Py.startswith sub "- ["); [done|].
  cbn [omap list_omap]. by destruct (State.depends_line sub).
Qed.

Lemma depends_lookahead_actionable (i : nat) :
  State.depends_lookahead content lines
    (State.range (i + 1) (Nat.min (i + 10) (length lines)))
  = Ok (Spec.actionable content lines i).
Proof.
  unfold State.range. rewrite depends_lookahead_scan by lia.
  rewrite <- scan_actionable.
  replace (i + 1) with (S i) by lia.
  destruct (decide (9 ≤ length lines - S i)) as [Hle|Hgt].
  - by replace (Nat.min (i + 10) (length lines) - S i) with 9 by lia.
  - rewrite !take_ge; [done|rewrite length_drop; lia..].
Qed.

Lemma review_loop_spec (goal : string) (i : nat) (rest : list string) :
  State.review_loop goal content lines i rest
  = Ok (omap id (imap (fun k => Spec.review_at goal content lines (i + k)) rest)).
Proof.
  revert i. induction rest as [|line rest IH]; intros i; [done|].
  cbn [State.review_loop imap omap list_omap].
  rewrite (imap_ext ((fun k => Spec.review_at goal content lines (i + k)) ∘ S)
             (fun k => Spec.review_at goal content lines (S i + k)));
    [|intros; cbn; f_equal; lia].
  rewrite Nat.add_0_r. unfold Spec.review_at at 1.
  destruct (State.review_task line) as [note|].
  - rewrite depends_lookahead_actionable, IH. cbn.
    by destruct (Spec.actionable content lines i).
  - by rewrite IH.
Qed.

End Reviews.

Lemma count_tasks_partition_witness :
Spec.count Spec.is_pending (Spec.lines Sample.checklist) = 2
∧ Spec.is_blocked "- [x] T002: Completed task" = false
∧ (6, 1, 1, 2) = State.count_tasks (Some Sample.checklist).
Proof.
pose proof (count_tasks_partition (Some Sample.checklist)) as H.
destruct (State.count_tasks (Some Sample.checklist))
  as [[[total completed] blocked] review] eqn:E.
vm_compute in E. injection E as <- <- <- <-.
destruct H as (_ & Hsum & _ & Hexcl & Hagain).
split_and!.
- cbn [Spec.checklist] in Hsum. lia.
- destruct (Hexcl "- [x] T002: Completed task") as (Hdone & _).
  apply Hdone. vm_compute. reflexivity.
- by apply Hagain.
Defined.

(** ** Loading a goal *)

Section LoadGoal.

Lemma load_goal_returns_iff (goal_dir : State.GoalDir) :
  returns (State.load_goal goal_dir)
  ↔ returns (Num.float_of_str
               (State.get (State.parse_state_md (State.dir_file goal_dir "state.md"))
                  "total_cost_usd" "0")).
Proof.
  unfold State.load_goal, returns.
  destruct (State.count_tasks _) as [[[total completed] blocked] review].
  destruct (Num.float_of_str _) as [cost|e]; cbn.
  - split; eauto.
  - split; intros [? [=]].
Qed.

(** Missing files give the documented defaults. *)
Lemma load_goal_missing_files :
  State.load_goal Sample.empty_goal
  = Ok {| State.name := "empty"; State.status := "created";
          State.priority := "normal"; State.last_activity := "";
          State.completed_tasks := 0; State.total_tasks := 0;
          State.blocked_tasks := 0; State.review_tasks := 0;
          State.total_cost_usd := FFin 0 1;
          State.has_replan := false; State.has_feedback := false;
          State.prd_summary := ""; State.repo_name := "";
          State.path := "agents/goals/empty" |}.
Proof. vm_compute. reflexivity. Qed.

End LoadGoal.

(** C3.  [load_goal] raises on a status document whose cost is no
  number: the conversion of the text [abc] raises [ValueError], and
  nothing catches it. *)
Theorem load_goal_raises_on_malformed_cost :
State.load_goal Sample.malformed_cost_goal = Raise ValueError.
Proof. vm_compute. reflexivity. Qed.

(** ** The expiry of the token *)

Section TokenExpiry.

Lemma check_token_expiry_absent (d : list (string * json)) (now : Z) :
  Spec.nested_expiry (JDict d) = None →
  Sandbox._check_token_expiry (Decoded (JDict d)) now = Ok (true, "").
Proof.
  unfold Spec.nested_expiry, Sandbox._check_token_expiry. cbn.
  destruct (Sandbox.dict_get d "claudeAiOauth") as [[]|]; cbn; try done.
  by intros ->.
Qed.

Lemma check_token_expiry_past (d : list (string * json)) (expires_at now : Z) :
  Spec.nested_expiry (JDict d) = Some (JInt expires_at) →
  (expires_at ≤ now)%Z →
  Sandbox._check_token_expiry (Decoded (JDict d)) now
  = Ok (false, Sandbox.expired_message).
Proof.
  unfold Spec.nested_expiry, Sandbox._check_token_expiry. cbn.
  destruct (Sandbox.dict_get d "claudeAiOauth") as [[]|]; cbn; try done.
  intros -> Hle. cbn. by rewrite (proj2 (Z.leb_le _ _) Hle).
Qed.

Lemma check_token_expiry_soon (d : list (string * json)) (expires_at now : Z) :
  Spec.nested_expiry (JDict d) = Some (JInt expires_at) →
  (now < expires_at ≤ now + Sandbox.margin_ms)%Z →
  Sandbox._check_token_expiry (Decoded (JDict d)) now
  = Ok (true, Sandbox.expiry_warning ((expires_at - now) `div` 60000)).
Proof.
  unfold Spec.nested_expiry, Sandbox._check_token_expiry. cbn.
  destruct (Sandbox.dict_get d "claudeAiOauth") as [[]|]; cbn; try done.
  intros -> [Hlt Hle]. cbn.
  rewrite (proj2 (Z.leb_gt _ _) Hlt).
  by rewrite (proj2 (Z.leb_le (expires_at - now) Sandbox.margin_ms)) by lia.
Qed.

(** Decoded data that is no object makes the lookup of the nested field
    raise. *)
Lemma check_token_expiry_not_object (data : json) (now : Z) :
  (∀ d, data ≠ JDict d) →
  Sandbox._check_token_expiry (Decoded data) now = Raise AttributeError.
Proof. intros H. destruct data; try done. by destruct (H d). Qed.

End TokenExpiry.

(** C7.  On a credentials file that decodes to an empty array, a value
  without nested expiry field, [_check_token_expiry] raises
  [AttributeError] instead of answering that the token is valid. *)
Theorem check_token_expiry_raises_on_array (now : Z) :
Spec.nested_expiry (JList []) = None
∧ Sandbox._check_token_expiry (Decoded (JList [])) now = Raise AttributeError.
Proof. done. Qed.

(** ** The Docker check *)

Section DockerCheck.

Lemma validate_credentials_docker_unavailable (h : Sandbox.Host) :
  (Sandbox.docker_info h = RunNotFound →
     Sandbox.validate_credentials h = Ok (false, Sandbox.docker_missing_message))
  ∧ (Sandbox.docker_info h = RunTimeout →
       Sandbox.validate_credentials h
       = Ok (false, Sandbox.docker_unresponsive_message))
  ∧ Sandbox.docker_missing_message ≠ Sandbox.docker_unresponsive_message.
Proof.
  unfold Sandbox.validate_credentials.
  split_and!; [by intros ->..|discriminate].
Qed.

End DockerCheck.

(** C8.  When the Docker daemon is not running and [docker info] exits
  with a non-zero status, [validate_credentials] does not look at the
  status and answers that the host is valid. *)
Theorem validate_credentials_ignores_docker_exit_status :
Sandbox.docker_info Sample.host = RunDone 1 ""
∧ Sandbox.validate_credentials Sample.host = Ok (true, "").
Proof. split; vm_compute; reflexivity. Qed.

(** ** The terminal cascade *)

(** C9.  Without macOS, without a Linux terminal emulator on the path and
  outside tmux, [open_terminal_session] returns the fallback result: no
  success, the method [fallback], and the command to change to the
  working directory and run the command, which is not empty. *)
Theorem open_terminal_session_fallback (h : Terminal.Host)
  (command title : string) (working_dir : option string) :
Terminal.is_darwin h = false →
Terminal.which h "gnome-terminal" = None →
Terminal.which h "x-terminal-emulator" = None →
Py.truthy (default "" (Terminal.environ h "TMUX")) = false →
∃ r, Terminal.open_terminal_session h command title working_dir = Ok r
     ∧ Terminal.success r = false
     ∧ Terminal.method r = "fallback"
     ∧ Terminal.fallback_command r
       = Some ("cd " +:+ default (Terminal.cwd h) working_dir +:+ " && " +:+ command)
     ∧ Terminal.fallback_command r ≠ Some "".
Proof.
intros Hmac Hgnome Hx Htmux. eexists.
unfold Terminal.open_terminal_session, Terminal._is_macos.
rewrite Hmac, Hgnome, Hx, Htmux. cbn. split_and!; done.
Qed.

Lemma open_terminal_session_fallback_witness :
∃ r, Terminal.open_terminal_session Sample.headless "ls -l" "Keywork Agent" None
     = Ok r
     ∧ Terminal.fallback_command r = Some "cd /srv/keywork && ls -l".
Proof.
destruct (open_terminal_session_fallback Sample.headless "ls -l" "Keywork Agent" None)
  as (r & Hr & _ & _ & Hcmd & _); [reflexivity..|].
exists r. split; [exact Hr|exact Hcmd].
Defined.

(** ** The order of the arguments of the sandbox command *)

Section CommandOrder.

Lemma in_order_search (segments : list (list string)) (cmd : list string) :
  Spec.in_order segments cmd → Spec.in_orderb segments cmd = true.
Proof.
  revert cmd. induction segments as [|segment rest IH]; intros cmd; [done|].
  intros (before & after & -> & Hrest). cbn [Spec.in_orderb].
  apply existsb_exists. exists (length before). split.
  - apply in_seq. rewrite length_app. lia.
  - rewrite drop_app_length. apply andb_true_intro. split.
    + apply bool_decide_eq_true. by apply prefix_app_r.
    + rewrite (app_assoc before), <- length_app, drop_app_length. by apply IH.
Qed.

Lemma pair_at_middle (before after : list string) (a b : string) :
  Spec.pair_at (before ++ [a; b] ++ after) (length before) a b.
Proof.
  unfold Spec.pair_at. split.
  - by rewrite lookup_app_r, Nat.sub_diag by lia.
  - rewrite lookup_app_r by lia. by replace (S _ - _) with 1 by lia.
Qed.

Lemma env_args_lookup (vars : list (string * string)) (key val : string) :
  Sandbox.dict_get vars key = Some val →
  ∃ before after,
    Sandbox.env_args vars = before ++ ["-e"; key +:+ "=" +:+ val] ++ after.
Proof.
  induction vars as [|[k v] vars IH]; [done|]. cbn [Sandbox.dict_get].
  case_bool_decide as E.
  - intros [= ->]. subst k. by exists [], (Sandbox.env_args vars).
  - intros (before & after & Hrest)%IH.
    exists (["-e"; k +:+ "=" +:+ v] ++ before), after.
    change (Sandbox.env_args ((k, v) :: vars))
      with (["-e"; k +:+ "=" +:+ v] ++ Sandbox.env_args vars).
    by rewrite Hrest, <- app_assoc.
Qed.

Context (h : Sandbox.Host) (script : string) (args : list string).
Context (repo_name goal_name : string) (interactive : bool).
Context (extra_ports : list Z) (env_overrides : list (string * string)).

(** The command line, cut where the environment comes in. *)
Lemma build_sandbox_command_segments :
  (Sandbox.build_sandbox_command h script args repo_name goal_name
     interactive extra_ports env_overrides).1
  = Spec.command_head h repo_name goal_name interactive
    ++ Sandbox.core_env_args repo_name goal_name
    ++ Sandbox.identity_args h
    ++ Sandbox.env_file_args h
    ++ Sandbox.port_args extra_ports
    ++ Sandbox.env_args env_overrides
    ++ Sandbox.repo_env_args h repo_name
    ++ Spec.command_tail h script args repo_name.
Proof.
  unfold Sandbox.build_sandbox_command, Spec.command_head, Spec.command_tail.
  cbn [fst]. destruct interactive, (Py.truthy goal_name);
    rewrite <- !app_assoc; reflexivity.
Qed.

(** The parser reads the entries of a section only when they are
    indented by six columns or more: the layout that its docstring
    shows, with four, gives an empty configuration. *)
Lemma parse_repo_config_documented_layout :
  Sandbox.parse_repo_config Sample.documented_layout = Sandbox.no_config
  ∧ Sandbox.parse_repo_config Sample.repo_config
    = {| Sandbox.env_vars := [("A", "2")]; Sandbox.volumes := [];
         Sandbox.ports := [] |}.
Proof. split; vm_compute; reflexivity. Qed.

(** How the options of the command are read. *)
Lemma environment_of_set (flag value : string) (rest : list string) :
  Spec.takes_value flag = true → Spec.sets_environment flag = true →
  Spec.environment_of None (flag :: value :: rest)
  = (flag, value) :: Spec.environment_of None rest.
Proof. intros Ht Hs. cbn [Spec.environment_of]. by rewrite Ht, Hs. Qed.

Lemma environment_of_other (flag value : string) (rest : list string) :
  Spec.takes_value flag = true → Spec.sets_environment flag = false →
  Spec.environment_of None (flag :: value :: rest) = Spec.environment_of None rest.
Proof. intros Ht Hs. cbn [Spec.environment_of]. by rewrite Ht, Hs. Qed.

Lemma environment_of_switch (flag : string) (rest : list string) :
  Spec.takes_value flag = false →
  Spec.environment_of None (flag :: rest) = Spec.environment_of None rest.
Proof. intros Ht. cbn [Spec.environment_of]. by rewrite Ht. Qed.

Lemma environment_of_env_args (vars : list (string * string)) (rest : list string) :
  Spec.environment_of None (Sandbox.env_args vars ++ rest)
  = Spec.pairs (Sandbox.env_args vars) ++ Spec.environment_of None rest.
Proof.
  induction vars as [|[k v] vars IH]; [done|].
  change (Sandbox.env_args ((k, v) :: vars))
    with ("-e" :: (k +:+ "=" +:+ v) :: Sandbox.env_args vars).
  cbn [app Spec.pairs]. by rewrite environment_of_set, IH.
Qed.

Lemma environment_of_port_args (ports : list Z) (rest : list string) :
  Spec.environment_of None (Sandbox.port_args ports ++ rest)
  = Spec.environment_of None rest.
Proof.
  induction ports as [|port ports IH]; [done|].
  change (Sandbox.port_args (port :: ports))
    with ("-p" :: (Py.str_of_int port +:+ ":" +:+ Py.str_of_int port)
          :: Sandbox.port_args ports).
  cbn [app]. by rewrite environment_of_other, IH.
Qed.

Lemma environment_of_volume_args (volumes rest : list string) :
  Spec.environment_of None (Sandbox.volume_args volumes ++ rest)
  = Spec.environment_of None rest.
Proof.
  induction volumes as [|volume volumes IH]; [done|].
  change (Sandbox.volume_args (volume :: volumes))
    with ("-v" :: volume :: Sandbox.volume_args volumes).
  cbn [app]. by rewrite environment_of_other, IH.
Qed.

Lemma environment_of_core (rest : list string) :
  Spec.environment_of None (Sandbox.core_env_args repo_name goal_name ++ rest)
  = Spec.pairs (Sandbox.core_env_args repo_name goal_name)
    ++ Spec.environment_of None rest.
Proof.
  unfold Sandbox.core_env_args.
  destruct (Py.truthy repo_name), (Py.truthy goal_name); cbn [app Spec.pairs];
    by rewrite ?environment_of_set.
Qed.

Lemma environment_of_identity (rest : list string) :
  Spec.environment_of None (Sandbox.identity_args h ++ rest)
  = Spec.pairs (Sandbox.identity_args h) ++ Spec.environment_of None rest.
Proof.
  unfold Sandbox.identity_args. cbn [flat_map].
  destruct (Sandbox.env_truthy h "GIT_AUTHOR_NAME"),
    (Sandbox.env_truthy h "GIT_AUTHOR_EMAIL"); cbn [app Spec.pairs];
    by rewrite ?environment_of_set.
Qed.

Lemma environment_of_env_file (rest : list string) :
  Spec.environment_of None (Sandbox.env_file_args h ++ rest)
  = Spec.pairs (Sandbox.env_file_args h) ++ Spec.environment_of None rest.
Proof.
  unfold Sandbox.env_file_args.
  destruct (Sandbox.env_file_exists h); cbn [app Spec.pairs];
    by rewrite ?environment_of_set.
Qed.

Lemma environment_of_ssh (rest : list string) :
  Spec.environment_of None (Sandbox.ssh_args h ++ rest)
  = match Sandbox.env_truthy h "SSH_AUTH_SOCK" with
    | Some _ => [("-e", "SSH_AUTH_SOCK=/ssh-agent")]
    | None => []
    end
    ++ Spec.environment_of None rest.
Proof.
  unfold Sandbox.ssh_args.
  destruct (Sandbox.env_truthy h "SSH_AUTH_SOCK") as [ssh_sock|]; [|done].
  case_bool_decide; cbn [app];
    by rewrite environment_of_other, environment_of_set.
Qed.

Lemma environment_of_repo_env (rest : list string) :
  Spec.environment_of None (Sandbox.repo_env_args h repo_name ++ rest)
  = Spec.pairs (Sandbox.repo_env_args h repo_name) ++ Spec.environment_of None rest.
Proof.
  unfold Sandbox.repo_env_args. destruct (Py.truthy repo_name); [|done].
  apply environment_of_env_args.
Qed.

Lemma environment_of_repo_mounts :
  Spec.environment_of None (Sandbox.repo_mount_args h repo_name) = [].
Proof.
  unfold Sandbox.repo_mount_args. destruct (Py.truthy repo_name); [|done].
  rewrite environment_of_volume_args.
  rewrite <- (app_nil_r (Sandbox.port_args _)). by rewrite environment_of_port_args.
Qed.

End CommandOrder.

(** The arguments of the caller's environment overrides come directly
  before those of the environment of the repo configuration.  With the
  repo configuration as [_read_repo_config] reads it setting A to 2, the
  pair [-e], [A=1] of the override of A with 1 stands at an earlier
  position than the pair [-e], [A=2]. *)
Theorem overrides_precede_repo_config (h : Sandbox.Host) (script : string)
  (args : list string) (interactive : bool) (extra_ports : list Z) :
(∀ repo_name goal_name env_overrides,
   ∃ before after,
     (Sandbox.build_sandbox_command h script args repo_name goal_name
        interactive extra_ports env_overrides).1
     = before ++ Sandbox.env_args env_overrides
       ++ Sandbox.repo_env_args h repo_name ++ after)
∧ (Sandbox.dict_get (Sandbox.env_vars (Sandbox._read_repo_config h "x")) "A"
     = Some "2" →
   ∃ i j, i < j
     ∧ Spec.pair_at
         (Sandbox.build_sandbox_command h script args "x" "y"
            interactive extra_ports [("A", "1")]).1 i "-e" "A=1"
     ∧ Spec.pair_at
         (Sandbox.build_sandbox_command h script args "x" "y"
            interactive extra_ports [("A", "1")]).1 j "-e" "A=2").
Proof.
split.
- intros repo_name goal_name env_overrides.
  rewrite build_sandbox_command_segments.
  exists (Spec.command_head h repo_name goal_name interactive
          ++ Sandbox.core_env_args repo_name goal_name ++ Sandbox.identity_args h
          ++ Sandbox.env_file_args h ++ Sandbox.port_args extra_ports),
    (Spec.command_tail h script args repo_name).
  by rewrite <- !app_assoc.
- intros (pre & post & Hrepo)%env_args_lookup.
  rewrite build_sandbox_command_segments.
  unfold Sandbox.repo_env_args. change (Py.truthy "x") with true. cbn match.
  rewrite Hrepo.
  set (before := Spec.command_head h "x" "y" interactive
                 ++ Sandbox.core_env_args "x" "y" ++ Sandbox.identity_args h
                 ++ Sandbox.env_file_args h ++ Sandbox.port_args extra_ports).
  exists (length before), (length (before ++ ["-e"; "A=1"] ++ pre)).
  split_and!.
  + rewrite length_app. cbn. lia.
  + replace (_ ++ _) with (before ++ ["-e"; "A=1"] ++
      ((pre ++ ["-e"; "A=2"] ++ post) ++ Spec.command_tail h script args "x"));
      [apply pair_at_middle|].
    unfold before. by rewrite <- !app_assoc.
  + replace (_ ++ _) with ((before ++ ["-e"; "A=1"] ++ pre) ++ ["-e"; "A=2"] ++
      (post ++ Spec.command_tail h script args "x"));
      [apply pair_at_middle|].
    unfold before. by rewrite <- !app_assoc.
Qed.

Lemma overrides_precede_repo_config_witness :
Sandbox.env_vars (Sandbox._read_repo_config Sample.host "x") = [("A", "2")]
∧ ∃ i j, i < j
    ∧ Spec.pair_at
        (Sandbox.build_sandbox_command Sample.host "agents/run.sh" [] "x" "y"
           false [] [("A", "1")]).1 i "-e" "A=1"
    ∧ Spec.pair_at
        (Sandbox.build_sandbox_command Sample.host "agents/run.sh" [] "x" "y"
           false [] [("A", "1")]).1 j "-e" "A=2".
Proof.
split; [vm_compute; reflexivity|].
apply (proj2 (overrides_precede_repo_config Sample.host "agents/run.sh" [] false [])).
vm_compute. reflexivity.
Defined.

(** C1.  A repo configuration written in the layout that the docstring of
  [_read_repo_config] documents, with the entries of a section indented
  by four columns, is not read: for the repo [x] whose configuration
  declares A as 2, a volume and a port in that layout, the parsed
  configuration is empty, and the argument list of
  [build_sandbox_command] with the override of A by 1 holds [-e], [A=1]
  but neither [A=2] nor the volume nor the port. *)
Theorem documented_layout_is_not_read :
Sandbox.repo_config_file Sample.documented_host "x" = Some Sample.documented_layout
∧ Sandbox._read_repo_config Sample.documented_host "x" = Sandbox.no_config
∧ (∃ i, Spec.pair_at
          (Sandbox.build_sandbox_command Sample.documented_host "agents/run.sh" []
             "x" "y" false [] [("A", "1")]).1 i "-e" "A=1")
∧ (∀ argument,
     argument ∈ (Sandbox.build_sandbox_command Sample.documented_host
                   "agents/run.sh" [] "x" "y" false [] [("A", "1")]).1 →
     argument ≠ "A=2" ∧ argument ≠ "/host/path:/container/path"
     ∧ argument ≠ "8080:8080").
Proof.
split_and!.
- reflexivity.
- vm_compute. reflexivity.
- exists 27. split; vm_compute; reflexivity.
- intros argument Hin%list_elem_of_In. vm_compute in Hin.
  repeat (destruct Hin as [<-|Hin]; [by split_and!|]). done.
Qed.

(** C2, as it is stated, fails: with a static env file on the host, the
  env-file argument does not come before the core environment
  variables. *)
Lemma env_file_is_not_first :
¬ Spec.in_order
    [Sandbox.env_file_args Sample.host;
     Sandbox.core_env_args "x" "y";
     Sandbox.identity_args Sample.host;
     Sandbox.env_args [("A", "1")];
     Sandbox.repo_env_args Sample.host "x"]
    (Sandbox.build_sandbox_command Sample.host "agents/run.sh" [] "x" "y"
       false [] [("A", "1")]).1.
Proof. intros H%in_order_search. vm_compute in H. discriminate. Qed.

(** C2, amended.  The arguments of the docker command that affect the
  environment are, in this order and no others: the variable of the SSH
  agent socket when the host forwards one, the core environment
  variables, the identity variables passed through from the host, the
  static env file, the caller's overrides, the variables of the repo
  configuration. *)
Theorem environment_arguments_in_order (h : Sandbox.Host) (script : string)
  (args : list string) (repo_name goal_name : string) (interactive : bool)
  (extra_ports : list Z) (env_overrides : list (string * string)) :
∃ options,
  (Sandbox.build_sandbox_command h script args repo_name goal_name
     interactive extra_ports env_overrides).1
  = ["docker"; "run"] ++ options ++ [Sandbox.IMAGE_NAME; "bash"; script] ++ args
  ∧ Spec.environment_of None options
    = match Sandbox.env_truthy h "SSH_AUTH_SOCK" with
      | Some _ => [("-e", "SSH_AUTH_SOCK=/ssh-agent")]
      | None => []
      end
      ++ Spec.pairs (Sandbox.core_env_args repo_name goal_name)
      ++ Spec.pairs (Sandbox.identity_args h)
      ++ Spec.pairs (Sandbox.env_file_args h)
      ++ Spec.pairs (Sandbox.env_args env_overrides)
      ++ Spec.pairs (Sandbox.repo_env_args h repo_name).
Proof.
rewrite build_sandbox_command_segments.
unfold Spec.command_head, Spec.command_tail.
set (mounts :=
  (if interactive then ["-it"] else [])
  ++ ["-v"; (if Py.truthy repo_name
             then Sandbox.cwd_path h ["workspace"; repo_name]
             else Sandbox.cwd_path h ["workspace"]) +:+ ":/workspace"]
  ++ (if Py.truthy goal_name
      then ["-v"; Sandbox.cwd_path h ["agents"; "goals"; goal_name] +:+ ":/state"]
      else [])
  ++ ["-v"; Sandbox.cwd_path h ["agents"] +:+ ":/agents:ro"]
  ++ ["-v"; Sandbox.home_path h [".claude"] +:+ ":/home/agent/.claude-host:ro"]
  ++ ["-v"; "keywork-cache:/home/agent/.cache/uv"]).
assert (Hmounts : ∀ rest, Spec.environment_of None (mounts ++ rest)
                          = Spec.environment_of None rest).
{ intros rest. unfold mounts. destruct interactive, (Py.truthy goal_name);
    cbn [app]; rewrite ?(environment_of_switch "-it") by done;
    by rewrite !environment_of_other. }
exists (["--rm"; "--name"; "keywork-agent-" +:+ Py.take 8 (Sandbox.uuid4_hex h)]
        ++ mounts ++ Sandbox.ssh_args h
        ++ Sandbox.core_env_args repo_name goal_name ++ Sandbox.identity_args h
        ++ Sandbox.env_file_args h ++ Sandbox.port_args extra_ports
        ++ Sandbox.env_args env_overrides ++ Sandbox.repo_env_args h repo_name
        ++ Sandbox.repo_mount_args h repo_name).
split.
- unfold mounts. rewrite <- !app_assoc. reflexivity.
- change (["--rm"; "--name"; ?name] ++ ?rest) with ("--rm" :: "--name" :: name :: rest).
  cbn [app]. rewrite (environment_of_switch "--rm") by done.
  rewrite environment_of_other by done.
  rewrite Hmounts, environment_of_ssh, environment_of_core, environment_of_identity,
    environment_of_env_file, environment_of_port_args, environment_of_env_args,
    environment_of_repo_env, environment_of_repo_mounts.
  by rewrite app_nil_r.
Qed.

(** * Further properties of the code *)

(** ** More tests of the repository *)

Section MoreTests.

Example test_nested_keys :
  State.parse_config_yaml
    (Some ("checks:" +:+ Sample.nl +:+ "  lint: ruff check ." +:+ Sample.nl
           +:+ "  test: pytest" +:+ Sample.nl))
  = <["checks.lint" := State.YStr "ruff check ."]>
      (<["checks.test" := State.YStr "pytest"]> ∅).
Proof. vm_compute. reflexivity. Qed.

Example test_list_values :
  State.parse_config_yaml
    (Some ("skills:" +:+ Sample.nl +:+ "  - testing" +:+ Sample.nl
           +:+ "  - docker" +:+ Sample.nl))
  = <["skills" := State.YList ["testing"; "docker"]]> ∅.
Proof. vm_compute. reflexivity. Qed.

Example test_comments_ignored :
  State.parse_config_yaml
    (Some ("# comment" +:+ Sample.nl +:+ "name: test" +:+ Sample.nl
           +:+ "# another comment" +:+ Sample.nl))
  = <["name" := State.YStr "test"]> ∅.
Proof. vm_compute. reflexivity. Qed.

Example shell_quote_samples :
  Terminal._shell_quote "" = "''"
  ∧ Terminal._shell_quote "agents/run.sh" = "agents/run.sh"
  ∧ Terminal._shell_quote "two words" = "'two words'"
  ∧ Terminal._shell_quote "it's"
    = "'it'" +:+ Terminal.dq +:+ "'" +:+ Terminal.dq +:+ "'s'".
Proof. vm_compute. done. Qed.

End MoreTests.

(** ** Texts *)

Section Texts.

Lemma str_app_nil_r (s : string) : s +:+ "" = s.
Proof. induction s as [|c s IH]; [done|]. by rewrite str_app_cons, IH. Qed.

Lemma str_app_assoc (a b c : string) : (a +:+ b) +:+ c = a +:+ b +:+ c.
Proof. induction a as [|d a IH]; [done|]. by rewrite !str_app_cons, IH. Qed.

Lemma str_length_app (a b : string) :
  String.length (a +:+ b) = String.length a + String.length b.
Proof. induction a as [|d a IH]; [done|]. rewrite str_app_cons. cbn. by rewrite IH. Qed.

Lemma str_app_eq_self (a b : string) : a +:+ b = a → b = "".
Proof.
  intros H. apply (f_equal String.length) in H. rewrite str_length_app in H.
  destruct b; [done|]. cbn in H. lia.
Qed.

Lemma length_take_le (n : nat) (s : string) : String.length (Py.take n s) ≤ n.
Proof.
  revert s. induction n as [|n IH]; intros [|c s]; cbn; try lia.
  specialize (IH s). lia.
Qed.

Lemma prefix_take (l s : string) (n : nat) :
  String.length l ≤ n → String.prefix l (Py.take n s) = String.prefix l s.
Proof.
  revert s n. induction l as [|a l IH]; intros s n Hn.
  - by rewrite !str_prefix_nil.
  - destruct n as [|n]; [cbn in Hn; lia|]. destruct s as [|b s]; [done|].
    cbn [Py.take]. rewrite !str_prefix_cons, IH; [done|]. cbn in Hn. lia.
Qed.

(** What is left of a text after stripping on the left does not start
    with a character of the class. *)
Lemma lstrip_of_head (p : ascii → bool) (s : string) :
  match Py.lstrip_of p s with
  | EmptyString => True
  | String c _ => p c = false
  end.
Proof.
  induction s as [|c s IH]; [done|]. cbn. by destruct (p c) eqn:E; [|rewrite E].
Qed.

Lemma lstrip_of_id (p : ascii → bool) (c : ascii) (s : string) :
  p c = false → Py.lstrip_of p (String c s) = String c s.
Proof. intros H. cbn. by rewrite H. Qed.

(** Stripping on the right keeps a first character outside the class. *)
Lemma rstrip_of_head (p : ascii → bool) (c : ascii) (s : string) :
  p c = false → ∃ r, Py.rstrip_of p (String c s) = String c r.
Proof.
  intros H. cbn. destruct (Py.rstrip_of p s); [|by eexists].
  rewrite H. by eexists.
Qed.

(** What is left after stripping on the right does not end with a
    character of the class. *)
Lemma rstrip_of_fixed (p : ascii → bool) (s : string) :
  Py.rstrip_of p (Py.rstrip_of p s) = Py.rstrip_of p s.
Proof.
  induction s as [|c s IH]; [done|]. cbn.
  destruct (Py.rstrip_of p s) as [|d r] eqn:E.
  - destruct (p c) eqn:Hc; [done|]. cbn. by rewrite Hc.
  - cbn [Py.rstrip_of] in *. by rewrite IH.
Qed.

Lemma strip_head (s : string) :
  match Py.strip s with
  | EmptyString => True
  | String c _ => Py.is_space c = false
  end.
Proof.
  unfold Py.strip. pose proof (lstrip_of_head Py.is_space s) as H.
  destruct (Py.lstrip_of Py.is_space s) as [|c r]; [done|].
  destruct (rstrip_of_head Py.is_space c r H) as [r' ->]. done.
Qed.

(** Stripping a stripped text changes nothing. *)
Lemma strip_strip (s : string) : Py.strip (Py.strip s) = Py.strip s.
Proof.
  pose proof (strip_head s) as H. unfold Py.strip in *.
  destruct (Py.rstrip_of Py.is_space (Py.lstrip_of Py.is_space s)) as [|c r] eqn:E;
    [done|].
  rewrite lstrip_of_id by done. by rewrite <- E, rstrip_of_fixed.
Qed.

Lemma rstrip_of_contains (p : ascii → bool) (a : ascii) (s : string) :
  Py.contains a (Py.rstrip_of p s) = true → Py.contains a s = true.
Proof.
  induction s as [|c s IH]; [done|]. cbn.
  destruct (Py.rstrip_of p s) as [|d r].
  - destruct (p c); [done|]. cbn. rewrite orb_false_r. intros ->. done.
  - intros [->|H]%orb_prop; [done|]. rewrite IH; [apply orb_true_r|done].
Qed.

Lemma lstrip_of_contains (p : ascii → bool) (a : ascii) (s : string) :
  Py.contains a (Py.lstrip_of p s) = true → Py.contains a s = true.
Proof.
  induction s as [|c s IH]; [done|]. cbn [Py.lstrip_of].
  destruct (p c); [|done]. intros H%IH. cbn. rewrite H. apply orb_true_r.
Qed.

Lemma strip_contains (a : ascii) (s : string) :
  Py.contains a (Py.strip s) = true → Py.contains a s = true.
Proof. intros H%rstrip_of_contains. by apply lstrip_of_contains in H. Qed.

Lemma str_prefix_app_self (a b : string) : String.prefix a (a +:+ b) = true.
Proof.
  induction a as [|c a IH]; [apply str_prefix_nil|].
  rewrite str_app_cons, str_prefix_cons, IH. by rewrite bool_decide_eq_true_2.
Qed.

End Texts.

(** ** The summary, the status and the activity log *)

Section Summary.

Lemma first_summary_line_spec (lines : list string) :
  let s := State.first_summary_line lines in
  String.length s ≤ 120
  ∧ Py.startswith s "#" = false
  ∧ Py.startswith s "<!--" = false
  ∧ Py.lstrip s = s
  ∧ (Py.truthy s = true →
       ∃ line, line ∈ lines ∧ s = Py.take 120 (Py.strip line))
  ∧ (Py.truthy s = false →
       ∀ line, line ∈ lines →
         Py.strip line = "" ∨ Py.startswith (Py.strip line) "#" = true
         ∨ Py.startswith (Py.strip line) "<!--" = true).
Proof.
  induction lines as [|line lines IH]; cbn zeta in *.
  { split_and!; try done; [cbn; lia|].
    intros _ line Hin. by apply elem_of_nil in Hin. }
  cbn [State.first_summary_line].
  destruct (Py.truthy (Py.strip line)) eqn:Ht; cbn [andb];
    [destruct (Py.startswith (Py.strip line) "#") eqn:Hh; cbn [andb negb];
     [|destruct (Py.startswith (Py.strip line) "<!--") eqn:Hc; cbn [andb negb]]|].
  4: { destruct IH as (H1 & H2 & H3 & H4 & H5 & H6). split_and!; try done.
       - intros (l & Hl & ->)%H5. exists l. split; [by apply list_elem_of_further|done].
       - intros Hf l [->|Hl]%elem_of_cons; [|by apply H6].
         left. by destruct (Py.strip line). }
  1,2: destruct IH as (H1 & H2 & H3 & H4 & H5 & H6); split_and!; try done;
    [intros (l & Hl & ->)%H5; exists l; split; [by apply list_elem_of_further|done]
    |intros Hf l [->|Hl]%elem_of_cons; [tauto|by apply H6]].
  pose proof (strip_head line) as Hhead.
  destruct (Py.strip line) as [|c r] eqn:E; [done|].
  split_and!.
  - apply length_take_le.
  - unfold Py.startswith in *. rewrite prefix_take; [done|cbn; lia].
  - unfold Py.startswith in *. rewrite prefix_take; [done|cbn; lia].
  - cbn [Py.take]. unfold Py.lstrip. by apply lstrip_of_id.
  - intros _. exists line. split; [apply list_elem_of_here|by rewrite E].
  - done.
Qed.

End Summary.

(** X1.  The summary of a description document is at most 120 characters
    long, starts neither with white space nor as a heading or a comment,
    and is cut from a line of the document; it is empty only when the
    document has no line to offer. *)
Theorem get_prd_summary_bounded (file : option string) :
  let s := State.get_prd_summary file in
  String.length s ≤ 120
  ∧ Py.startswith s "#" = false
  ∧ Py.startswith s "<!--" = false
  ∧ Py.lstrip s = s
  ∧ (∀ text, file = Some text → s ≠ "" →
       ∃ line, line ∈ Py.splitlines text ∧ s = Py.take 120 (Py.strip line))
  ∧ (∀ text, file = Some text → s = "" →
       ∀ line, line ∈ Py.splitlines text →
         Py.strip line = "" ∨ Py.startswith (Py.strip line) "#" = true
         ∨ Py.startswith (Py.strip line) "<!--" = true).
Proof.
  destruct file as [text|]; cbn zeta; cbn [State.get_prd_summary].
  - destruct (first_summary_line_spec (Py.splitlines text))
      as (H1 & H2 & H3 & H4 & H5 & H6).
    split_and!; try done.
    + intros ? [= <-] Hne. apply H5. by destruct (State.first_summary_line _).
    + intros ? [= <-] He. apply H6. by rewrite He.
  - split_and!; try done. cbn. lia.
Qed.

Lemma get_prd_summary_bounded_witness :
  ∃ line, line ∈ Py.splitlines ("# Feature" +:+ Sample.nl +:+ Sample.nl
                                +:+ "Do the thing." +:+ Sample.nl)
          ∧ "Do the thing." = Py.take 120 (Py.strip line).
Proof.
  destruct (get_prd_summary_bounded
              (Some ("# Feature" +:+ Sample.nl +:+ Sample.nl
                     +:+ "Do the thing." +:+ Sample.nl)))
    as (_ & _ & _ & _ & H & _).
  apply (H _ eq_refl). vm_compute. discriminate.
Defined.

(** X2.  The displayed status starts with the status, and it is the
    status alone exactly when the goal has neither a replan marker nor
    feedback. *)
Theorem status_display_plain_iff (g : State.GoalState) :
  Py.startswith (State.status_display g) (State.status g) = true
  ∧ (State.status_display g = State.status g
     ↔ State.has_replan g = false ∧ State.has_feedback g = false).
Proof.
  unfold State.status_display, Py.startswith. split.
  - apply str_prefix_app_self.
  - split.
    + intros H%str_app_eq_self.
      by destruct (State.has_replan g), (State.has_feedback g).
    + intros [-> ->]. cbn. apply str_app_nil_r.
Qed.

Lemma status_display_plain_iff_witness :
  State.status_display
    {| State.name := "g"; State.status := "building"; State.priority := "high";
       State.last_activity := ""; State.completed_tasks := 1;
       State.total_tasks := 3; State.blocked_tasks := 1;
       State.review_tasks := 0; State.total_cost_usd := FFin 150 100;
       State.has_replan := false; State.has_feedback := false;
       State.prd_summary := ""; State.repo_name := "";
       State.path := "agents/goals/g" |} = "building".
Proof.
  match goal with |- State.status_display ?g = _ =>
    apply (proj2 (proj2 (status_display_plain_iff g))) end.
  split; reflexivity.
Defined.

(** X3.  [load_activity_log] returns the last [max_lines] lines of the
    log, all of them when the log is shorter; for [max_lines = 0] the
    slice starts at the front and the whole log is returned, not an empty
    list. *)
Theorem load_activity_log_tail (text : string) (max_lines : Z) :
  let lines := Py.splitlines text in
  (0 < max_lines →
     State.load_activity_log (Some text) max_lines
     = drop (length lines - Z.to_nat max_lines) lines
     ∧ length (State.load_activity_log (Some text) max_lines)
       = Nat.min (Z.to_nat max_lines) (length lines))%Z
  ∧ State.load_activity_log (Some text) 0 = lines.
Proof.
  cbn zeta. unfold State.load_activity_log, Py.slice_from. split.
  - intros Hpos. destruct (Z.ltb_spec (- max_lines) 0) as [_|]; [|lia].
    assert (Z.to_nat (Z.max (- max_lines + Z.of_nat (length (Py.splitlines text))) 0)
            = length (Py.splitlines text) - Z.to_nat max_lines) as -> by lia.
    split; [done|]. rewrite length_drop. lia.
  - change (- 0)%Z with 0%Z. change (0 <? 0)%Z with false. cbn match.
    by replace (Z.to_nat _) with 0 by lia.
Qed.

Lemma load_activity_log_tail_witness :
  State.load_activity_log (Some ("one" +:+ Sample.nl +:+ "two" +:+ Sample.nl
                                 +:+ "three" +:+ Sample.nl)) 2
  = ["two"; "three"].
Proof.
  destruct (load_activity_log_tail
              ("one" +:+ Sample.nl +:+ "two" +:+ Sample.nl +:+ "three" +:+ Sample.nl) 2)
    as [H _].
  destruct H as [-> _]; [lia|]. vm_compute. reflexivity.
Defined.

(** ** The status document *)

Section StateDocument.

Lemma partition_fst_no_sep (c : ascii) (s : string) :
  Py.contains c (Py.partition c s).1 = false.
Proof.
  induction s as [|d s IH]; [done|]. cbn [Py.partition].
  destruct (Py.chr_eqb c d) eqn:E; [done|].
  destruct (Py.partition c s) as [k v]. cbn [fst Py.contains] in *.
  by rewrite E, IH.
Qed.

Lemma partition_fst_head (c a : ascii) (s k : string) :
  (Py.partition c s).1 = String a k → ∃ r, s = String a r.
Proof.
  destruct s as [|d s]; [done|]. cbn [Py.partition].
  destruct (Py.chr_eqb c d); [done|].
  destruct (Py.partition c s) as [k' v]. cbn. intros [= -> _]. by eexists.
Qed.

Lemma parse_state_line_good (result : gmap string string) (line : string) :
  map_Forall Facts.good_entry result →
  map_Forall Facts.good_entry (State.parse_state_line result line).
Proof.
  intros Hres. unfold State.parse_state_line.
  destruct (Py.contains ":" (Py.strip line) && negb (Py.startswith (Py.strip line) "#"))
    eqn:Hcond; [|done].
  apply andb_prop in Hcond as [_ Hhash%negb_true_iff].
  destruct (Py.partition ":" (Py.strip line)) as [key value] eqn:Hp.
  apply map_Forall_insert_2; [|done].
  assert (Hkey : key = (Py.partition ":" (Py.strip line)).1) by by rewrite Hp.
  split_and!.
  - apply strip_strip.
  - apply strip_strip.
  - destruct (Py.contains ":" (Py.strip key)) eqn:E; [|done].
    apply strip_contains in E. by rewrite Hkey, partition_fst_no_sep in E.
  - pose proof (strip_head line) as Hline.
    destruct key as [|a k].
    { done. }
    symmetry in Hkey. apply partition_fst_head in Hkey as [r Hr].
    rewrite Hr in Hline, Hhash.
    unfold Py.strip at 1. rewrite (lstrip_of_id _ _ _ Hline).
    destruct (rstrip_of_head Py.is_space a k Hline) as [r' ->].
    unfold Py.startswith in *. rewrite str_prefix_cons in *.
    rewrite !str_prefix_nil, !andb_true_r in *. done.
Qed.

Lemma parse_state_lines_good (lines : list string) (result : gmap string string) :
  map_Forall Facts.good_entry result →
  map_Forall Facts.good_entry (foldl State.parse_state_line result lines).
Proof.
  revert result. induction lines as [|line lines IH]; intros result H; [done|].
  cbn [foldl]. by apply IH, parse_state_line_good.
Qed.

End StateDocument.

(** X4.  Every key of a parsed status document is stripped, holds no
    colon and does not start with the comment sign, and every value is
    stripped; a missing document gives no key at all. *)
Theorem parse_state_md_entries (file : option string) (k v : string) :
  State.parse_state_md file !! k = Some v →
  Py.strip k = k ∧ Py.strip v = v
  ∧ Py.contains ":" k = false ∧ Py.startswith k "#" = false
  ∧ file ≠ None.
Proof.
  destruct file as [text|]; [|done]. cbn [State.parse_state_md]. intros H.
  pose proof (parse_state_lines_good (Py.splitlines text) ∅ (map_Forall_empty _)) as Hall.
  destruct (Hall k v H) as (H1 & H2 & H3 & H4). done.
Qed.

Lemma parse_state_md_entries_witness :
  Py.strip "building" = "building" ∧ Py.contains ":" "status" = false.
Proof.
  destruct (parse_state_md_entries
              (Some ("# Goal" +:+ Sample.nl +:+ "  status :  building  " +:+ Sample.nl))
              "status" "building") as (_ & H2 & H3 & _).
  - vm_compute. reflexivity.
  - split; [exact H2|exact H3].
Defined.

(** ** Task lines *)

Section TaskLines.

Lemma splitlines_nil (s : string) : Py.splitlines_from false s = [] → s = "".
Proof.
  destruct s as [|c s]; [done|]. cbn.
  destruct (Py.is_linebreak c); [done|]. by destruct (Py.splitlines_from false s).
Qed.

Lemma lf_only_cons (c : ascii) (s : string) :
  Facts.lf_only (String c s) →
  (Py.is_linebreak c = true → c = Py.LF) ∧ Facts.lf_only s.
Proof.
  intros H. split.
  - apply H. cbn. by rewrite chr_eqb_refl.
  - intros d Hd. apply H. cbn. rewrite Hd. apply orb_true_r.
Qed.

(** With the line feed as only boundary, [str.splitlines] gives the
    lines between line feeds, without the empty line after a final line
    feed. *)
Lemma lines_splitlines (s : string) :
  Facts.lf_only s →
  Spec.lines s = Py.splitlines s ++ (if Facts.open_ended s then [""] else []).
Proof.
  unfold Py.splitlines. induction s as [|c s IH]; intros Hlf; [done|].
  apply lf_only_cons in Hlf as [Hc Hlf]. specialize (IH Hlf).
  cbn [Spec.lines Py.splitlines_from andb].
  destruct (Py.chr_eqb c Py.LF) eqn:E.
  - apply chr_eqb_eq in E as ->. change (Py.is_linebreak Py.LF) with true.
    change (Py.chr_eqb Py.LF Py.CR) with false. cbn match. rewrite IH.
    cbn [app]. do 2 f_equal. by destruct s.
  - destruct (Py.is_linebreak c) eqn:Hb.
    { rewrite Hc in E by done. by rewrite chr_eqb_refl in E. }
    rewrite IH. destruct (Py.splitlines_from false s) as [|l ls] eqn:Hs.
    + apply splitlines_nil in Hs as ->. cbn. unfold Py.chr_eqb in *. by rewrite E.
    + cbn [app]. do 2 f_equal. destruct s as [|d s]; [done|]. done.
Qed.

End TaskLines.

(** X5.  Every line of [load_task_list] starts with the task marker, and
    on a document whose only line boundary is the line feed the number
    of listed task lines is the total of [count_tasks]. *)
Theorem load_task_list_count (file : option string) :
  (∀ line, line ∈ State.load_task_list file → Py.startswith line "- [" = true)
  ∧ (∀ text, file = Some text → Facts.lf_only text →
       length (State.load_task_list file) = (State.count_tasks file).1.1.1).
Proof.
  split.
  - destruct file as [text|]; cbn [State.load_task_list].
    + intros line Hin%list_elem_of_In. by apply filter_In in Hin as [_ ?].
    + by intros line Hin%elem_of_nil.
  - intros text -> Hlf. rewrite count_tasks_lines. cbn [fst State.load_task_list].
    unfold Spec.count. rewrite (lines_splitlines _ Hlf), List.filter_app.
    rewrite length_app. by destruct (Facts.open_ended text).
Qed.

Lemma load_task_list_count_witness :
  length (State.load_task_list (Some Sample.checklist)) = 6.
Proof.
  rewrite (proj2 (load_task_list_count (Some Sample.checklist)) Sample.checklist eq_refl).
  - vm_compute. reflexivity.
  - intros c Hc Hb.
    assert (H : Py.contains c Sample.checklist && Py.is_linebreak c
                && negb (Py.chr_eqb c Py.LF) = false).
    { clear. destruct c as [[] [] [] [] [] [] [] []]; vm_compute; reflexivity. }
    rewrite Hc, Hb in H. cbn in H. apply negb_false_iff in H.
    by apply chr_eqb_eq in H.
Defined.

(** ** The goals directory *)

Section GoalsDirectory.

Lemma entry_le_trans : Transitive State.entry_le.
Proof. intros a b c. unfold State.entry_le. apply transitivity. Qed.

Lemma entry_le_total : Total State.entry_le.
Proof. intros a b. unfold State.entry_le. apply String.le_total. Qed.

Lemma goal_dir_of_name (e : State.dir_entry) (d : State.GoalDir) :
  Facts.goal_dir_of e = Some d →
  e = State.EntryDir d ∧ State.reserved (State.dir_name d) = false.
Proof.
  destruct e as [n|d']; [done|]. cbn.
  destruct (State.reserved (State.dir_name d')) eqn:E; [done|].
  by intros [= ->].
Qed.

Lemma elem_of_goal_dirs (entries : list State.dir_entry) (d : State.GoalDir) :
  d ∈ Facts.goal_dirs entries
  ↔ State.EntryDir d ∈ entries ∧ State.reserved (State.dir_name d) = false.
Proof.
  unfold Facts.goal_dirs. rewrite list_elem_of_omap. split.
  - intros (e & Hin & [-> Hr]%goal_dir_of_name). done.
  - intros [Hin Hr]. exists (State.EntryDir d). split; [done|]. cbn. by rewrite Hr.
Qed.

Lemma goal_dirs_sorted (entries : list State.dir_entry) :
  StronglySorted State.entry_le entries →
  StronglySorted String.le (State.dir_name <$> Facts.goal_dirs entries).
Proof.
  induction 1 as [|e l Hl IH Hall]; [constructor|].
  unfold Facts.goal_dirs. cbn [omap list_omap].
  destruct (Facts.goal_dir_of e) as [d|] eqn:E; [|exact IH].
  apply goal_dir_of_name in E as [-> _]. cbn [fmap list_fmap]. constructor; [exact IH|].
  apply Forall_fmap, Forall_forall. intros d' [Hin _]%elem_of_goal_dirs.
  rewrite Forall_forall in Hall. exact (Hall _ Hin).
Qed.

Lemma sorted_entries_sorted (entries : list State.dir_entry) :
  StronglySorted State.entry_le (State.sorted_entries entries).
Proof.
  apply @StronglySorted_merge_sort; [apply entry_le_trans|apply entry_le_total].
Qed.

Lemma sorted_goal_dirs (entries : list State.dir_entry) :
  StronglySorted String.le
    (State.dir_name <$> Facts.goal_dirs (State.sorted_entries entries))
  ∧ Facts.goal_dirs (State.sorted_entries entries) ≡ₚ Facts.goal_dirs entries.
Proof.
  split.
  - apply goal_dirs_sorted, sorted_entries_sorted.
  - unfold Facts.goal_dirs. apply omap_Permutation, merge_sort_Permutation.
Qed.

Lemma load_goals_spec (entries : list State.dir_entry) (goals : list State.GoalState) :
  State.load_goals entries = Ok goals
  ↔ Forall2 (fun d g => State.load_goal d = Ok g) (Facts.goal_dirs entries) goals.
Proof.
  revert goals. induction entries as [|[n|d] rest IH]; intros goals.
  - cbn. split; [intros [= <-]; constructor|intros ->%Forall2_nil_inv_l; done].
  - exact (IH goals).
  - unfold Facts.goal_dirs. cbn [State.load_goals omap list_omap Facts.goal_dir_of].
    destruct (State.reserved (State.dir_name d)); [exact (IH goals)|].
    fold (Facts.goal_dirs rest).
    destruct (State.load_goal d) as [g|e] eqn:Hg; cbn.
    + destruct (State.load_goals rest) as [gs|e] eqn:Hgs; cbn.
      * split.
        -- intros [= <-]. constructor; [done|]. by apply IH.
        -- intros (g' & gs' & Hg' & Hgs' & ->)%Forall2_cons_inv_l.
           rewrite Hg in Hg'. injection Hg' as <-. apply IH in Hgs'.
           by injection Hgs' as <-.
      * split; [done|].
        intros (g' & gs' & Hg' & Hgs' & ->)%Forall2_cons_inv_l.
        by apply IH in Hgs'.
    + split; [done|].
      intros (g' & gs' & Hg' & Hgs' & ->)%Forall2_cons_inv_l. by rewrite Hg in Hg'.
Qed.

Lemma load_goal_fields (d : State.GoalDir) (g : State.GoalState) :
  State.load_goal d = Ok g →
  State.name g = State.dir_name d ∧ State.repo_name g = Facts.repo_of d.
Proof.
  unfold State.load_goal.
  destruct (State.count_tasks _) as [[[total completed] blocked] review].
  destruct (Num.float_of_str _) as [cost|e]; cbn; [|done].
  by intros [= <-].
Qed.

Lemma loaded_names (dirs : list State.GoalDir) (goals : list State.GoalState) :
  Forall2 (fun d g => State.load_goal d = Ok g) dirs goals →
  State.name <$> goals = State.dir_name <$> dirs
  ∧ State.repo_name <$> goals = Facts.repo_of <$> dirs.
Proof.
  induction 1 as [|d g dirs goals Hg _ [IH1 IH2]]; [done|].
  apply load_goal_fields in Hg as [Hn Hr]. cbn. by rewrite Hn, Hr, IH1, IH2.
Qed.

Lemma filter_fmap_length {A : Type} (f : A → string) (n : string) (l : list A) :
  length (filter (fun x => f x = n) l) = length (filter (fun y => y = n) (f <$> l)).
Proof.
  induction l as [|x l IH]; [done|]. cbn [fmap list_fmap]. rewrite !filter_cons.
  destruct (decide (f x = n)); cbn; by rewrite IH.
Qed.

Lemma filter_none {A : Type} (P : A → Prop) `{!∀ x, Decision (P x)} (l : list A) :
  Forall (fun x => ¬ P x) l → filter P l = [].
Proof.
  induction 1 as [|x l Hx _ IH]; [done|]. rewrite filter_cons.
  by destruct (decide (P x)).
Qed.

End GoalsDirectory.

(** X6.  When [load_all_goals] returns, the names of the goals are in
    ascending order, and they are the names of the directories of the
    goals directory that are not reserved (a name starting with an
    underscore or a dot), one goal for each such directory. *)
Theorem load_all_goals_sorted (entries : list State.dir_entry)
    (goals : list State.GoalState) :
  State.load_all_goals (Some entries) = Ok goals →
  StronglySorted String.le (State.name <$> goals)
  ∧ State.name <$> goals ≡ₚ State.dir_name <$> Facts.goal_dirs entries
  ∧ Forall (fun g => State.reserved (State.name g) = false) goals.
Proof.
  intros [Hn _]%load_goals_spec%loaded_names.
  destruct (sorted_goal_dirs entries) as [Hs Hp].
  assert (Hperm : State.name <$> goals ≡ₚ State.dir_name <$> Facts.goal_dirs entries)
    by (rewrite Hn; by apply fmap_Permutation).
  split_and!; [by rewrite Hn|done|].
  apply Forall_fmap with (P := fun n => State.reserved n = false) (f := State.name).
  rewrite Hperm. apply Forall_fmap, Forall_forall.
  by intros d [_ ?]%elem_of_goal_dirs.
Qed.

Lemma load_all_goals_sorted_witness :
  ∃ goals, State.load_all_goals
             (Some [State.EntryDir Sample.tested_goal; State.EntryFile "orchestrator.log";
                    State.EntryDir Sample.empty_goal]) = Ok goals
           ∧ StronglySorted String.le (State.name <$> goals).
Proof.
  destruct (State.load_all_goals _) as [goals|e] eqn:E; [|by vm_compute in E].
  exists goals. split; [done|]. apply (load_all_goals_sorted _ _ E).
Defined.

(** X7.  [load_all_goals] returns exactly when [load_goal] returns for
    every directory of the goals directory that is not reserved: one
    goal that does not load makes the whole listing raise. *)
Theorem load_all_goals_returns_iff (entries : list State.dir_entry) :
  returns (State.load_all_goals (Some entries))
  ↔ ∀ d, State.EntryDir d ∈ entries → State.reserved (State.dir_name d) = false →
         returns (State.load_goal d).
Proof.
  cbn [State.load_all_goals]. destruct (sorted_goal_dirs entries) as [_ Hp].
  split.
  - intros [goals Hg%load_goals_spec] d Hin Hr.
    assert (Hd : d ∈ Facts.goal_dirs (State.sorted_entries entries))
      by (rewrite Hp; by apply elem_of_goal_dirs).
    apply list_elem_of_lookup in Hd as [i Hi].
    destruct (Forall2_lookup_l _ _ _ _ _ Hg Hi) as (g & _ & Hload). by exists g.
  - intros H.
    assert (Hall : Forall (fun d => returns (State.load_goal d))
                     (Facts.goal_dirs (State.sorted_entries entries))).
    { apply Forall_forall. intros d Hd. rewrite Hp in Hd.
      apply elem_of_goal_dirs in Hd as [? ?]. by apply H. }
    apply Forall_exists_Forall2_l in Hall as [goals Hall].
    exists goals. by apply load_goals_spec.
Qed.

Lemma load_all_goals_returns_iff_witness :
  ¬ returns (State.load_all_goals
               (Some [State.EntryDir Sample.empty_goal;
                      State.EntryDir Sample.malformed_cost_goal])).
Proof.
  intros H.
  destruct (proj1 (load_all_goals_returns_iff _) H Sample.malformed_cost_goal)
    as [g Hg].
  - apply list_elem_of_further, list_elem_of_here.
  - vm_compute. reflexivity.
  - by vm_compute in Hg.
Defined.

(** X8.  When the listing of the goals loads, the number of active
    goals that [load_repo_config] gives for a repo is the number of
    listed goals whose repo is the name of the directory of the repo. *)
Theorem load_repo_config_active_goals (entries : list State.dir_entry)
    (goals : list State.GoalState) (workspace_is_dir : string → bool)
    (repo_dir : State.RepoDir) :
  State.load_all_goals (Some entries) = Ok goals →
  State.active_goals
    (State.load_repo_config (Some entries) workspace_is_dir repo_dir)
  = length (filter (fun g => State.repo_name g = State.repo_dir_name repo_dir) goals).
Proof.
  intros [_ Hr]%load_goals_spec%loaded_names. cbn [State.load_repo_config State.active_goals].
  set (name := State.repo_dir_name repo_dir).
  transitivity (length (filter (fun d => Facts.repo_of d = name) (Facts.goal_dirs entries))).
  - clear. induction entries as [|[n|d] rest IH]; [done|exact IH|].
    unfold Facts.goal_dirs. cbn [State.count_active_goals omap list_omap Facts.goal_dir_of].
    destruct (State.reserved (State.dir_name d)); [exact IH|].
    fold (Facts.goal_dirs rest). rewrite filter_cons. fold (Facts.repo_of d).
    unfold bool_decide. destruct (decide_rel eq (Facts.repo_of d) name); cbn; by rewrite IH.
  - destruct (sorted_goal_dirs entries) as [_ Hp]. rewrite <- Hp.
    by rewrite (filter_fmap_length Facts.repo_of), (filter_fmap_length State.repo_name), Hr.
Qed.

Lemma load_repo_config_active_goals_witness :
  State.active_goals
    (State.load_repo_config
       (Some [State.EntryDir Sample.tested_goal; State.EntryDir Sample.empty_goal])
       (fun _ => true)
       {| State.repo_dir_path := "agents/repos/my-project";
          State.repo_dir_name := "my-project";
          State.repo_dir_file := fun _ => None |}) = 1.
Proof.
  erewrite load_repo_config_active_goals; [|vm_compute; reflexivity].
  vm_compute. reflexivity.
Defined.

(** ** Attention items *)

Section Attention.

Lemma review_items_kind (goal : string) (file : option string) :
  ∃ items, State.load_review_tasks goal file = Ok items
           ∧ Forall (fun it => State.goal_name it = goal
                               ∧ State.item_type it = "review") items.
Proof.
  destruct file as [content|]; [|by exists []].
  unfold State.load_review_tasks. rewrite review_loop_spec. eexists. split; [done|].
  apply Forall_forall. intros it (o & Hin & Ho)%list_elem_of_omap. cbn in Ho. subst o.
  apply list_elem_of_lookup in Hin as [i Hi].
  apply list_lookup_imap_Some in Hi as (line & _ & Hi).
  unfold Spec.review_at in Hi. destruct (State.review_task line); [|done].
  destruct (Spec.actionable _ _ _); [|done]. by injection Hi as ->.
Qed.

Lemma question_items_kind (goal : string) (file : option string) :
  Forall (fun it => State.goal_name it = goal ∧ State.item_type it = "question")
    (State.load_open_questions goal file).
Proof.
  unfold State.load_open_questions. destruct file as [content|]; [|constructor].
  destruct (Re.search_multiline _ _ _) as [[_ rest]|]; [|constructor].
  by apply Forall_fmap, Forall_true.
Qed.

Lemma constant_sorted (n : string) (l : list string) :
  Forall (fun x => x = n) l → StronglySorted String.le l.
Proof.
  induction 1 as [|x l -> Hl IH]; constructor; [done|].
  eapply Forall_impl; [exact Hl|]. by intros ? ->.
Qed.

Lemma goal_attention_spec (d : State.GoalDir) :
  ∃ items, State.goal_attention d = Ok items
    ∧ Forall (fun it => State.goal_name it = State.dir_name d
                        ∧ State.item_type it ∈ Facts.kinds) items
    ∧ length (filter (fun it => State.item_type it = "paused") items)
      = (if State.exists_in d ".pause" then 1 else 0).
Proof.
  unfold State.goal_attention.
  destruct (review_items_kind (State.dir_name d) (State.dir_file d "IMPLEMENTATION.md"))
    as (reviews & -> & Hr).
  pose proof (question_items_kind (State.dir_name d) (State.dir_file d "questions.md"))
    as Hq.
  cbn. eexists. split; [done|]. split.
  - rewrite !Forall_app. split_and!.
    + eapply Forall_impl; [exact Hr|]. intros it [-> ->]. split; [done|].
      apply list_elem_of_here.
    + eapply Forall_impl; [exact Hq|]. intros it [-> ->]. split; [done|].
      apply list_elem_of_further, list_elem_of_here.
    + destruct (State.exists_in d ".pause"); repeat constructor.
  - rewrite !filter_app, !length_app.
    rewrite (filter_none _ reviews), (filter_none _ (State.load_open_questions _ _)).
    + by destruct (State.exists_in d ".pause").
    + eapply Forall_impl; [exact Hq|]. by intros it [_ ->].
    + eapply Forall_impl; [exact Hr|]. by intros it [_ ->].
Qed.

Lemma attention_loop_spec (entries : list State.dir_entry) :
  StronglySorted State.entry_le entries →
  ∃ items, State.attention_loop entries = Ok items
    ∧ StronglySorted String.le (State.goal_name <$> items)
    ∧ Forall (fun it => (∃ d, d ∈ Facts.goal_dirs entries
                              ∧ State.goal_name it = State.dir_name d)
                        ∧ State.item_type it ∈ Facts.kinds) items
    ∧ length (filter (fun it => State.item_type it = "paused") items)
      = length (filter (fun d => State.exists_in d ".pause" = true)
                  (Facts.goal_dirs entries)).
Proof.
  induction 1 as [|e l Hl (more & Hmore & Hs & Hk & Hc) Hall].
  { exists []. split_and!; [done|constructor|constructor|done]. }
  assert (Hweak : Forall (fun it => (∃ d, d ∈ Facts.goal_dirs (e :: l)
                              ∧ State.goal_name it = State.dir_name d)
                        ∧ State.item_type it ∈ Facts.kinds) more).
  { eapply Forall_impl; [exact Hk|]. intros it [(d & Hd & Hn) Ht]. split; [|done].
    exists d. split; [|done]. apply elem_of_goal_dirs in Hd as [? ?].
    apply elem_of_goal_dirs. split; [by apply list_elem_of_further|done]. }
  destruct (Facts.goal_dir_of e) as [d|] eqn:E.
  - apply goal_dir_of_name in E as [-> Hres].
    destruct (goal_attention_spec d) as (items & Hitems & Hd & Hn).
    exists (items ++ more). cbn [State.attention_loop]. rewrite Hres, Hitems, Hmore.
    unfold Facts.goal_dirs. cbn [omap list_omap Facts.goal_dir_of]. rewrite Hres.
    fold (Facts.goal_dirs l). split_and!; [done| | |].
    + rewrite fmap_app. apply StronglySorted_app_2; [| |done].
      * intros x1 x2 (it1 & -> & Hin1)%list_elem_of_fmap (it2 & -> & Hin2)%list_elem_of_fmap.
        rewrite Forall_forall in Hd. rewrite Forall_forall in Hk.
        rewrite Forall_forall in Hall.
        destruct (Hd _ Hin1) as [-> _].
        destruct (Hk _ Hin2) as [(d' & [Hd' _]%elem_of_goal_dirs & ->) _].
        exact (Hall _ Hd').
      * apply (constant_sorted (State.dir_name d)), Forall_fmap.
        eapply Forall_impl; [exact Hd|]. by intros it [? _].
    + apply Forall_app. split.
      * eapply Forall_impl; [exact Hd|]. intros it [Hg Ht]. split; [|done].
        exists d. split; [apply list_elem_of_here|done].
      * eapply Forall_impl; [exact Hk|]. intros it [(d' & Hd' & Hg) Ht]. split; [|done].
        exists d'. split; [by apply list_elem_of_further|done].
    + rewrite filter_app, length_app, Hn, Hc, filter_cons.
      unfold State.exists_in at 2.
      destruct (State.exists_in d ".pause") eqn:Hp; unfold State.exists_in in Hp;
        destruct (decide _) as [Hyes|Hno]; try done.
      all: exfalso; rewrite Hp in *; done.
  - exists more. split_and!; [|done|done|].
    + destruct e as [n|d]; [done|]. cbn in *.
      by destruct (State.reserved (State.dir_name d)).
    + unfold Facts.goal_dirs. cbn [omap list_omap]. by rewrite E.
Qed.

End Attention.

(** X9.  When [load_attention_items] returns, its items come goal by
    goal, in ascending order of the goal names, and each one is a
    review, a question or a paused item. *)
Theorem load_attention_items_sorted (goals_dir : option (list State.dir_entry))
    (items : list State.AttentionItem) :
  State.load_attention_items goals_dir = Ok items →
  StronglySorted String.le (State.goal_name <$> items)
  ∧ Forall (fun it => State.item_type it ∈ Facts.kinds) items.
Proof.
  destruct goals_dir as [entries|]; cbn [State.load_attention_items].
  - destruct (attention_loop_spec (State.sorted_entries entries))
      as (items' & -> & Hs & Hk & _).
    { apply sorted_entries_sorted. }
    intros [= <-]. split; [done|].
    eapply Forall_impl; [exact Hk|]. by intros it [_ ?].
  - intros [= <-]. split; constructor.
Qed.

Lemma load_attention_items_sorted_witness :
  ∃ items, State.load_attention_items
             (Some [State.EntryDir Sample.question_goal;
                    State.EntryDir Sample.paused_goal]) = Ok items
    ∧ StronglySorted String.le (State.goal_name <$> items)
    ∧ length items = 2.
Proof.
  destruct (State.load_attention_items _) as [items|e] eqn:E; [|by vm_compute in E].
  exists items. split; [done|]. split.
  - exact (proj1 (load_attention_items_sorted _ _ E)).
  - vm_compute in E. by injection E as <-.
Defined.

(** X10.  The items of [load_attention_items] belong to the directories
    of the goals directory that are not reserved, and there is one
    paused item for each such directory that holds a pause file. *)
Theorem load_attention_items_paused (entries : list State.dir_entry)
    (items : list State.AttentionItem) :
  State.load_attention_items (Some entries) = Ok items →
  Forall (fun it => ∃ d, State.EntryDir d ∈ entries
                         ∧ State.reserved (State.dir_name d) = false
                         ∧ State.goal_name it = State.dir_name d) items
  ∧ length (filter (fun it => State.item_type it = "paused") items)
    = length (filter (fun d => State.exists_in d ".pause" = true)
                (Facts.goal_dirs entries)).
Proof.
  cbn [State.load_attention_items].
  destruct (attention_loop_spec (State.sorted_entries entries))
    as (items' & -> & _ & Hk & Hc).
  { apply sorted_entries_sorted. }
  intros [= <-]. destruct (sorted_goal_dirs entries) as [_ Hp]. split.
  - eapply Forall_impl; [exact Hk|]. intros it [(d & Hd & Hn) _].
    rewrite Hp in Hd. apply elem_of_goal_dirs in Hd as [? ?]. by exists d.
  - by rewrite Hc, Hp.
Qed.

Lemma load_attention_items_paused_witness :
  ∃ items, State.load_attention_items
             (Some [State.EntryDir Sample.question_goal; State.EntryFile "orchestrator.log";
                    State.EntryDir Sample.paused_goal]) = Ok items
    ∧ length (filter (fun it => State.item_type it = "paused") items) = 1.
Proof.
  destruct (State.load_attention_items _) as [items|e] eqn:E; [|by vm_compute in E].
  exists items. split; [done|].
  rewrite (proj2 (load_attention_items_paused _ _ E)). vm_compute. reflexivity.
Defined.

(** ** Matches *)

(** Normal form of concatenations. *)
Ltac str_norm :=
  repeat (rewrite str_app_assoc || rewrite str_app_cons || rewrite str_app_nil_l).

Section Matches.

Lemma lit_inv {A : Type} (l : string) (k : Re.matcher A) (s : string) (r : A) :
  Re.lit l k s = Some r → ∃ rest, s = l +:+ rest ∧ k rest = Some r.
Proof.
  unfold Re.lit, Py.startswith. destruct (String.prefix l s) eqn:Hp; [|done].
  intros H. exists (Py.drop (String.length l) s). split; [|done].
  by apply str_prefix_split.
Qed.

Lemma star_inv {A : Type} (c : ascii → bool) (k : string → Re.matcher A)
    (s : string) (r : A) :
  Re.star c k s = Some r →
  ∃ m rest, s = m +:+ rest ∧ Facts.all_of c m ∧ k m rest = Some r.
Proof.
  revert k. induction s as [|a s IH]; intros k; cbn [Re.star].
  - intros H. by exists "", "".
  - assert (Hstop : k "" (String a s) = Some r →
                    ∃ m rest, String a s = m +:+ rest ∧ Facts.all_of c m
                              ∧ k m rest = Some r).
    { intros H. by exists "", (String a s). }
    destruct (c a) eqn:Ha; [|done].
    destruct (Re.star c (fun m => k (String a m)) s) as [r'|] eqn:E; [|done].
    intros [= ->]. apply IH in E as (m & rest & -> & Hm & Hk).
    exists (String a m), rest. split_and!; [by rewrite str_app_cons| |done].
    intros b. cbn [Py.contains]. intros [Hb%chr_eqb_eq|Hb]%orb_prop; [by subst|].
    by apply Hm.
Qed.

Lemma plus_inv {A : Type} (c : ascii → bool) (k : string → Re.matcher A)
    (s : string) (r : A) :
  Re.plus c k s = Some r →
  ∃ m rest, s = m +:+ rest ∧ m ≠ "" ∧ Facts.all_of c m ∧ k m rest = Some r.
Proof.
  unfold Re.plus. destruct s as [|a s]; [done|]. destruct (c a) eqn:Ha; [|done].
  intros (m & rest & -> & Hm & Hk)%star_inv.
  exists (String a m), rest. split_and!; [by rewrite str_app_cons|done| |done].
  intros b. cbn [Py.contains]. intros [Hb%chr_eqb_eq|Hb]%orb_prop; [by subst|].
  by apply Hm.
Qed.

Lemma search_multiline_split {A : Type} (m : Re.matcher A) (b : bool)
    (s before : string) (r : A) :
  Re.search_multiline m b s = Some (before, r) →
  ∃ s', s = before +:+ s' ∧ m s' = Some r.
Proof.
  revert b before. induction s as [|a s IH]; intros b before; cbn [Re.search_multiline].
  - destruct (if b then m "" else None) as [r'|] eqn:E; [|done].
    intros [= <- <-]. exists "". split; [done|]. by destruct b.
  - destruct (if b then m (String a s) else None) as [r'|] eqn:E.
    + intros [= <- <-]. exists (String a s). split; [done|]. by destruct b.
    + destruct (Re.search_multiline m (Py.chr_eqb a Py.LF) s) as [[before' r']|] eqn:Es;
        [|done].
      cbn. intros [= <- <-]. apply IH in Es as (s' & -> & Hm).
      exists s'. by rewrite str_app_cons.
Qed.

Lemma finditer_multiline_inv {A : Type} (m : Re.matcher (A * string)) (b : bool)
    (skip : nat) (s : string) (r : A) :
  r ∈ Re.finditer_multiline m b skip s →
  ∃ before s' rest, s = before +:+ s' ∧ m s' = Some (r, rest).
Proof.
  revert b skip. induction s as [|a s IH]; intros b skip; cbn [Re.finditer_multiline].
  { by intros ?%elem_of_nil. }
  assert (Hnext : ∀ b' skip', r ∈ Re.finditer_multiline m b' skip' s →
            ∃ before s' rest, String a s = before +:+ s' ∧ m s' = Some (r, rest)).
  { intros b' skip' (before & s' & rest & -> & Hm)%IH.
    exists (String a before), s', rest. by rewrite str_app_cons. }
  destruct skip as [|n]; [|by apply Hnext].
  destruct (if b then m (String a s) else None) as [[r' rest]|] eqn:E; [|by apply Hnext].
  intros [->|H]%elem_of_cons; [|by eapply Hnext].
  exists "", (String a s), rest. split; [done|]. by destruct b.
Qed.

Lemma occurs_in_app (part a b c : string) :
  Facts.occurs_in part b → Facts.occurs_in part (a +:+ b +:+ c).
Proof.
  intros (before & after & ->). exists (a +:+ before), (after +:+ c).
  by rewrite !str_app_assoc.
Qed.

End Matches.

(** ** Open questions *)

Section Questions.

Lemma question_entry_inv (s q t rest : string) :
  State.question_entry s = Some (q, t, rest) →
  (∃ digits, q = "Q" +:+ digits ∧ digits ≠ "" ∧ Facts.all_of Py.is_digit digits)
  ∧ t ≠ "" ∧ Py.contains Py.LF t = false
  ∧ ∃ after, s = "### " +:+ q +:+ ":" +:+ after.
Proof.
  unfold State.question_entry.
  intros (s1 & -> & (s2 & -> & H)%lit_inv)%lit_inv.
  apply plus_inv in H as (digits & s3 & -> & Hne & Hd & (s4 & -> & H)%lit_inv).
  apply star_inv in H as (ws & s5 & -> & _ & H).
  apply plus_inv in H as (title & s6 & -> & Hte & Ht & [= <- <- <-]).
  split_and!.
  - by exists digits.
  - done.
  - destruct (Py.contains Py.LF title) eqn:E; [|done].
    apply Ht in E. by vm_compute in E.
  - exists (ws +:+ title +:+ s6). by rewrite !str_app_assoc.
Qed.

End Questions.

(** X11.  Every item of [load_open_questions] is a question of the goal
    without task identifier; its identifier is the letter Q and a
    non-empty run of digits, taken from a heading of the questions
    document; its title is stripped and holds no line feed. *)
Theorem load_open_questions_items (goal : string) (file : option string)
    (it : State.AttentionItem) :
  it ∈ State.load_open_questions goal file →
  State.goal_name it = goal ∧ State.item_type it = "question"
  ∧ State.task_id it = None
  ∧ Py.strip (State.title it) = State.title it
  ∧ Py.contains Py.LF (State.title it) = false
  ∧ ∃ digits text,
      State.question_id it = Some ("Q" +:+ digits) ∧ digits ≠ ""
      ∧ Facts.all_of Py.is_digit digits ∧ file = Some text
      ∧ Facts.occurs_in ("### Q" +:+ digits +:+ ":") text.
Proof.
  unfold State.load_open_questions. destruct file as [content|]; [|by intros ?%elem_of_nil].
  destruct (Re.search_multiline State.open_heading true content) as [[before rest]|] eqn:Eo;
    [|by intros ?%elem_of_nil].
  intros ([q t] & -> & Hin)%list_elem_of_fmap.
  apply finditer_multiline_inv in Hin as (pre & s' & after & Hsec & Hq).
  apply question_entry_inv in Hq as ((digits & -> & Hne & Hd) & _ & Hlf & (tail & ->)).
  cbn [State.question_item State.goal_name State.item_type State.task_id State.title
       State.question_id fst snd].
  split_and!; [done|done|done|apply strip_strip| |].
  - destruct (Py.contains Py.LF (Py.strip t)) eqn:E; [|done].
    apply strip_contains in E. by rewrite E in Hlf.
  - exists digits, content. split_and!; [done..|].
    apply search_multiline_split in Eo as (s0 & -> & Ho).
    unfold State.open_heading in Ho.
    apply lit_inv in Ho as (s1 & -> & (ws & s2 & -> & _ & Ho)%star_inv).
    assert (s2 = rest) as ->.
    { unfold Re.eol_multiline in Ho. destruct s2 as [|a s2]; [by injection Ho|].
      destruct (Py.chr_eqb a Py.LF); [by injection Ho|done]. }
    assert (Hopen : Facts.occurs_in ("### Q" +:+ digits +:+ ":") rest).
    { destruct (Re.search_multiline State.section_heading true rest)
        as [[section u]|] eqn:En.
      - apply search_multiline_split in En as (s3 & -> & _).
        rewrite Hsec. exists pre, (tail +:+ s3). by str_norm.
      - rewrite Hsec. exists pre, tail. by str_norm. }
    destruct Hopen as (x & y & ->).
    exists (before +:+ "## Open" +:+ ws +:+ x), y. by str_norm.
Qed.

Lemma load_open_questions_items_witness :
  ∃ it, State.load_open_questions "question-goal" (Some Sample.tested_questions) = [it]
        ∧ State.question_id it = Some "Q001"
        ∧ State.title it = "What database to use?"
        ∧ Py.contains Py.LF (State.title it) = false.
Proof.
  eexists. split_and!; [vm_compute; reflexivity|reflexivity|reflexivity|].
  apply (load_open_questions_items "question-goal" (Some Sample.tested_questions)).
  vm_compute. apply list_elem_of_here.
Defined.

(** ** The configuration of a repo *)

Section Yaml.

Lemma last_char_cons (a b : ascii) (s : string) :
  State.last_char (String a (String b s)) = State.last_char (String b s).
Proof. done. Qed.

Lemma rstrip_of_last (p : ascii → bool) (s : string) (c : ascii) :
  State.last_char (Py.rstrip_of p s) = Some c → p c = false.
Proof.
  induction s as [|a s IH]; [done|]. cbn [Py.rstrip_of].
  destruct (Py.rstrip_of p s) as [|b r].
  - destruct (p a) eqn:Ha; [done|]. by intros [= <-].
  - rewrite last_char_cons. exact IH.
Qed.

Lemma rstrip_of_id (p : ascii → bool) (s : string) (c : ascii) :
  State.last_char s = Some c → p c = false → Py.rstrip_of p s = s.
Proof.
  intros Hl Hc. induction s as [|a s IH]; [done|]. cbn [Py.rstrip_of].
  destruct s as [|b s].
  - cbn in *. injection Hl as ->. by rewrite Hc.
  - rewrite last_char_cons in Hl. by rewrite (IH Hl).
Qed.

Lemma lstrip_of_last (p : ascii → bool) (s : string) (c : ascii) :
  State.last_char s = Some c → p c = false →
  State.last_char (Py.lstrip_of p s) = Some c.
Proof.
  intros Hl Hc. induction s as [|a s IH]; [done|]. cbn [Py.lstrip_of].
  destruct (p a) eqn:Ha; [|done].
  destruct s as [|b s].
  - cbn in Hl. injection Hl as ->. by rewrite Hc in Ha.
  - rewrite last_char_cons in Hl. by apply IH.
Qed.

(** A text that ends with a character other than whitespace keeps it
    when stripped. *)
Lemma strip_good (s : string) (c : ascii) :
  State.last_char s = Some c → Py.is_space c = false → Facts.good_text (Py.strip s).
Proof.
  intros Hl Hc. split; [|apply strip_strip].
  unfold Py.strip. pose proof (lstrip_of_last _ _ _ Hl Hc) as Hl'.
  rewrite (rstrip_of_id _ _ _ Hl' Hc). intros E. by rewrite E in Hl'.
Qed.

Lemma list_item_good (line : string) :
  Py.startswith (Py.strip line) "- " = true →
  Facts.good_text (Py.strip (Py.drop 2 (Py.strip line))).
Proof.
  unfold Py.startswith. intros Hp.
  pose proof (rstrip_of_last Py.is_space (Py.lstrip_of Py.is_space line)) as Hlast.
  fold (Py.strip line) in Hlast.
  destruct (Py.strip line) as [|a s1]; [done|].
  rewrite str_prefix_cons in Hp. apply andb_prop in Hp as [_ Hp].
  destruct s1 as [|b s2]; [by vm_compute in Hp|].
  rewrite str_prefix_cons in Hp. apply andb_prop in Hp as [Hb%bool_decide_eq_true _].
  subst b. destruct s2 as [|c r].
  - by specialize (Hlast " "%char eq_refl).
  - cbn [Py.drop]. destruct (last_char_contains (String c r)) as (d & Hd & _); [done|].
    apply (strip_good _ d Hd). apply Hlast. by rewrite !last_char_cons.
Qed.

Lemma key_no_colon (stripped key value : string) :
  Py.partition ":" stripped = (key, value) → Py.contains ":" (Py.strip key) = false.
Proof.
  intros Hp. destruct (Py.contains ":" (Py.strip key)) eqn:E; [|done].
  apply strip_contains in E.
  pose proof (partition_fst_no_sep ":" stripped) as H. rewrite Hp in H. cbn in H.
  by rewrite H in E.
Qed.

Lemma parse_config_line_inv (st : State.yaml_state) (line : string) :
  Facts.yaml_inv st → Facts.yaml_inv (State.parse_config_line st line).
Proof.
  intros Hst. pose proof Hst as [Hres Hkey]. unfold State.parse_config_line.
  destruct (negb (Py.truthy (Py.strip line)) || Py.startswith (Py.strip line) "#");
    [done|].
  destruct (Py.startswith (Py.strip line) "- ") eqn:Hitem.
  - destruct (State.current_key st) as [key|] eqn:Hcur; [|done].
    case_bool_decide; [|done]. specialize (Hkey key eq_refl).
    split; [|cbn; by intros parent [= <-]].
    cbn [State.yaml_result].
    pose proof (list_item_good line Hitem) as Hgood.
    destruct (State.yaml_result st !! key) as [[s|items]|] eqn:Hlook.
    + by rewrite Hlook.
    + rewrite Hlook. apply map_Forall_insert_2; [|done]. split; [|done].
      destruct (Hres key _ Hlook) as [Hitems _]. cbn in *.
      apply Forall_app. split; [done|]. by constructor.
    + rewrite lookup_insert_eq. rewrite insert_insert_eq.
      apply map_Forall_insert_2; [|done]. split; [|done]. cbn. by constructor.
  - destruct (Py.contains ":" (Py.strip line)); [|done].
    destruct (Py.partition ":" (Py.strip line)) as [key value] eqn:Hp.
    pose proof (key_no_colon _ _ _ Hp) as Hk.
    destruct (Py.truthy (Py.strip value)) eqn:Hv.
    + assert (Hgood : Facts.good_text (Py.strip value)).
      { split; [|apply strip_strip]. intros E. by rewrite E in Hv. }
      case_bool_decide.
      * split; [|done]. cbn. by apply map_Forall_insert_2.
      * destruct (State.current_key st) as [parent|] eqn:Hcur; [|done].
        specialize (Hkey parent eq_refl).
        split; [|cbn; by intros parent' [= <-]]. cbn.
        apply map_Forall_insert_2; [|done]. split; [done|].
        by rewrite !contains_app_or, Hkey, Hk.
    + split; [done|]. cbn. by intros parent [= <-].
Qed.

Lemma parse_config_lines_inv (lines : list string) (st : State.yaml_state) :
  Facts.yaml_inv st → Facts.yaml_inv (foldl State.parse_config_line st lines).
Proof.
  revert st. induction lines as [|line lines IH]; intros st H; [done|].
  cbn [foldl]. by apply IH, parse_config_line_inv.
Qed.

End Yaml.

(** X12.  Every value of a parsed configuration is a text that is not
    empty and carries no surrounding whitespace, or a list of such
    texts, and no key holds a colon; a missing file gives no key. *)
Theorem parse_config_yaml_values (file : option string) (k : string)
    (v : State.yaml_value) :
  State.parse_config_yaml file !! k = Some v →
  Facts.good_value v ∧ Py.contains ":" k = false ∧ file ≠ None.
Proof.
  destruct file as [text|]; [|done]. cbn [State.parse_config_yaml]. intros H.
  destruct (parse_config_lines_inv (Py.splitlines text) State.yaml_start) as [Hall _].
  { split; [apply map_Forall_empty|done]. }
  destruct (Hall k v H). done.
Qed.

Lemma parse_config_yaml_values_witness :
  Facts.good_value (State.YList ["testing"; "docker"]).
Proof.
  apply (parse_config_yaml_values
           (Some ("skills:" +:+ Sample.nl +:+ "  - testing " +:+ Sample.nl
                  +:+ "  -   docker" +:+ Sample.nl)) "skills").
  vm_compute. reflexivity.
Defined.

(** ** The sandbox section of a repo configuration *)

Section RepoConfig.

Lemma dot_no_lf (s : string) : Facts.all_of Re.dot s → Py.contains Py.LF s = false.
Proof.
  intros H. destruct (Py.contains Py.LF s) eqn:E; [|done].
  apply H in E. by vm_compute in E.
Qed.

Lemma strip_no_lf (s : string) :
  Py.contains Py.LF s = false → Py.contains Py.LF (Py.strip s) = false.
Proof.
  intros H. destruct (Py.contains Py.LF (Py.strip s)) eqn:E; [|done].
  apply strip_contains in E. by rewrite E in H.
Qed.

Lemma env_entry_inv (line key value : string) :
  Sandbox.env_entry line = Some (key, value) →
  Facts.good_variable (key, Py.strip value).
Proof.
  unfold Sandbox.env_entry.
  intros (ws & s1 & -> & _ & _ & H1)%plus_inv.
  apply plus_inv in H1 as (k & s2 & -> & Hne & Hk & H2).
  apply lit_inv in H2 as (s3 & -> & H3).
  apply star_inv in H3 as (ws' & s4 & -> & _ & H4).
  apply plus_inv in H4 as (v & s5 & -> & _ & Hv & H5).
  assert (k = key ∧ v = value) as [-> ->].
  { unfold Re.eol in H5. destruct s5 as [|a [|b s5]]; [by injection H5| |done].
    destruct (Py.chr_eqb a Py.LF); [by injection H5|done]. }
  split_and!; [done|done|apply strip_strip|by apply strip_no_lf, dot_no_lf].
Qed.

Lemma volume_entry_inv (line item : string) :
  Sandbox.volume_entry line = Some item → Facts.good_volume (Py.strip item).
Proof.
  unfold Sandbox.volume_entry.
  intros (ws & s1 & -> & _ & _ & H1)%plus_inv.
  apply lit_inv in H1 as (s2 & -> & H2).
  apply plus_inv in H2 as (ws' & s3 & -> & _ & _ & H3).
  apply plus_inv in H3 as (v & s4 & -> & _ & Hv & H4).
  assert (v = item) as ->.
  { unfold Re.eol in H4. destruct s4 as [|a [|b s4]]; [by injection H4| |done].
    destruct (Py.chr_eqb a Py.LF); [by injection H4|done]. }
  split; [apply strip_strip|by apply strip_no_lf, dot_no_lf].
Qed.

Lemma dict_set_elem {V : Type} (d : list (string * V)) (k : string) (v : V)
    (kv : string * V) :
  kv ∈ Sandbox.dict_set d k v → kv = (k, v) ∨ kv ∈ d.
Proof.
  induction d as [|[k' v'] d IH]; cbn [Sandbox.dict_set].
  - intros ->%list_elem_of_singleton. by left.
  - case_bool_decide as Hk.
    + intros [->|Hin]%elem_of_cons; [by left|]. right. by apply list_elem_of_further.
    + intros [->|Hin]%elem_of_cons; [right; apply list_elem_of_here|].
      destruct (IH Hin) as [->|?]; [by left|]. right. by apply list_elem_of_further.
Qed.

Lemma dict_set_keys {V : Type} (d : list (string * V)) (k : string) (v : V) :
  NoDup d.*1 → NoDup (Sandbox.dict_set d k v).*1
  ∧ ∀ k', k' ∈ (Sandbox.dict_set d k v).*1 → k' = k ∨ k' ∈ d.*1.
Proof.
  induction d as [|[k' v'] d IH]; cbn [Sandbox.dict_set].
  - intros _. split; [apply NoDup_singleton|].
    intros k' ->%list_elem_of_singleton. by left.
  - intros [Hk' Hd]%NoDup_cons. case_bool_decide as Hk.
    + subst k'. split; [by apply NoDup_cons|].
      intros k'. cbn. intros [->|?]%elem_of_cons; [by left|].
      right. by apply list_elem_of_further.
    + destruct (IH Hd) as [Hnd Hin]. split.
      * cbn. apply NoDup_cons. split; [|done].
        intros [->|?]%Hin; [done|]. by apply Hk'.
      * intros k''. cbn. intros [->|Hin']%elem_of_cons; [right; apply list_elem_of_here|].
        destruct (Hin _ Hin') as [->|?]; [by left|]. right. by apply list_elem_of_further.
Qed.

Lemma env_vars_loop_good (result : list (string * string)) (lines : list string) :
  NoDup result.*1 → Forall Facts.good_variable result →
  NoDup (Sandbox.env_vars_loop result lines).*1
  ∧ Forall Facts.good_variable (Sandbox.env_vars_loop result lines).
Proof.
  revert result. induction lines as [|line rest IH]; intros result Hnd Hall; [done|].
  cbn [Sandbox.env_vars_loop].
  destruct (negb (Py.truthy (Py.strip line))
            || negb (Py.startswith line Sandbox.indent6)).
  { destruct (Py.truthy (Py.strip line) && negb (Py.startswith line Sandbox.indent6));
      [done|by apply IH]. }
  destruct (Sandbox.env_entry line) as [[key value]|] eqn:E; [|by apply IH].
  apply IH.
  - by apply dict_set_keys.
  - apply Forall_forall. intros kv [->|Hin]%dict_set_elem.
    + by eapply env_entry_inv.
    + rewrite Forall_forall in Hall. by apply Hall.
Qed.

Lemma items_loop_good {A : Type} (Q : A → Prop) (entry : string → option A)
    (result : list A) (lines : list string) :
  (∀ line item, entry line = Some item → Q item) →
  Forall Q result → Forall Q (Sandbox.items_loop entry result lines).
Proof.
  intros Hentry. revert result.
  induction lines as [|line rest IH]; intros result Hall; [done|].
  cbn [Sandbox.items_loop].
  destruct (negb (Py.truthy (Py.strip line))); [by apply IH|].
  destruct (negb (Py.startswith line Sandbox.indent6)); [done|].
  destruct (entry line) as [item|] eqn:E; [|by apply IH].
  apply IH, Forall_app. split; [done|]. constructor; [|done]. by eapply Hentry.
Qed.

End RepoConfig.

(** X13.  In the sandbox configuration read off a repo configuration,
    no environment variable comes twice, every name is a non-empty run
    of word characters, every value and every volume is stripped and
    holds no line feed, and no port is negative. *)
Theorem parse_repo_config_entries (content : string) :
  NoDup (Sandbox.env_vars (Sandbox.parse_repo_config content)).*1
  ∧ Forall Facts.good_variable (Sandbox.env_vars (Sandbox.parse_repo_config content))
  ∧ Forall Facts.good_volume (Sandbox.volumes (Sandbox.parse_repo_config content))
  ∧ Forall (fun port => (0 ≤ port)%Z) (Sandbox.ports (Sandbox.parse_repo_config content)).
Proof.
  unfold Sandbox.parse_repo_config.
  destruct (Re.search_multiline Sandbox.sandbox_header true content) as [[before text]|];
    [|split_and!; constructor].
  cbn [Sandbox.env_vars Sandbox.volumes Sandbox.ports].
  set (sandbox_text := match Re.search_multiline Sandbox.top_level_key true text with
                       | Some (b, _) => b | None => text end).
  split_and!.
  - destruct (Sandbox.section_text "env_vars" sandbox_text); [|constructor].
    apply env_vars_loop_good; constructor.
  - destruct (Sandbox.section_text "env_vars" sandbox_text); [|constructor].
    apply env_vars_loop_good; constructor.
  - destruct (Sandbox.section_text "volumes" sandbox_text); [|constructor].
    apply items_loop_good; [|constructor].
    intros line item. destruct (Sandbox.volume_entry line) as [v|] eqn:E; [|done].
    intros [= <-]. by eapply volume_entry_inv.
  - destruct (Sandbox.section_text "ports" sandbox_text); [|constructor].
    apply items_loop_good; [|constructor].
    intros line item. destruct (Sandbox.port_entry line) as [v|] eqn:E; [|done].
    intros [= <-]. unfold Sandbox.int_of_digits. lia.
Qed.

Lemma parse_repo_config_entries_witness :
  Sandbox.env_vars (Sandbox.parse_repo_config Sample.repo_config) ≠ []
  ∧ NoDup (Sandbox.env_vars (Sandbox.parse_repo_config Sample.repo_config)).*1.
Proof.
  split; [by vm_compute|]. apply (parse_repo_config_entries Sample.repo_config).
Defined.

(** ** Credentials *)

(** X14.  When [_check_token_expiry] returns that the token is valid,
    its message is empty or the warning with the minutes that remain,
    between 0 and 30; when it returns that the token is not valid, the
    file could not be read or the token has expired. *)
Theorem check_token_expiry_verdict (file : decoded) (now : Z) (valid : bool)
    (msg : string) :
  Sandbox._check_token_expiry file now = Ok (valid, msg) →
  if valid then Facts.expiry_note msg
  else (∃ e, file = Unreadable e ∧ msg = "Failed to read credentials file: " +:+ e)
       ∨ ((∃ data, file = Decoded data) ∧ msg = Sandbox.expired_message).
Proof.
  unfold Sandbox._check_token_expiry. destruct file as [e|data].
  { intros [= <- <-]. left. by exists e. }
  destruct data as [| | | | | |d]; try done. cbn [mbind result_bind].
  set (oauth := default (JDict []) (Sandbox.dict_get d "claudeAiOauth")).
  set (expires_at := match oauth with
                     | JDict o => default JNull (Sandbox.dict_get o "expiresAt")
                     | _ => JNull end).
  assert (Hint : ∀ r, match r with
      | Ok e => if (e <=? now)%Z then Ok (false, Sandbox.expired_message)
                else if (e - now <=? Sandbox.margin_ms)%Z
                     then Ok (true, Sandbox.expiry_warning ((e - now) `div` 60000))
                     else Ok (true, "")
      | Raise ValueError => Ok (true, "")
      | Raise TypeError => Ok (true, "")
      | Raise e => Raise e
      end = Ok (valid, msg) →
      if valid then Facts.expiry_note msg
      else (∃ e, Decoded (JDict d) = Unreadable e
                 ∧ msg = "Failed to read credentials file: " +:+ e)
           ∨ ((∃ data, Decoded (JDict d) = Decoded data)
              ∧ msg = Sandbox.expired_message)).
  { intros [e|[]]; try done; try (intros [= <- <-]; by left).
    destruct (e <=? now)%Z eqn:Hle.
    - intros [= <- <-]. right. split; [by eexists|done].
    - apply Z.leb_gt in Hle.
      destruct (e - now <=? Sandbox.margin_ms)%Z eqn:Hm; intros [= <- <-]; [|by left].
      apply Z.leb_le in Hm. unfold Sandbox.margin_ms in Hm. right.
      exists ((e - now) `div` 60000)%Z. split; [|done]. split.
      + apply Z.div_pos; lia.
      + apply Z.div_le_upper_bound; lia. }
  destruct expires_at; try (intros [= <- <-]; by left); apply Hint.
Qed.

Lemma check_token_expiry_verdict_witness :
  Facts.expiry_note (Sandbox.expiry_warning 10).
Proof.
  apply (check_token_expiry_verdict
           (Decoded (JDict [("claudeAiOauth", JDict [("expiresAt", JInt 1600000)])]))
           1000000 true).
  vm_compute. reflexivity.
Defined.

Section Validation.

Lemma export_keychain_message (h : Sandbox.Host) (ok : bool) (err : string)
    (file : option decoded) :
  Sandbox._export_macos_keychain_credentials h = Ok (ok, err, file) →
  if ok then err = "" ∧ is_Some file else err ≠ "".
Proof.
  unfold Sandbox._export_macos_keychain_credentials.
  destruct (Sandbox.credentials_file h) as [f|]; [by intros [= <- <- <-]|].
  destruct (Sandbox.keychain_secret h) as [| | |code [secret|]]; try done;
    try (by intros [= <- <- <-]).
  case_bool_decide; by intros [= <- <- <-].
Qed.

Lemma warning_strip (m : Z) :
  Py.strip (Sandbox.expiry_warning m +:+ Sandbox.nl +:+ Sandbox.ssh_warning)
  = Sandbox.expiry_warning m +:+ Sandbox.nl +:+ Sandbox.ssh_warning.
Proof.
  unfold Py.strip, Sandbox.expiry_warning. str_norm.
  rewrite lstrip_of_id by done.
  apply (rstrip_of_id _ _ "."%char); [|done].
  rewrite <- !str_app_cons.
  change ("WARNING: Claude OAuth token expires in ~" +:+ Py.str_of_int m +:+ " minutes."
          +:+ Sandbox.nl +:+ Sandbox.ssh_warning)
    with ("WARNING: Claude OAuth token expires in ~" +:+ (Py.str_of_int m +:+ (" minutes."
          +:+ (Sandbox.nl +:+ Sandbox.ssh_warning)))).
  by rewrite !last_char_app.
Qed.

End Validation.

(** X15.  When [validate_credentials] answers that the host is valid,
    [docker info] has run, and the message is the note of the token
    check, followed by the SSH warning on a line of its own when
    [SSH_AUTH_SOCK] is unset or empty; when it answers that the host is
    not valid, the message is not empty. *)
Theorem validate_credentials_verdict (h : Sandbox.Host) (valid : bool) (msg : string) :
  Sandbox.validate_credentials h = Ok (valid, msg) →
  if valid then
    (∃ code out, Sandbox.docker_info h = RunDone code out)
    ∧ ∃ note, Facts.expiry_note note
        ∧ msg = (if Py.truthy (default "" (Sandbox.environ h "SSH_AUTH_SOCK")) then note
                 else if Py.truthy note
                      then note +:+ Sandbox.nl +:+ Sandbox.ssh_warning
                      else Sandbox.ssh_warning)
  else msg ≠ "".
Proof.
  unfold Sandbox.validate_credentials.
  destruct (Sandbox.docker_info h) as [| | |code out] eqn:Hd; try done;
    try (by intros [= <- <-]).
  assert (Hfile : ∀ file : option decoded,
    match file with
    | None => Ok (false, Sandbox.credentials_missing_message)
    | Some file =>
        '(valid, msg) ← Sandbox._check_token_expiry file (Sandbox.now_ms h);
        if negb valid then Ok (false, msg)
        else
          let ssh_sock := default "" (Sandbox.environ h "SSH_AUTH_SOCK") in
          let msg :=
            if negb (Py.truthy ssh_sock) then
              if Py.truthy msg then Py.strip (msg +:+ Sandbox.nl +:+ Sandbox.ssh_warning)
              else Sandbox.ssh_warning
            else msg in
          Ok (true, msg)
    end = Ok (valid, msg) →
    if valid then
      ∃ note, Facts.expiry_note note
          ∧ msg = (if Py.truthy (default "" (Sandbox.environ h "SSH_AUTH_SOCK")) then note
                   else if Py.truthy note
                        then note +:+ Sandbox.nl +:+ Sandbox.ssh_warning
                        else Sandbox.ssh_warning)
    else msg ≠ "").
  { intros [file|]; [|by intros [= <- <-]].
    destruct (Sandbox._check_token_expiry file (Sandbox.now_ms h)) as [[v note]|e] eqn:Ht;
      [|done].
    apply check_token_expiry_verdict in Ht. cbn [mbind result_bind].
    destruct v; cbn [negb].
    - intros [= <- <-]. exists note. split; [done|].
      destruct (Py.truthy (default "" (Sandbox.environ h "SSH_AUTH_SOCK"))); [done|].
      cbn [negb]. destruct Ht as [->|(m & _ & ->)]; [done|].
      by rewrite warning_strip.
    - intros [= <- <-]. destruct Ht as [(e & _ & ->)|[_ ->]]; done. }
  case_bool_decide as Hp.
  - destruct (Sandbox._export_macos_keychain_credentials h) as [[[ok err] file]|e] eqn:He;
      [|done].
    apply export_keychain_message in He. cbn [mbind result_bind].
    destruct ok; cbn [negb].
    + intros H. apply Hfile in H. destruct valid; [|done].
      split; [by eexists _, _|done].
    + by intros [= <- <-].
  - cbn [mbind result_bind negb]. intros H. apply Hfile in H. destruct valid; [|done].
    split; [by eexists _, _|done].
Qed.

Lemma validate_credentials_verdict_witness :
  ∃ code out, Sandbox.docker_info Sample.host = RunDone code out.
Proof.
  apply (validate_credentials_verdict Sample.host true ""). vm_compute. reflexivity.
Defined.

(** ** Containers *)

Section Cleanup.

Lemma stop_containers_all (run : list string → run_outcome string)
    (names : list string) :
  Containers.stop_containers run names = (fun name => ["docker"; "stop"; name]) <$> names.
Proof.
  induction names as [|name rest IH]; [done|]. cbn [Containers.stop_containers].
  destruct (run ["docker"; "stop"; name]); cbn; by rewrite IH.
Qed.

End Cleanup.

(** X16.  [launch_sandboxed] tracks the container of the command it
    builds whether the process starts or [subprocess.Popen] raises, and
    [cleanup_containers] then runs one stop command for every tracked
    container, in the order of tracking and whatever the earlier stop
    commands did, and leaves no container tracked. *)
Theorem launched_containers_are_stopped (h : Sandbox.Host)
    (popen : list string → popen_outcome) (run : list string → run_outcome string)
    (tracked : list string) (script : string) (args : list string)
    (repo_name goal_name : string) (interactive : bool) (extra_ports : list Z)
    (env_overrides : list (string * string)) :
  let launched :=
    Containers.launch_sandboxed h popen tracked script args repo_name goal_name
      interactive extra_ports env_overrides in
  let container_name :=
    (Sandbox.build_sandbox_command h script args repo_name goal_name interactive
       extra_ports env_overrides).2 in
  launched.2 = tracked ++ [container_name]
  ∧ Containers.cleanup_containers run launched.2
    = (((fun name => ["docker"; "stop"; name]) <$> tracked)
       ++ [["docker"; "stop"; container_name]], []).
Proof.
  cbn zeta. unfold Containers.launch_sandboxed, Containers.cleanup_containers.
  destruct (Sandbox.build_sandbox_command _ _ _ _ _ _ _ _) as [cmd name].
  cbn [snd]. rewrite stop_containers_all.
  destruct (popen cmd); cbn [snd]; by rewrite fmap_app.
Qed.

(** ** Quoting for the shell *)

Section Quoting.

Lemma safe_char_plain (c : ascii) :
  Terminal.safe_char c = true →
  Py.chr_eqb c " " = false ∧ Py.chr_eqb c "039" = false ∧ Py.chr_eqb c "034" = false
  ∧ Shell.plain c = true.
Proof.
  destruct c as [[] [] [] [] [] [] [] []]; vm_compute; intros H;
    try discriminate H; done.
Qed.

Lemma extend_app (word : option string) (c : ascii) (s : string) :
  default "" (Shell.extend word c) +:+ s = default "" word +:+ String c s.
Proof. cbn. by rewrite str_app_assoc. Qed.

(** A run of safe characters is read as it stands. *)
Lemma split_safe (p t : string) (word : option string) :
  Terminal.all_safe p = true → p ≠ "" →
  Shell.split_from Shell.Bare word (p +:+ t)
  = Shell.split_from Shell.Bare (Some (default "" word +:+ p)) t.
Proof.
  revert word. induction p as [|c p IH]; intros word Hs Hne; [done|].
  cbn [Terminal.all_safe] in Hs. apply andb_prop in Hs as [Hc Hp].
  apply safe_char_plain in Hc as (H1 & H2 & H3 & H4).
  rewrite str_app_cons. cbn [Shell.split_from]. rewrite H1, H2, H3, H4.
  destruct p as [|d p].
  - by rewrite str_app_nil_l.
  - rewrite IH by done. by rewrite extend_app.
Qed.

(** The body of a single-quoted word, up to the closing quote. *)
Lemma split_quoted (s t w : string) :
  Shell.split_from Shell.InSingle (Some w)
    (Terminal.replace "039" (Terminal.sq +:+ Terminal.dq +:+ Terminal.sq +:+ Terminal.dq
                             +:+ Terminal.sq) s +:+ Terminal.sq +:+ t)
  = Shell.split_from Shell.Bare (Some (w +:+ s)) t.
Proof.
  revert w. induction s as [|c s IH]; intros w.
  - cbn [Terminal.replace]. rewrite str_app_nil_l, str_app_nil_r. done.
  - cbn [Terminal.replace]. destruct (Py.chr_eqb c "039") eqn:Hc.
    + apply chr_eqb_eq in Hc as ->.
      specialize (IH (w +:+ "'")). revert IH.
      unfold Terminal.sq, Terminal.dq. str_norm. intros IH.
      cbn [Shell.split_from].
      change (Py.chr_eqb "039" "039") with true.
      change (Py.chr_eqb "034" "039") with false.
      change (Py.chr_eqb "034" " ") with false.
      change (Py.chr_eqb "034" "034") with true.
      change (Py.chr_eqb "039" "034") with false.
      change (Py.chr_eqb "039" " ") with false.
      change (Shell.expands "039") with false.
      cbv iota. cbn [default Shell.extend]. exact IH.
    + specialize (IH (w +:+ String c "")). revert IH. str_norm. intros IH.
      cbn [Shell.split_from]. rewrite Hc. cbn [Shell.extend default]. exact IH.
Qed.

Lemma split_quote (p t : string) :
  Shell.split_from Shell.Bare None (Terminal._shell_quote p +:+ t)
  = Shell.split_from Shell.Bare (Some p) t.
Proof.
  unfold Terminal._shell_quote. destruct p as [|c p]; cbn [Py.truthy negb].
  - unfold Terminal.sq. by str_norm.
  - destruct (Terminal.all_safe (String c p)) eqn:Hs.
    + by rewrite split_safe.
    + pose proof (split_quoted (String c p) t "") as H. revert H.
      unfold Terminal.sq at 1 2 3 5. unfold Terminal.sq at 4. str_norm. intros H.
      cbn [Shell.split_from]. change (Py.chr_eqb "039" " ") with false.
      change (Py.chr_eqb "039" "039") with true. cbv iota. cbn [default].
      exact H.
Qed.

End Quoting.

(** X17.  The command line that [launch_agent_in_terminal] hands to the
    terminal, the arguments quoted by [_shell_quote] and joined by
    spaces, is split by the shell into the same arguments again. *)
Theorem shell_quote_round_trip (parts : list string) :
  Shell.split (Py.join " " (Terminal._shell_quote <$> parts)) = Some parts.
Proof.
  unfold Shell.split. induction parts as [|p rest IH]; [done|].
  destruct rest as [|q rest].
  - cbn [fmap list_fmap Py.join]. rewrite <- (str_app_nil_r (Terminal._shell_quote p)).
    by rewrite split_quote.
  - change (Py.join " " (Terminal._shell_quote <$> p :: q :: rest))
      with (Terminal._shell_quote p +:+ " "
            +:+ Py.join " " (Terminal._shell_quote <$> q :: rest)).
    rewrite split_quote. str_norm. cbn [Shell.split_from].
    change (Py.chr_eqb " " " ") with true. cbv iota. by rewrite IH.
Qed.

(** ** Terminal sessions *)

Section Cascade.

Lemma attempt_inv (P : Terminal.TerminalResult → Prop) (available : result bool)
    (launch next : result Terminal.TerminalResult) (r : Terminal.TerminalResult) :
  Terminal.attempt available launch next = Ok r →
  (launch = Ok r → Terminal.success r = true → P r) →
  (next = Ok r → P r) → P r.
Proof.
  unfold Terminal.attempt. destruct available as [[]|e]; cbn; [|by auto|done].
  destruct launch as [r'|e]; cbn; [|done].
  destruct (Terminal.success r') eqn:Hs; [|by auto].
  intros [= ->]. auto.
Qed.


Lemma run_launcher_inv (h : Terminal.Host) (method : string) (argv : list string)
    (r : Terminal.TerminalResult) :
  Terminal.run_launcher h method argv = Ok r →
  Terminal.method r = method ∧ Terminal.pid r = None
  ∧ Terminal.fallback_command r = None.
Proof.
  unfold Terminal.run_launcher.
  destruct (Terminal.run h argv) as [[| | |code out]|e]; try done; by intros [= <-].
Qed.

Lemma popen_launcher_inv (h : Terminal.Host) (method : string) (argv : list string)
    (r : Terminal.TerminalResult) :
  Terminal.popen_launcher h method argv = Ok r →
  Terminal.method r = method ∧ Terminal.fallback_command r = None.
Proof.
  unfold Terminal.popen_launcher.
  destruct (Terminal.popen h argv) as [|e|pid]; [by intros [= <-]| |by intros [= <-]].
  destruct (is_oserror e); [by intros [= <-]|done].
Qed.



(** When the cascade returns a failure, it is the fallback result. *)
Lemma open_terminal_session_failed (h : Terminal.Host) (command title : string)
    (working_dir : option string) (r : Terminal.TerminalResult) :
  Terminal.open_terminal_session h command title working_dir = Ok r →
  Terminal.success r = false →
  Terminal.fallback_command r
  = Some ("cd " +:+ default (Terminal.cwd h) working_dir +:+ " && " +:+ command).
Proof.
  unfold Terminal.open_terminal_session. intros H.
  pattern r. match goal with |- ?P r => set (Q := P) end.
  apply (attempt_inv Q _ _ _ _ H); clear H; [intros Hl Hs|intros H].
  2: apply (attempt_inv Q _ _ _ _ H); clear H; [intros Hl Hs|intros H].
  3: apply (attempt_inv Q _ _ _ _ H); clear H; [intros Hl Hs|intros H].
  4: apply (attempt_inv Q _ _ _ _ H); clear H; [intros Hl Hs|intros H].
  5: apply (attempt_inv Q _ _ _ _ H); clear H; [intros Hl Hs|intros H].
  all: subst Q; cbv beta.
  6: { by injection H as <-. }
  all: by rewrite Hs.
Qed.

End Cascade.

(** X18.  A result of [open_terminal_session] is a success of one of the
    five launchers, without fallback command, or it is the fallback
    result with the command to change to the working directory and run
    the command: the result of a launcher that failed is never
    returned.  Only the two launchers that start a process directly
    give a process id. *)
Theorem open_terminal_session_result (h : Terminal.Host) (command title : string)
    (working_dir : option string) (r : Terminal.TerminalResult) :
  Terminal.open_terminal_session h command title working_dir = Ok r →
  (if Terminal.success r
   then Terminal.method r ∈ ["iterm2"; "macos_terminal"; "gnome_terminal";
                              "x_terminal_emulator"; "tmux"]
        ∧ Terminal.fallback_command r = None
   else Terminal.method r = "fallback"
        ∧ Terminal.pid r = None
        ∧ Terminal.fallback_command r
          = Some ("cd " +:+ default (Terminal.cwd h) working_dir +:+ " && " +:+ command))
  ∧ (is_Some (Terminal.pid r) →
     Terminal.method r = "gnome_terminal" ∨ Terminal.method r = "x_terminal_emulator").
Proof.
  unfold Terminal.open_terminal_session. intros H.
  pattern r. match goal with |- ?P r => set (Q := P) end.
  apply (attempt_inv Q _ _ _ _ H); clear H; [intros Hl Hs|intros H].
  2: apply (attempt_inv Q _ _ _ _ H); clear H; [intros Hl Hs|intros H].
  3: apply (attempt_inv Q _ _ _ _ H); clear H; [intros Hl Hs|intros H].
  4: apply (attempt_inv Q _ _ _ _ H); clear H; [intros Hl Hs|intros H].
  5: apply (attempt_inv Q _ _ _ _ H); clear H; [intros Hl Hs|intros H].
  all: subst Q; cbv beta.
  6: { injection H as <-. cbn. split; [done|]. by intros [? [=]]. }
  all: rewrite Hs.
  1, 2, 5: apply run_launcher_inv in Hl as (-> & -> & ->).
  4, 5: apply popen_launcher_inv in Hl as (-> & ->).
  all: split; [split; [|done]|].
  all: try (by intros [? [=]]); try (intros _; by auto).
  all: repeat (first [apply list_elem_of_here|apply list_elem_of_further]).
Qed.

Lemma open_terminal_session_result_witness :
  ∃ r, Terminal.open_terminal_session Sample.headless "ls -l" "Keywork Agent" None = Ok r
       ∧ Terminal.method r = "fallback".
Proof.
  eexists. split; [vm_compute; reflexivity|].
  destruct (open_terminal_session_result Sample.headless "ls -l" "Keywork Agent" None
              _ eq_refl) as [H _].
  exact (proj1 H).
Defined.



(** X20.  A launch of [launch_agent_in_terminal] that fails records no
    session and gives the command to run by hand; a launch that
    succeeds appends one session to the sessions recorded before,
    with the command that was launched, and that session counts as
    active whenever it has no process id or its process is alive. *)
Theorem launch_agent_in_terminal_sessions (h : Terminal.Host) (sandbox : Sandbox.Host)
    (new_id : string) (now : Z) (sessions sessions' : list Terminal.TerminalSession)
    (script : string) (args : list string) (goal_name action repo_name : string)
    (extra_ports : list Z) (r : Terminal.TerminalResult) :
  Terminal.launch_agent_in_terminal h sandbox new_id now sessions script args
    goal_name action repo_name extra_ports = Ok (r, sessions') →
  let command :=
    Py.join " "
      (Terminal._shell_quote
         <$> (Sandbox.build_sandbox_command sandbox script args repo_name goal_name
                true extra_ports []).1) in
  if Terminal.success r then
    ∃ s, sessions' = sessions ++ [s]
         ∧ Terminal.session_id s = new_id
         ∧ Terminal.session_goal_name s = goal_name
         ∧ Terminal.session_command s = command
         ∧ Terminal.session_method s = Terminal.method r
         ∧ ∀ alive, from_option alive true (Terminal.pid r) = true →
                    s ∈ Terminal.get_active_sessions alive sessions'
  else
    sessions' = sessions
    ∧ Terminal.fallback_command r
      = Some ("cd " +:+ Terminal.cwd h +:+ " && " +:+ command).
Proof.
  unfold Terminal.launch_agent_in_terminal.
  destruct (Sandbox.build_sandbox_command _ _ _ _ _ _ _ _) as [cmd_list name].
  cbn [fst]. set (command := Py.join " " (Terminal._shell_quote <$> cmd_list)).
  set (title := if Py.truthy repo_name then _ else _).
  destruct (Terminal.open_terminal_session h command title (Some (Terminal.cwd h)))
    as [r'|e] eqn:Ho; [|done].
  cbn [mbind result_bind]. pose proof (open_terminal_session_failed _ _ _ _ _ Ho) as Hf.
  destruct (Terminal.success r') eqn:Hs.
  - intros [= <- <-]. rewrite Hs. eexists. split_and!; [done..|].
    intros alive Hp. unfold Terminal.get_active_sessions.
    apply list_elem_of_In, filter_In. split.
    + apply in_or_app. right. by left.
    + cbn. by destruct (Terminal.pid r').
  - intros [= <- <-]. rewrite Hs. split; [done|]. by apply Hf.
Qed.

Lemma launch_agent_in_terminal_sessions_witness :
  ∃ r, Terminal.launch_agent_in_terminal Sample.headless Sample.host "id" 0 []
         "agents/run.sh" ["--goal"; "it's"] "g" "review" "" [] = Ok (r, [])
       ∧ is_Some (Terminal.fallback_command r).
Proof.
  eexists. split; [vm_compute; reflexivity|].
  pose proof (launch_agent_in_terminal_sessions Sample.headless Sample.host "id" 0 [] []
                "agents/run.sh" ["--goal"; "it's"] "g" "review" "" [] _ eq_refl) as H.
  cbn zeta in H. destruct H as [_ H]. eexists. exact H.
Defined.

(** ** Review items *)

Section ReviewItems.

Lemma lazy_star_inv {A : Type} (c : ascii → bool) (k : string → Re.matcher A)
    (s : string) (r : A) :
  Re.lazy_star c k s = Some r →
  ∃ m rest, s = m +:+ rest ∧ Facts.all_of c m ∧ k m rest = Some r.
Proof.
  revert k. induction s as [|a s IH]; intros k; cbn [Re.lazy_star].
  - destruct (k "" "") as [r'|] eqn:E; [|done]. intros [= ->]. by exists "", "".
  - destruct (k "" (String a s)) as [r'|] eqn:E.
    { intros [= ->]. by exists "", (String a s). }
    destruct (c a) eqn:Ha; [|done].
    intros (m & rest & -> & Hm & Hk)%IH.
    exists (String a m), rest. split_and!; [by rewrite str_app_cons| |done].
    intros b. cbn [Py.contains]. intros [Hb%chr_eqb_eq|Hb]%orb_prop; [by subst|].
    by apply Hm.
Qed.

Lemma lazy_plus_inv {A : Type} (c : ascii → bool) (k : string → Re.matcher A)
    (s : string) (r : A) :
  Re.lazy_plus c k s = Some r →
  ∃ m rest, s = m +:+ rest ∧ m ≠ "" ∧ Facts.all_of c m ∧ k m rest = Some r.
Proof.
  unfold Re.lazy_plus. destruct s as [|a s]; [done|]. destruct (c a) eqn:Ha; [|done].
  intros (m & rest & -> & Hm & Hk)%lazy_star_inv.
  exists (String a m), rest. split_and!; [by rewrite str_app_cons|done| |done].
  intros b. cbn [Py.contains]. intros [Hb%chr_eqb_eq|Hb]%orb_prop; [by subst|].
  by apply Hm.
Qed.

Lemma review_task_inv (line note : string) :
  State.review_task line = Some note →
  Py.startswith line "- [REVIEW:" = true ∧ Py.contains Py.LF note = false.
Proof.
  unfold State.review_task. intros (s1 & -> & H1)%lit_inv.
  apply star_inv in H1 as (ws & s2 & -> & _ & H2).
  apply lazy_plus_inv in H2 as (m & s3 & -> & _ & Hm & H3).
  apply lit_inv in H3 as (s4 & -> & [= <-]).
  split; [apply str_prefix_app_self|by apply dot_no_lf].
Qed.

Lemma search_task_number_inv (prev : option ascii) (s digits : string) :
  State.search_task_number prev s = Some digits →
  Spec.well_formed_id ("T" +:+ digits) ∧ Facts.occurs_in ("T" +:+ digits) s.
Proof.
  revert prev. induction s as [|a s IH]; intros prev.
  - cbn. by destruct (Re.word_boundary prev "").
  - cbn [State.search_task_number].
    destruct (if Re.word_boundary prev (String a s)
              then State.task_number (String a s) else None) as [d|] eqn:E.
    + intros [= ->]. destruct (Re.word_boundary prev (String a s)); [|done].
      apply task_number_spec in E as [Hw (rest & Hrest)]. split; [done|].
      exists "", rest. by rewrite str_app_nil_l, Hrest, !str_app_assoc.
    + intros [Hw (before & after & ->)]%IH. split; [done|].
      exists (String a before), after. by rewrite str_app_cons.
Qed.

End ReviewItems.

(** X21.  When [_parse_task_id] finds an identifier, it is the letter T
    and a non-empty run of digits, and it stands in the line; a line
    without the letter T has none. *)
Theorem parse_task_id_well_formed (line : string) :
  (∀ task_id, State._parse_task_id line = Some task_id →
     Spec.well_formed_id task_id ∧ Facts.occurs_in task_id line)
  ∧ (Py.contains "T" line = false → State._parse_task_id line = None).
Proof.
  unfold State._parse_task_id. split.
  - intros task_id. destruct (State.search_task_number None line) as [digits|] eqn:E;
      [|done].
    intros [= <-]. by apply search_task_number_inv in E.
  - intros Hno. destruct (State.search_task_number None line) as [digits|] eqn:E; [|done].
    apply search_task_number_inv in E as [_ (before & after & ->)].
    by rewrite !contains_app_or, orb_true_r in Hno.
Qed.

Lemma parse_task_id_well_formed_witness :
  Spec.well_formed_id "T002" ∧ State._parse_task_id "- [ ] setup" = None.
Proof.
  destruct (parse_task_id_well_formed "- [REVIEW: x] T002: Verify") as [H _].
  destruct (parse_task_id_well_formed "- [ ] setup") as [_ H'].
  split; [apply H; vm_compute; reflexivity|apply H'; vm_compute; reflexivity].
Defined.

(** X22.  Every item of [load_review_tasks] is a review of the goal
    without question identifier; its title is stripped and holds no
    line feed, its task identifier, when it has one, is the letter T
    and a non-empty run of digits, and it comes from a line of the
    document that starts with the review marker. *)
Theorem load_review_tasks_items (goal : string) (file : option string)
    (items : list State.AttentionItem) (it : State.AttentionItem) :
  State.load_review_tasks goal file = Ok items → it ∈ items →
  State.goal_name it = goal ∧ State.item_type it = "review"
  ∧ State.question_id it = None
  ∧ Py.strip (State.title it) = State.title it
  ∧ Py.contains Py.LF (State.title it) = false
  ∧ (∀ task_id, State.task_id it = Some task_id → Spec.well_formed_id task_id)
  ∧ ∃ content line, file = Some content ∧ line ∈ Py.splitlines content
      ∧ Py.startswith line "- [REVIEW:" = true
      ∧ State.task_id it = State._parse_task_id line.
Proof.
  destruct file as [content|]; [|cbn; by intros [= <-] ?%elem_of_nil].
  unfold State.load_review_tasks. rewrite review_loop_spec. intros [= <-].
  intros (o & Hin & Ho)%list_elem_of_omap. cbn in Ho. subst o.
  apply list_elem_of_lookup in Hin as [i Hi].
  apply list_lookup_imap_Some in Hi as (line & Hline & Hi).
  unfold Spec.review_at in Hi. destruct (State.review_task line) as [note|] eqn:Hn; [|done].
  destruct (Spec.actionable _ _ _); [|done]. injection Hi as ->.
  apply review_task_inv in Hn as [Hstart Hlf].
  cbn [State.review_item State.goal_name State.item_type State.question_id
       State.title State.task_id].
  split_and!; [done|done|done|apply strip_strip|by apply strip_no_lf| |].
  - intros task_id. unfold State._parse_task_id.
    destruct (State.search_task_number None line) as [digits|] eqn:E; [|done].
    intros [= <-]. by apply search_task_number_inv in E as [? _].
  - exists content, line. split_and!; [done| |done|done].
    by eapply list_elem_of_lookup_2.
Qed.

Lemma load_review_tasks_items_witness :
  ∃ it, State.load_review_tasks "test-goal" (Some Sample.tested_review) = Ok [it]
        ∧ State.title it = "Check the output format"
        ∧ Py.contains Py.LF (State.title it) = false.
Proof.
  eexists. split_and!; [vm_compute; reflexivity|reflexivity|].
  eapply (load_review_tasks_items "test-goal" (Some Sample.tested_review) _ _).
  - vm_compute. reflexivity.
  - apply list_elem_of_here.
Defined.

(** ** Registered repos *)

Section Repos.

Lemma repo_entry_le_trans : Transitive State.repo_entry_le.
Proof. intros a b c. unfold State.repo_entry_le. apply transitivity. Qed.

Lemma repo_entry_le_total : Total State.repo_entry_le.
Proof. intros a b. unfold State.repo_entry_le. apply String.le_total. Qed.

Example test_loads_repos :
  let repos :=
    State.load_registered_repos (Some [])
      (fun name => bool_decide (name = "my-project"))
      (Some [State.RepoEntry Sample.template_repo; State.RepoEntry Sample.tested_repo]) in
  State.repo_state_name <$> repos = ["my-project"]
  ∧ State.language <$> repos = [State.YStr "python"]
  ∧ State.repo_priority <$> repos = [State.YStr "high"]
  ∧ State.initialized <$> repos = [true].
Proof. vm_compute. done. Qed.

Lemma repo_dir_of_name (e : State.repo_entry) (d : State.RepoDir) :
  Facts.repo_dir_of e = Some d →
  e = State.RepoEntry d ∧ State.reserved (State.repo_dir_name d) = false.
Proof.
  destruct e as [n|d']; [done|]. cbn.
  destruct (State.reserved (State.repo_dir_name d')) eqn:E; [done|].
  by intros [= ->].
Qed.

Lemma elem_of_repo_dirs (entries : list State.repo_entry) (d : State.RepoDir) :
  d ∈ Facts.repo_dirs entries
  ↔ State.RepoEntry d ∈ entries ∧ State.reserved (State.repo_dir_name d) = false.
Proof.
  unfold Facts.repo_dirs. rewrite list_elem_of_omap. split.
  - intros (e & Hin & [-> Hr]%repo_dir_of_name). done.
  - intros [Hin Hr]. exists (State.RepoEntry d). split; [done|]. cbn. by rewrite Hr.
Qed.

Lemma repo_dirs_sorted (entries : list State.repo_entry) :
  StronglySorted State.repo_entry_le entries →
  StronglySorted String.le (State.repo_dir_name <$> Facts.repo_dirs entries).
Proof.
  induction 1 as [|e l Hl IH Hall]; [constructor|].
  unfold Facts.repo_dirs. cbn [omap list_omap].
  destruct (Facts.repo_dir_of e) as [d|] eqn:E; [|exact IH].
  apply repo_dir_of_name in E as [-> _]. cbn [fmap list_fmap]. constructor; [exact IH|].
  apply Forall_fmap, Forall_forall. intros d' [Hin _]%elem_of_repo_dirs.
  rewrite Forall_forall in Hall. exact (Hall _ Hin).
Qed.

Lemma load_repos_spec (goals_dir : option (list State.dir_entry))
    (workspace_is_dir : string → bool) (entries : list State.repo_entry) :
  State.load_repos goals_dir workspace_is_dir entries
  = State.load_repo_config goals_dir workspace_is_dir <$> Facts.repo_dirs entries.
Proof.
  induction entries as [|[n|d] rest IH]; [done|exact IH|].
  unfold Facts.repo_dirs. cbn [State.load_repos omap list_omap Facts.repo_dir_of].
  destruct (State.reserved (State.repo_dir_name d)); [exact IH|].
  cbn [fmap list_fmap]. by rewrite IH.
Qed.

Lemma sorted_repo_dirs (entries : list State.repo_entry) :
  StronglySorted String.le
    (State.repo_dir_name
       <$> Facts.repo_dirs (merge_sort State.repo_entry_le entries))
  ∧ Facts.repo_dirs (merge_sort State.repo_entry_le entries) ≡ₚ Facts.repo_dirs entries.
Proof.
  split.
  - apply repo_dirs_sorted.
    apply @StronglySorted_merge_sort; [apply repo_entry_le_trans|apply repo_entry_le_total].
  - unfold Facts.repo_dirs. apply omap_Permutation, merge_sort_Permutation.
Qed.

End Repos.

(** X23.  The list that [load_registered_repos] returns has one repo for
    each directory of the repos directory that is not reserved (the
    template is), under the name of the directory and in ascending
    order of the names; [initialized] tells whether the workspace of
    that name is a directory. *)
Theorem load_registered_repos_sorted (goals_dir : option (list State.dir_entry))
    (workspace_is_dir : string → bool) (entries : list State.repo_entry)
    (repos : list State.RepoState) :
  State.load_registered_repos goals_dir workspace_is_dir (Some entries) = repos →
  StronglySorted String.le (State.repo_state_name <$> repos)
  ∧ State.repo_state_name <$> repos ≡ₚ State.repo_dir_name <$> Facts.repo_dirs entries
  ∧ Forall (fun r => State.reserved (State.repo_state_name r) = false
                     ∧ State.initialized r = workspace_is_dir (State.repo_state_name r))
      repos.
Proof.
  intros <-. cbn [State.load_registered_repos]. rewrite load_repos_spec.
  destruct (sorted_repo_dirs entries) as [Hs Hp].
  rewrite <- list_fmap_compose.
  change (State.repo_state_name ∘ State.load_repo_config goals_dir workspace_is_dir)
    with State.repo_dir_name.
  split_and!; [done|by apply fmap_Permutation|].
  apply Forall_fmap, Forall_forall. intros d Hd. rewrite Hp in Hd.
  apply elem_of_repo_dirs in Hd as [_ Hd]. done.
Qed.

Lemma load_registered_repos_sorted_witness :
  State.repo_state_name
    <$> State.load_registered_repos None (fun _ => true)
          (Some [State.RepoEntry Sample.tested_repo;
                 State.RepoEntry Sample.template_repo])
  ≡ₚ ["my-project"].
Proof.
  destruct (load_registered_repos_sorted None (fun _ => true)
              [State.RepoEntry Sample.tested_repo; State.RepoEntry Sample.template_repo]
              _ eq_refl) as (_ & Hp & _).
  exact Hp.
Defined.

(** X24.  When [_export_macos_keychain_credentials] returns success, its
    message is empty and the credentials file is there; when it returns
    failure, the message is not empty and no file has been written.  A
    credentials file that exists is kept as it is. *)
Theorem export_keychain_outcome (h : Sandbox.Host) (ok : bool) (err : string)
    (file : option decoded) :
  Sandbox._export_macos_keychain_credentials h = Ok (ok, err, file) →
  (if ok then err = "" ∧ is_Some file else err ≠ "" ∧ file = None)
  ∧ (∀ f, Sandbox.credentials_file h = Some f → ok = true ∧ file = Some f).
Proof.
  unfold Sandbox._export_macos_keychain_credentials.
  destruct (Sandbox.credentials_file h) as [f|].
  { intros [= <- <- <-]. split; [done|]. by intros ? [= <-]. }
  destruct (Sandbox.keychain_secret h) as [| | |code [secret|]]; try done;
    try (by intros [= <- <- <-]).
  case_bool_decide; by intros [= <- <- <-].
Qed.

Lemma export_keychain_outcome_witness :
  ∃ err, Sandbox._export_macos_keychain_credentials Sample.host = Ok (true, err, Sandbox.credentials_file Sample.host)
         ∧ err = "".
Proof.
  eexists. split; [vm_compute; reflexivity|].
  destruct (export_keychain_outcome Sample.host true "" _ eq_refl) as [[H _] _].
  exact H.
Defined.

(** ** Escaping for AppleScript *)

Section Escaping.

Lemma replace_app (c : ascii) (new a b : string) :
  Terminal.replace c new (a +:+ b) = Terminal.replace c new a +:+ Terminal.replace c new b.
Proof.
  induction a as [|d a IH]; [done|]. rewrite str_app_cons. cbn [Terminal.replace].
  destruct (Py.chr_eqb d c); by rewrite IH, ?str_app_assoc, ?str_app_cons.
Qed.

Lemma applescript_safe_cons (c : ascii) (s : string) :
  Terminal.applescript_safe (String c s)
  = (if Py.chr_eqb c "092" then Terminal.bs +:+ Terminal.bs
     else if Py.chr_eqb c "034" then Terminal.bs +:+ Terminal.dq
     else String c "")
    +:+ Terminal.applescript_safe s.
Proof.
  unfold Terminal.applescript_safe. cbn [Terminal.replace].
  destruct (Py.chr_eqb c "092") eqn:Hb.
  - by rewrite replace_app.
  - cbn [Terminal.replace]. destruct (Py.chr_eqb c "034"); by str_norm.
Qed.

End Escaping.

(** X25.  The text that the AppleScript launchers put between double
    quotes holds no double quote that would end the string early:
    read as the body of an AppleScript string, the escaped text gives
    the original text back. *)
Theorem applescript_safe_round_trip (s : string) :
  AppleScript.unescape (Terminal.applescript_safe s) = Some s.
Proof.
  induction s as [|c s IH]; [done|]. rewrite applescript_safe_cons.
  destruct (Py.chr_eqb c "092") eqn:Hb.
  - apply chr_eqb_eq in Hb as ->. unfold Terminal.bs. str_norm.
    cbn [AppleScript.unescape]. change (Py.chr_eqb "092" "092") with true.
    cbv iota. cbn [orb]. by rewrite IH.
  - destruct (Py.chr_eqb c "034") eqn:Hq.
    + apply chr_eqb_eq in Hq as ->. unfold Terminal.bs, Terminal.dq. str_norm.
      cbn [AppleScript.unescape]. change (Py.chr_eqb "092" "092") with true.
      change (Py.chr_eqb "034" "092") with false.
      change (Py.chr_eqb "034" "034") with true. cbv iota. cbn [orb]. by rewrite IH.
    + str_norm. cbn [AppleScript.unescape]. by rewrite Hb, Hq, IH.
Qed.

(** * Dependencies and review tasks *)

(** ** The identifiers that a text mentions *)

Section Identifiers.

Lemma span_split (c : ascii → bool) (s : string) :
  s = (Re.span c s).1 +:+ (Re.span c s).2.
Proof.
  induction s as [|a s IH]; [done|]. cbn [Re.span].
  destruct (c a); [|done]. destruct (Re.span c s); cbn in *.
  by rewrite str_app_cons, <- IH.
Qed.

Lemma span_stop (c : ascii → bool) (s : string) :
  match (Re.span c s).2 with
  | String a _ => c a = false
  | EmptyString => True
  end.
Proof.
  induction s as [|a s IH]; [done|]. cbn [Re.span].
  destruct (c a) eqn:Ha; [|done]. by destruct (Re.span c s).
Qed.

Lemma span_app (c : ascii → bool) (m rest : string) :
  Facts.all_of c m →
  match rest with String a _ => c a = false | EmptyString => True end →
  Re.span c (m +:+ rest) = (m, rest).
Proof.
  intros Hm Hrest. induction m as [|a m IH].
  - rewrite str_app_nil_l. destruct rest as [|b rest]; [done|]. cbn. by rewrite Hrest.
  - rewrite str_app_cons. cbn [Re.span].
    rewrite (Hm a) by (cbn; by rewrite chr_eqb_refl).
    rewrite IH; [done|]. intros b Hb. apply Hm. cbn. rewrite Hb. apply orb_true_r.
Qed.

Lemma task_number_cons (t a : ascii) (s : string) :
  State.task_number (String t (String a s))
  = if bool_decide ("T"%char = t) && Py.is_digit a
    then Some (String a (Re.span Py.is_digit s).1) else None.
Proof.
  unfold State.task_number, Re.lit, Py.startswith.
  rewrite str_prefix_cons, str_prefix_nil, andb_true_r.
  case_bool_decide as Et; [|done]. cbn [String.length Py.drop andb Re.plus].
  destruct (Py.is_digit a); [|done].
  by rewrite (star_total _ (fun m _ => String a m)).
Qed.

Lemma task_number_short (s : string) :
  String.length s ≤ 1 → State.task_number s = None.
Proof.
  destruct s as [|t [|a s]]; cbn [String.length]; [done| |lia]. intros _.
  unfold State.task_number, Re.lit, Py.startswith.
  rewrite str_prefix_cons, str_prefix_nil, andb_true_r.
  by case_bool_decide.
Qed.

(** A match of the pattern of an identifier at the start of a text is a
    mention of the identifier there. *)
Lemma task_number_mention (s digits : string) :
  State.task_number s = Some digits →
  Spec.well_formed_id ("T" +:+ digits)
  ∧ ∃ after, s = "T" +:+ digits +:+ after
      ∧ match after with String c _ => Py.is_digit c = false | EmptyString => True end.
Proof.
  destruct s as [|t [|a s]]; try by rewrite task_number_short by (cbn; lia).
  rewrite task_number_cons. case_bool_decide as Et; [subst t|done].
  destruct (Py.is_digit a) eqn:Ha; [|done]. intros [= <-]. split.
  - exists (String a (Re.span Py.is_digit s).1). split_and!; [done..|].
    intros b. cbn [Py.contains]. intros [E%chr_eqb_eq|H]%orb_prop; [by subst|].
    by eapply span_all.
  - exists (Re.span Py.is_digit s).2. split; [|apply span_stop].
    rewrite !str_app_cons, str_app_nil_l. by rewrite <- span_split.
Qed.

Lemma mention_task_number (digits after : string) :
  digits ≠ "" → Facts.all_of Py.is_digit digits →
  match after with String c _ => Py.is_digit c = false | EmptyString => True end →
  State.task_number ("T" +:+ digits +:+ after) = Some digits.
Proof.
  intros Hne Hd Hafter. destruct digits as [|a digits]; [done|].
  rewrite !str_app_cons, str_app_nil_l, task_number_cons.
  rewrite bool_decide_eq_true_2 by done.
  rewrite (Hd a) by (cbn; by rewrite chr_eqb_refl). cbn [andb].
  rewrite span_app; [done| |done].
  intros b Hb. apply Hd. cbn. rewrite Hb. apply orb_true_r.
Qed.

Lemma mentions_cons (a : ascii) (s dep_id : string) :
  Spec.mentions s dep_id → Spec.mentions (String a s) dep_id.
Proof.
  intros (Hw & before & after & -> & Hafter). split; [done|].
  exists (String a before), after. by rewrite str_app_cons.
Qed.

(** What [re.findall] extracts is mentioned. *)
Lemma findall_task_ids_sound (s : string) (n : nat) (dep_id : string) :
  dep_id ∈ State.findall_task_ids n s → Spec.mentions s dep_id.
Proof.
  revert n. induction s as [|a s IH]; intros n; cbn [State.findall_task_ids].
  { by intros ?%elem_of_nil. }
  destruct n as [|n]; [|intros H%IH; by apply mentions_cons].
  destruct (State.task_number (String a s)) as [digits|] eqn:E;
    [|intros H%IH; by apply mentions_cons].
  intros [->|H%IH]%elem_of_cons; [|by apply mentions_cons].
  apply task_number_mention in E as (Hw & after & -> & Hafter).
  split; [done|]. exists "", after. by rewrite str_app_nil_l, !str_app_assoc.
Qed.

(** What is mentioned is extracted: the scan skips digits only. *)
Lemma findall_task_ids_complete (s : string) (n : nat) (before digits after : string) :
  Facts.all_of Py.is_digit (Py.take n s) →
  s = before +:+ "T" +:+ digits +:+ after →
  digits ≠ "" → Facts.all_of Py.is_digit digits →
  match after with String c _ => Py.is_digit c = false | EmptyString => True end →
  ("T" +:+ digits) ∈ State.findall_task_ids n s.
Proof.
  intros Hskip Hs Hne Hd Hafter. revert n before Hskip Hs.
  induction s as [|a s IH]; intros n before Hskip Hs.
  { destruct before; by rewrite ?str_app_cons in Hs. }
  cbn [State.findall_task_ids]. destruct before as [|b before].
  - rewrite str_app_nil_l, str_app_cons, str_app_nil_l in Hs. injection Hs as -> ->.
    destruct n as [|n].
    + pose proof (mention_task_number digits after Hne Hd Hafter) as E.
      rewrite str_app_cons, str_app_nil_l in E. rewrite E. apply list_elem_of_here.
    + specialize (Hskip "T"%char). cbn in Hskip. by specialize (Hskip eq_refl).
  - rewrite str_app_cons in Hs. injection Hs as -> ->.
    destruct n as [|n].
    + destruct (State.task_number (String b (before +:+ "T" +:+ digits +:+ after)))
        as [d|] eqn:E.
      * apply list_elem_of_further. apply (IH (String.length d) before); [|done].
        apply task_number_mention in E as ((d' & Hd' & _ & Hall) & rest & Hrest & _).
        assert (d' = d) as -> by (by rewrite !str_app_cons, !str_app_nil_l in Hd';
                                  injection Hd' as ->).
        intros c Hc. apply Hall.
        rewrite !str_app_cons, !str_app_nil_l in Hrest, Hc. injection Hrest as _ Heq.
        assert (Py.take (String.length d) (d +:+ rest) = d) as Ht.
        { clear. induction d as [|x d IHd]; [by destruct rest|].
          rewrite str_app_cons. cbn. by rewrite IHd. }
        by rewrite Heq, str_app_nil_l, Ht in Hc.
      * by apply (IH 0 before).
    + apply (IH n before); [|done].
      intros c Hc. apply Hskip. cbn [Py.take Py.contains]. rewrite Hc. apply orb_true_r.
Qed.

Lemma findall_task_ids_mentions (s dep_id : string) :
  dep_id ∈ State.findall_task_ids 0 s ↔ Spec.mentions s dep_id.
Proof.
  split; [apply findall_task_ids_sound|].
  intros ((digits & -> & Hne & Hd) & before & after & -> & Hafter).
  by apply (findall_task_ids_complete _ 0 before digits after).
Qed.


End Identifiers.

(** C5.  [_are_depends_satisfied] holds for a Depends line that mentions
    no task identifier, and in general it holds exactly when every task
    identifier that the Depends line mentions (the letter T and a run of
    digits, taken to its end) is marked done on some line of the
    document: the line starts with the done marker and the identifier,
    and the identifier ends at a word boundary. *)
Theorem are_depends_satisfied_iff (depends_line content : string) :
  ((∀ dep_id, ¬ Spec.mentions depends_line dep_id) →
     State._are_depends_satisfied depends_line content = true)
  ∧ (State._are_depends_satisfied depends_line content = true
     ↔ ∀ dep_id, Spec.mentions depends_line dep_id →
                 Spec.marked_done content dep_id).
Proof.
  assert (State._are_depends_satisfied depends_line content = true
          ↔ ∀ dep_id, Spec.mentions depends_line dep_id →
                      Spec.marked_done content dep_id) as Hiff.
  { rewrite depends_satisfied_marked_done. split.
    - intros H dep_id Hm. by apply H, findall_task_ids_mentions.
    - intros H dep_id Hin. by apply H, findall_task_ids_mentions. }
  split; [|exact Hiff].
  intros Hnone. apply Hiff. intros dep_id Hm. by destruct (Hnone dep_id).
Qed.

Lemma are_depends_satisfied_iff_witness :
  State._are_depends_satisfied "T002, T001" Sample.checklist = false
  ∧ Spec.marked_done Sample.checklist "T002".
Proof.
  split.
  - vm_compute. reflexivity.
  - apply (proj1 (proj2 (are_depends_satisfied_iff "T002" Sample.checklist))).
    + vm_compute. reflexivity.
    + split; [by exists "002"; split_and!;
                 [|discriminate|intros a Ha; vm_compute in Ha;
                   repeat (case_match; try done)]|].
      by exists "", "".
Defined.

(** ** The lines of a document and the patterns of the review loop *)

Section ReviewLines.


Lemma span_leading (c : ascii → bool) (s : string) :
  Re.span c s = (Spec.leading c s, Py.lstrip_of c s).
Proof.
  induction s as [|a s IH]; [done|]. cbn. destruct (c a); [|done]. by rewrite IH.
Qed.










End ReviewLines.
(** ** The review tasks that the loop selects *)

Section Selection.




Context (content : string) (lines : list string).
Hypothesis lines_no_lf : Forall (fun line => Py.contains Py.LF line = false) lines.




End Selection.

(** The selection leaves no choice of the tasks: two lists of items
    selected from the same lines carry the same task identifiers. *)
Lemma selected_tasks (goal content : string) (lines : list string) (i : nat)
    (rest : list string) (items items' : list State.AttentionItem) :
  Spec.selected goal content lines i rest items →
  Spec.selected goal content lines i rest items' →
  State.task_id <$> items = State.task_id <$> items'.
Proof.
  revert i items items'. induction rest as [|line rest IH]; intros i items items'.
  { by intros -> ->. }
  cbn [Spec.selected]. destruct (Spec.review_line line); [|apply IH].
  intros [(Ha & item & tl & -> & Hi & Hs)|[Hn Hs]]
         [(Ha' & item' & tl' & -> & Hi' & Hs')|[Hn' Hs']]; try done.
  - destruct Hi as (_ & _ & _ & Ht & _), Hi' as (_ & _ & _ & Ht' & _).
    rewrite !fmap_cons, Ht, Ht'. f_equal. by eapply IH.
  - by eapply IH.
Qed.



